(** * LightRAG demo scripts: the Krishna query demonstrator and the Cloudflare worker

    A shallow embedding of
    - [src/krishna_ai_query_demo.py]: [KrishnaQueryDemonstrator]
      ([initialize_cloudflare_worker] with its fallback worker,
      [query_krishna_topic], [format_result], [run_queries],
      [run_queries_batch], [analyze_latency_patterns], [generate_summary])
      and [main];
    - [src/examples/lightrag_hf_cloudflare_dataset_demo.py]: [CloudflareWorker]
      ([_send_request], [query], [embedding_chunk]) and
      [process_dataset_entries].

    Python exceptions are values of [Result]; the demonstrator's attributes
    and the outside world (responder, clock, event loop) are threaded through
    a state-and-exception monad whose state survives an exception, as Python
    object state does.  Python floats appear through the interface [Arith],
    instantiated by IEEE binary64 over a C library (the arithmetic the
    interpreter runs: [**] is CPython's [float_pow], which calls the
    library's [pow] and raises [OverflowError]) and by the real numbers (the
    arithmetic the formulas denote).  A Python str is held as its UTF-8
    encoding and read character by character. *)

From Stdlib Require Import String Ascii.
From Stdlib Require Import List Arith ZArith Lia Bool.
From Stdlib Require Import Sorted Permutation.
From Stdlib Require Import DecimalString.
From Stdlib Require Import Floats.
From Stdlib Require Import Reals Lra.
Import ListNotations.

Set Implicit Arguments.
Open Scope string_scope.
Open Scope list_scope.

(* ================================================================= *)
(** ** Python exceptions and results *)

Module Py.

(** The subclasses of [Exception] the two scripts can meet;
    [OtherException] stands for any further subclass. *)
Inductive ExceptionClass : Type :=
| ValueError
| TypeError
| AttributeError
| KeyError
| IndexError
| ZeroDivisionError
| OverflowError
| RequestException
| JSONDecodeError
| OtherException.

(** [KeyboardInterrupt], [SystemExit] and [asyncio.CancelledError] derive
    from [BaseException] only, so a handler [except Exception] lets them
    through. *)
Inductive ExcClass : Type :=
| Derived (c : ExceptionClass)
| KeyboardInterrupt
| SystemExit
| CancelledError.

Coercion Derived : ExceptionClass >-> ExcClass.

Definition derives_from_Exception (c : ExcClass) : bool :=
  match c with
  | Derived _ => true
  | _ => false
  end.

(** An exception object: its class and [str(e)]. *)
Record Exc : Type := mkExc { exc_class : ExcClass; exc_str : string }.

Inductive Result (A : Type) : Type :=
| Ok (a : A)
| Raise (e : Exc).
Arguments Ok {A} a.
Arguments Raise {A} e.

Definition bind {A B} (r : Result A) (k : A -> Result B) : Result B :=
  match r with
  | Ok a => k a
  | Raise e => Raise e
  end.

(** [try: body / except Exception as e: handler e]. *)
Definition try_except {A} (body : Result A) (handler : Exc -> Result A) : Result A :=
  match body with
  | Ok a => Ok a
  | Raise e => if derives_from_Exception (exc_class e) then handler e else Raise e
  end.

Definition is_ok {A} (r : Result A) : bool :=
  match r with Ok _ => true | Raise _ => false end.

End Py.
Export Py.

Declare Scope result_scope.
Delimit Scope result_scope with result.
Notation "x <- c1 ;; c2" := (Py.bind c1 (fun x => c2))
  (at level 61, c1 at next level, right associativity) : result_scope.

(* ================================================================= *)
(** ** Python floats *)

(** The float operations the scripts use.  [of_nat] is the implicit
    int-to-float conversion of a mixed expression such as
    [sum(times) / len(times)].  [fpow2 x] is [x ** 2] and [fpow_half x] is
    [x ** 0.5]; either is [None] where CPython raises [OverflowError]. *)
Class Arith (F : Type) : Type := {
  of_nat : nat -> F;
  fadd : F -> F -> F;
  fsub : F -> F -> F;
  fmul : F -> F -> F;
  fdiv : F -> F -> F;
  fpow2 : F -> option F;
  fpow_half : F -> option F;
  fltb : F -> F -> bool;
  feqb : F -> F -> bool
}.

(** [x ** 2] and [x ** 0.5] as Python expressions.  The message is that
    of [PyErr_SetFromErrno] for [ERANGE]. *)
Definition range_error : Exc :=
  mkExc OverflowError "(34, 'Numerical result out of range')".

Definition py_pow2 {F} `{Arith F} (x : F) : Result F :=
  match fpow2 x with
  | Some v => Ok v
  | None => Raise range_error
  end.

Definition py_pow_half {F} `{Arith F} (x : F) : Result F :=
  match fpow_half x with
  | Some v => Ok v
  | None => Raise range_error
  end.

(** *** IEEE 754 binary64, the representation of a CPython float *)

(** The C library's [pow] as CPython calls it, with [errno] cleared
    before the call: the value it returns and whether it leaves [errno] at
    [ERANGE]. *)
Record Libm : Type := { libm_pow : float -> float -> float * bool }.

Definition float_is_nan (x : float) : bool := negb (PrimFloat.eqb x x).

Definition float_is_inf (x : float) : bool :=
  PrimFloat.eqb (PrimFloat.abs x) PrimFloat.infinity.

(** [_Py_ADJUST_ERANGE1(ix)] and the test of [errno] after it: a result
    that is infinite is a range error, a range error on a result of zero
    (an underflow) is none. *)
Definition adjust_erange (r : float * bool) : option float :=
  let (ix, erange) := r in
  if (if erange then negb (PrimFloat.eqb ix 0) else float_is_inf ix)
  then None
  else Some ix.

Section FloatPow.
Variable libm : Libm.

(** [float_pow(v, w)] of CPython's [floatobject.c] at [w = 2.0], case by
    case in the order of the C code: a NaN base, an infinite base, a base
    of zero, a negative base (the exponent is integral and even: the base
    is replaced by its absolute value), a base of one, and the call of
    [pow]. *)
Definition float_pow2 (iv : float) : option float :=
  if float_is_nan iv then Some iv
  else if float_is_inf iv then Some (PrimFloat.abs iv)
  else if PrimFloat.eqb iv 0 then Some 0%float
  else
    let iv := if PrimFloat.ltb iv 0 then PrimFloat.opp iv else iv in
    if PrimFloat.eqb iv 1 then Some 1%float
    else adjust_erange (libm_pow libm iv 2).

(** [float_pow(v, w)] at [w = 0.5].  For a negative base Python builds a
    complex number: no exception and no float.  The only base the scripts
    raise to 0.5 is a sum of squares divided by a count, which is not
    negative when [pow] returns nothing negative (see
    [variance_is_not_negative]); the model has NaN there. *)
Definition float_pow_half (iv : float) : option float :=
  if float_is_nan iv then Some iv
  else if float_is_inf iv then Some (PrimFloat.abs iv)
  else if PrimFloat.eqb iv 0 then Some 0%float
  else if PrimFloat.ltb iv 0 then Some PrimFloat.nan
  else if PrimFloat.eqb iv 1 then Some 1%float
  else adjust_erange (libm_pow libm iv 0x1p-1).

End FloatPow.

(** CPython's float arithmetic over a given C library. *)
Definition Arith_binary64 (libm : Libm) : Arith float := {|
  of_nat n := PrimFloat.of_uint63 (Uint63.of_Z (Z.of_nat n));
  fadd := PrimFloat.add;
  fsub := PrimFloat.sub;
  fmul := PrimFloat.mul;
  fdiv := PrimFloat.div;
  fpow2 := float_pow2 libm;
  fpow_half := float_pow_half libm;
  fltb := PrimFloat.ltb;
  feqb := PrimFloat.eqb
|}.

(** A C library whose [pow] is correctly rounded at the two exponents the
    scripts use: [pow(x, 2.0)] is the rounded product and [pow(x, 0.5)] the
    rounded square root.  The [pow] of a given platform may differ from it
    in the last bit where the result is not a binary64 number; where the
    exact result is one, every [pow] with an error below one unit in the
    last place returns it. *)
Definition correctly_rounded : Libm := {|
  libm_pow x y :=
    if PrimFloat.eqb y 2 then (PrimFloat.mul x x, false)
    else if PrimFloat.eqb y 0x1p-1 then (PrimFloat.sqrt x, false)
    else (PrimFloat.nan, false)
|}.

(** The arithmetic in which the closed examples of this file are
    evaluated. *)
#[export] Instance Arith_float : Arith float := Arith_binary64 correctly_rounded.

(** *** The real numbers: the same formulas without rounding *)

#[export] Instance Arith_R : Arith R := {
  of_nat := INR;
  fadd := Rplus;
  fsub := Rminus;
  fmul := Rmult;
  fdiv := Rdiv;
  fpow2 x := Some (Rmult x x);
  fpow_half x := Some (R_sqrt.sqrt x);
  fltb x y := if Rlt_dec x y then true else false;
  feqb x y := if Req_dec_T x y then true else false
}.

(** [int(x)] of a finite binary64 value: truncation toward zero. *)
Definition py_int (x : float) : Z :=
  match Prim2SF x with
  | S754_finite s m e =>
      let v := if (0 <=? e)%Z then (Z.pos m * 2 ^ e)%Z else (Z.pos m / 2 ^ (- e))%Z in
      if s then (- v)%Z else v
  | _ => 0%Z
  end.

(** Two readings of the specification [Prim2SF x] of a binary64 value: a
    value above zero, finite or infinite, and a zero of either sign. *)
Definition sf_positive (x : spec_float) : bool :=
  match x with
  | S754_finite false _ _ => true
  | S754_infinity false => true
  | _ => false
  end.

Definition sf_zero (x : spec_float) : bool :=
  match x with
  | S754_zero _ => true
  | _ => false
  end.

(** A value that is not below zero: a NaN and a zero of either sign are
    not. *)
Definition sf_not_negative (x : spec_float) : bool :=
  match x with
  | S754_finite true _ _ => false
  | S754_infinity true => false
  | _ => true
  end.

(** A [pow] that returns nothing below zero for a base above zero, as
    that of a C library does. *)
Definition pow_is_not_negative (libm : Libm) : Prop :=
  forall x y : float,
    PrimFloat.ltb 0 x = true -> PrimFloat.ltb (fst (libm_pow libm x y)) 0 = false.

(* ================================================================= *)
(** ** Built-ins on sequences of floats *)

Section Builtins.
Context {F : Type} `{Arith F}.

(** [min(xs)]: keeps the first of several equal minima. *)
Fixpoint min_from (cur : F) (xs : list F) : F :=
  match xs with
  | [] => cur
  | x :: xs' => min_from (if fltb x cur then x else cur) xs'
  end.

Definition py_min (xs : list F) : Result F :=
  match xs with
  | [] => Raise (mkExc ValueError "min() arg is an empty sequence")
  | x :: xs' => Ok (min_from x xs')
  end.

(** [max(xs)]: replaces the current value when an item is greater. *)
Fixpoint max_from (cur : F) (xs : list F) : F :=
  match xs with
  | [] => cur
  | x :: xs' => max_from (if fltb cur x then x else cur) xs'
  end.

Definition py_max (xs : list F) : Result F :=
  match xs with
  | [] => Raise (mkExc ValueError "max() arg is an empty sequence")
  | x :: xs' => Ok (max_from x xs')
  end.

(** [sum(xs)]: from the int [0], left to right.  (CPython 3.12 and later
    carry a compensation term along; the two sums agree on every list
    evaluated in this file.) *)
Definition py_sum (xs : list F) : F := fold_left fadd xs (of_nat 0).

(** [sorted(xs)]: ascending and stable, comparing with [<] only; an item
    goes behind the items already placed that are not greater. *)
Fixpoint insert (x : F) (ys : list F) : list F :=
  match ys with
  | [] => [x]
  | y :: ys' => if fltb x y then x :: y :: ys' else y :: insert x ys'
  end.

Definition sorted (xs : list F) : list F :=
  fold_left (fun acc x => insert x acc) xs [].

(** [xs[i]] for an index [i >= 0]. *)
Definition py_getitem (xs : list F) (i : nat) : Result F :=
  match nth_error xs i with
  | Some x => Ok x
  | None => Raise (mkExc IndexError "list index out of range")
  end.

(** [a / b] where [a] is a float. *)
Definition py_truediv (a b : F) : Result F :=
  if feqb b (of_nat 0)
  then Raise (mkExc ZeroDivisionError "float division by zero")
  else Ok (fdiv a b).

End Builtins.

(** A dict with string keys, in insertion order. *)
Definition Dict (V : Type) : Type := list (string * V).

Fixpoint dict_lookup {V} (d : Dict V) (k : string) : option V :=
  match d with
  | [] => None
  | (k', v) :: d' => if String.eqb k' k then Some v else dict_lookup d' k
  end.

(** [d.get(k, default)]. *)
Definition dict_get {V} (d : Dict V) (k : string) (default : V) : V :=
  match dict_lookup d k with
  | Some v => v
  | None => default
  end.

(* ================================================================= *)
(** ** [KrishnaQueryDemonstrator.analyze_latency_patterns] *)

(** [len(times) // 2]. *)
Definition median_index (n : nat) : nat := n / 2.

(** [int(len(times) * 0.95)] and [int(len(times) * 0.99)].  The product is
    a binary64 product in the source; its truncation is [n * 95 / 100]
    (resp. [n * 99 / 100]), see [percentile_index_binary64]. *)
Definition p95_index (n : nat) : nat := n * 95 / 100.
Definition p99_index (n : nat) : nat := n * 99 / 100.

(** The same two indices computed as the interpreter does. *)
Definition p95_index_binary64 (n : nat) : Z := py_int (PrimFloat.mul (of_nat n) 0x1.e666666666666p-1).
Definition p99_index_binary64 (n : nat) : Z := py_int (PrimFloat.mul (of_nat n) 0x1.fae147ae147aep-1).

Section Analyze.
Context {F : Type} `{Arith F}.

(** [sum((t - sum(times)/len(times))**2 for t in times)]: the mean is
    recomputed for every item of the generator. *)
Definition sum_squared_deviations (times : list F) : Result F :=
  fold_left
    (fun acc t =>
       (a <- acc ;;
        mean <- py_truediv (py_sum times) (of_nat (length times)) ;;
        square <- py_pow2 (fsub t mean) ;;
        Ok (fadd a square))%result)
    times (Ok (of_nat 0)).

Definition analyze_latency_patterns (response_times : list F) : Result (Dict F) :=
  match response_times with
  | [] => Ok []
  | _ =>
      (* Filter out error responses *)
      let times := filter (fun t => fltb (of_nat 0) t) response_times in
      match times with
      | [] => Ok []
      | _ =>
          (min_latency <- py_min times ;;
           max_latency <- py_max times ;;
           median_latency <- py_getitem (sorted times) (median_index (length times)) ;;
           p95_latency <- py_getitem (sorted times) (p95_index (length times)) ;;
           p99_latency <- py_getitem (sorted times) (p99_index (length times)) ;;
           ssd <- sum_squared_deviations times ;;
           variance <- py_truediv ssd (of_nat (length times)) ;;
           std_deviation <- py_pow_half variance ;;
           hi <- py_max times ;;
           lo <- py_min times ;;
           spread <- py_truediv (fsub hi lo) (py_sum times) ;;
           Ok [ ("min_latency", min_latency);
                ("max_latency", max_latency);
                ("median_latency", median_latency);
                ("p95_latency", p95_latency);
                ("p99_latency", p99_latency);
                ("std_deviation", std_deviation);
                ("consistency_score",
                 fsub (of_nat 1) (fmul spread (of_nat (length times)))) ])%result
      end
  end.

End Analyze.


(* ================================================================= *)
(** ** Exact real-number readings of the formulas *)

(** [t > 0], the filter of [analyze_latency_patterns]. *)
Definition is_positive (t : R) : bool := fltb (of_nat 0) t.

(** [sum(times) / len(times)]. *)
Definition mean (times : list R) : R := (py_sum times / INR (length times))%R.

(** [sum((t - mean)**2 for t in times)]. *)
Definition squared_deviations (times : list R) : R :=
  fold_left (fun a t => (a + (t - mean times) * (t - mean times))%R) times 0%R.

(* ================================================================= *)
(** ** Python strings

    A Python [str] is a sequence of code points.  It is held here as the
    bytes of its UTF-8 encoding (a lone surrogate as the three bytes of
    its code point), and the operations that count or classify characters
    read the encoding character by character.  Searching for a str in
    another, and splitting at a newline, are the same on the bytes as on
    the code points. *)

(** A byte of the form [10xxxxxx], which continues a character. *)
Definition is_continuation (c : ascii) : bool :=
  let n := nat_of_ascii c in
  ((128 <=? n) && (n <? 192))%nat.

(** The characters of a string, each with the bytes that encode it: every
    byte that is not a continuation byte starts a character. *)
Fixpoint chars (s : string) : list string :=
  match s with
  | EmptyString => []
  | String c s' =>
      match s' with
      | String c' _ =>
          if is_continuation c'
          then match chars s' with
               | ch :: rest => String c ch :: rest
               | [] => [String c EmptyString]
               end
          else String c EmptyString :: chars s'
      | EmptyString => [String c EmptyString]
      end
  end.

(** The string made of the characters [cs]. *)
Definition join (cs : list string) : string := fold_right append EmptyString cs.

(** [len(s)] and [s[:k]]: they count code points. *)
Definition py_len (s : string) : nat := length (chars s).

Definition py_take (k : nat) (s : string) : string := join (firstn k (chars s)).

(** The UTF-8 encoding of a code point. *)
Definition utf8 (cp : N) : string :=
  let byte (n : N) := String (ascii_of_N n) EmptyString in
  (if cp <? 0x80 then byte cp
   else if cp <? 0x800 then
     byte (0xC0 + cp / 64) ++ byte (0x80 + cp mod 64)
   else if cp <? 0x10000 then
     byte (0xE0 + cp / 4096) ++ byte (0x80 + (cp / 64) mod 64) ++ byte (0x80 + cp mod 64)
   else
     byte (0xF0 + cp / 262144) ++ byte (0x80 + (cp / 4096) mod 64)
     ++ byte (0x80 + (cp / 64) mod 64) ++ byte (0x80 + cp mod 64))%N%string.

(** The code points that [str.isspace], [str.split] and [str.strip] take
    as white space ([_PyUnicode_IsWhitespace]). *)
Definition python_whitespace : list N :=
  [ 0x09; 0x0A; 0x0B; 0x0C; 0x0D; 0x1C; 0x1D; 0x1E; 0x1F; 0x20; 0x85; 0xA0;
    0x1680; 0x2000; 0x2001; 0x2002; 0x2003; 0x2004; 0x2005; 0x2006; 0x2007;
    0x2008; 0x2009; 0x200A; 0x2028; 0x2029; 0x202F; 0x205F; 0x3000 ]%N.

(** [ch.isspace()] for a character [ch]. *)
Definition isspace (ch : string) : bool :=
  existsb (fun cp => String.eqb ch (utf8 cp)) python_whitespace.

(** [s.split()]: the maximal runs of characters that are not white space.
    [word] is the run being read. *)
Fixpoint split_chars (cs : list string) (word : string) : list string :=
  let close (rest : list string) :=
    match word with
    | EmptyString => rest
    | _ => word :: rest
    end in
  match cs with
  | [] => close []
  | ch :: cs' =>
      if isspace ch then close (split_chars cs' EmptyString)
      else split_chars cs' (word ++ ch)
  end.

Definition str_split (s : string) : list string := split_chars (chars s) EmptyString.

(** [s.strip()]: the white space at both ends is dropped. *)
Fixpoint drop_spaces (cs : list string) : list string :=
  match cs with
  | [] => []
  | ch :: cs' => if isspace ch then drop_spaces cs' else cs
  end.

Definition py_strip (s : string) : string :=
  join (rev (drop_spaces (rev (drop_spaces (chars s))))).

(** A string that holds white space only. *)
Definition is_blank (s : string) : bool := forallb isspace (chars s).

(* ================================================================= *)
(** ** JSON values and the Python operations on them *)

(** What [response.json()] can return.  [JNull] is Python's [None]. *)
Inductive Json : Type :=
| JNull
| JBool (b : bool)
| JInt (z : Z)
| JFloat (literal : string)
| JStr (s : string)
| JList (items : list Json)
| JDict (fields : list (string * Json)).

(** [type(v).__name__]. *)
Definition type_name (v : Json) : string :=
  match v with
  | JNull => "NoneType"
  | JBool _ => "bool"
  | JInt _ => "int"
  | JFloat _ => "float"
  | JStr _ => "str"
  | JList _ => "list"
  | JDict _ => "dict"
  end.

Definition no_attribute (v : Json) (attr : string) : Exc :=
  mkExc AttributeError
    ("'" ++ type_name v ++ "' object has no attribute '" ++ attr ++ "'")%string.

(** [k in s] for two strings. *)
Definition is_substring (k s : string) : bool :=
  match String.index 0 k s with
  | Some _ => true
  | None => false
  end.

Definition is_the_string (k : string) (v : Json) : bool :=
  match v with
  | JStr s => String.eqb s k
  | _ => false
  end.

(** [v.get(k, default)]: only a dict has the method. *)
Definition json_get (v : Json) (k : string) (default : Json) : Result Json :=
  match v with
  | JDict fields => Ok (dict_get fields k default)
  | _ => Raise (no_attribute v "get")
  end.

(** [k in v] for a string [k]: key lookup in a dict, membership in a list,
    substring test in a string, [TypeError] elsewhere. *)
Definition json_contains (k : string) (v : Json) : Result bool :=
  match v with
  | JDict fields =>
      Ok (match dict_lookup fields k with Some _ => true | None => false end)
  | JList items => Ok (existsb (is_the_string k) items)
  | JStr s => Ok (is_substring k s)
  | _ => Raise (mkExc TypeError
                  ("argument of type '" ++ type_name v ++ "' is not iterable")%string)
  end.

(** [v[k]] for a string [k]. *)
Definition json_getitem (v : Json) (k : string) : Result Json :=
  match v with
  | JDict fields =>
      match dict_lookup fields k with
      | Some x => Ok x
      | None => Raise (mkExc KeyError ("'" ++ k ++ "'")%string)
      end
  | JList _ => Raise (mkExc TypeError "list indices must be integers or slices, not str")
  | JStr _ => Raise (mkExc TypeError "string indices must be integers")
  | _ => Raise (mkExc TypeError
                  ("'" ++ type_name v ++ "' object is not subscriptable")%string)
  end.

(** A value a worker method hands back: a JSON value or a numpy array
    built from one. *)
Inductive PyValue : Type :=
| PJson (v : Json)
| PArray (data : Json).

Definition PyNone : PyValue := PJson JNull.

(* ================================================================= *)
(** ** [CloudflareWorker] *)

Module CloudflareWorker.

Record t : Type := {
  cloudflare_api_key : string;
  api_base_url : string;
  llm_model_name : string;
  embedding_model_name : string;
  max_tokens : Z;
  max_response_tokens : Z
}.

(** What one evaluation of [requests.post(url, headers=..., json=input_).json()]
    can do: [requests.post] raises (the input does not serialise, or the
    transport fails: every such error is a subclass of [Exception]), the
    body is not JSON, or a JSON value comes back. *)
Inductive HttpOutcome : Type :=
| PostRaises (c : ExceptionClass) (msg : string)
| BodyIsNotJson (msg : string)
| JsonBody (response_raw : Json).

Definition post_json (net : HttpOutcome) : Result Json :=
  match net with
  | PostRaises c msg => Raise (mkExc c msg)
  | BodyIsNotJson msg => Raise (mkExc JSONDecodeError msg)
  | JsonBody response_raw => Ok response_raw
  end.

Section Methods.

(** [np.array] is numpy's; [numpy_rejects data] says that it raises
    [ValueError] on [data] (a ragged nested list). *)
Variable numpy_rejects : Json -> bool.

Definition np_array (data : Json) : Result PyValue :=
  if numpy_rejects data
  then Raise (mkExc ValueError "setting an array element with a sequence")
  else Ok (PArray data).

(** The body of the [try] statement of [_send_request]. *)
Definition _send_request_try (net : HttpOutcome) : Result PyValue :=
  (response_raw <- post_json net ;;
   result <- json_get response_raw "result" (JDict []) ;;
   is_embedding <- json_contains "data" result ;;
   if is_embedding : bool
   then (data <- json_getitem result "data" ;; np_array data)
   else
     (is_llm <- json_contains "response" result ;;
      if is_llm : bool
      then (response <- json_getitem result "response" ;; Ok (PJson response))
      else Raise (mkExc ValueError "Unexpected Cloudflare response format")))%result.

(** [_send_request(self, model_name, input_, debug_log)]; [net] is what
    the HTTP call of this invocation does.  The header dict and the two
    [logger.debug] calls have no effect on the result. *)
Definition _send_request (self : t) (model_name : string) (input_ : Json)
    (debug_log : string) (net : HttpOutcome) : Result PyValue :=
  try_except (_send_request_try net) (fun e => Ok PyNone).

(** [query(self, prompt, system_prompt)]. *)
Definition query (self : t) (prompt system_prompt : string)
    (net : HttpOutcome) : Result PyValue :=
  let message :=
    JList [ JDict [("role", JStr "system"); ("content", JStr system_prompt)];
            JDict [("role", JStr "user"); ("content", JStr prompt)] ] in
  let input_ :=
    JDict [ ("messages", message);
            ("max_tokens", JInt (max_tokens self));
            ("response_token_limit", JInt (max_response_tokens self)) ] in
  _send_request self (llm_model_name self) input_
    ("LLM Query - Model: " ++ llm_model_name self ++ ", Prompt: "
       ++ py_take 100 prompt ++ "...")%string
    net.

End Methods.

End CloudflareWorker.

(* ================================================================= *)
(** ** Programs with state and exceptions *)

(** A method body: it reads and updates a state [S] and returns or raises.
    The state reached when an exception is raised is kept, as attribute
    updates made inside a [try] block are kept by Python. *)
Definition Prog (S A : Type) : Type := S -> Result A * S.

Definition ret {S A} (a : A) : Prog S A := fun s => (Ok a, s).

Definition raise {S A} (e : Exc) : Prog S A := fun s => (Raise e, s).

Definition bindP {S A B} (m : Prog S A) (k : A -> Prog S B) : Prog S B :=
  fun s =>
    match m s with
    | (Ok a, s') => k a s'
    | (Raise e, s') => (Raise e, s')
    end.

Definition lift {S A} (r : Result A) : Prog S A := fun s => (r, s).

Definition gets {S A} (f : S -> A) : Prog S A := fun s => (Ok (f s), s).

Definition modify {S} (f : S -> S) : Prog S unit := fun s => (Ok tt, f s).

(** [try: body / except Exception as e: handler e]. *)
Definition try_exceptP {S A} (body : Prog S A) (handler : Exc -> Prog S A) : Prog S A :=
  fun s =>
    match body s with
    | (Ok a, s') => (Ok a, s')
    | (Raise e, s') =>
        if derives_from_Exception (exc_class e) then handler e s' else (Raise e, s')
    end.

Declare Scope prog_scope.
Delimit Scope prog_scope with prog.
Notation "x <- c1 ;; c2" := (bindP c1 (fun x => c2))
  (at level 61, c1 at next level, right associativity) : prog_scope.
Notation "c1 ;;; c2" := (bindP c1 (fun _ => c2))
  (at level 61, right associativity) : prog_scope.

(** [for x in xs: acc = body x acc], the loop variable [acc] standing for
    the local variables the body rebinds. *)
Fixpoint for_each {S X A} (xs : list X) (acc : A) (body : X -> A -> Prog S A) : Prog S A :=
  match xs with
  | [] => ret acc
  | x :: xs' => (acc' <- body x acc ;; for_each xs' acc' body)%prog
  end.

(* ================================================================= *)
(** ** Built-ins on ints, strings and lists *)

(** [range(start, stop, step)]. *)
Definition py_range (start stop step : Z) : Result (list Z) :=
  if (step =? 0)%Z then Raise (mkExc ValueError "range() arg 3 must not be zero")
  else
    let len :=
      if (0 <? step)%Z
      then (if (start <? stop)%Z then (stop - start - 1) / step + 1 else 0)%Z
      else (if (stop <? start)%Z then (start - stop - 1) / (- step) + 1 else 0)%Z in
    Ok (map (fun k => (start + Z.of_nat k * step)%Z) (seq 0 (Z.to_nat len))).

(** [xs[a:b]] for [0 <= a] and [0 <= b]. *)
Definition py_slice {X} (xs : list X) (a b : Z) : list X :=
  firstn (Z.to_nat (b - a)) (skipn (Z.to_nat a) xs).

(** [enumerate(xs, start)]. *)
Fixpoint enumerate {X} (xs : list X) (start : Z) : list (Z * X) :=
  match xs with
  | [] => []
  | x :: xs' => (start, x) :: enumerate xs' (start + 1)
  end.

(** [a // b] on ints. *)
Definition py_floordiv (a b : Z) : Result Z :=
  if (b =? 0)%Z
  then Raise (mkExc ZeroDivisionError "integer division or modulo by zero")
  else Ok (a / b)%Z.

(** [a / b] on two ints that are not negative. *)
Definition py_int_truediv {F} `{Arith F} (a b : Z) : Result F :=
  if (b =? 0)%Z
  then Raise (mkExc ZeroDivisionError "division by zero")
  else Ok (fdiv (of_nat (Z.to_nat a)) (of_nat (Z.to_nat b))).

(** [v.split()]: only a str has the method here. *)
Definition py_split (v : PyValue) : Result (string * list string) :=
  match v with
  | PJson (JStr s) => Ok (s, str_split s)
  | PJson j => Raise (no_attribute j "split")
  | PArray _ =>
      Raise (mkExc AttributeError "'numpy.ndarray' object has no attribute 'split'")
  end.

(* ================================================================= *)
(** ** [KrishnaQueryDemonstrator] *)

(** One dict appended to [self.results]. *)
Record ResultEntry (F : Type) : Type := {
  question_number : Z;
  question : string;
  response_time : F;
  answer_length : nat
}.

(** The attributes of a demonstrator that its methods read or write.
    [cloudflare_worker] is the truth value of [self.cloudflare_worker]:
    [false] for [None], [true] for a worker object. *)
Record Demonstrator (F : Type) : Type := {
  results : list (ResultEntry F);
  response_times : list F;
  cloudflare_worker : bool;
  connectivity_issues : nat;
  successful_queries : nat;
  total_tokens_estimated : nat
}.

(** [__init__]. *)
Definition new_demonstrator (F : Type) : Demonstrator F := {|
  results := [];
  response_times := [];
  cloudflare_worker := false;
  connectivity_issues := 0;
  successful_queries := 0;
  total_tokens_estimated := 0
|}.

(** The fields that [format_result] renders into its text block:
    ["Question {n}: {question}"], ["Response Time: {t:.2f} ms"] and
    ["Answer: {answer}"]. *)
Record FormattedResult (F : Type) : Type := {
  fr_question_number : Z;
  fr_question : string;
  fr_response_time : F;
  fr_answer : string
}.

(** What [await self.cloudflare_worker.query(question, system_prompt)] does:
    it returns a value or raises an error, a subclass of [Exception]. *)
Inductive Outcome : Type :=
| Returned (v : PyValue)
| Failed (c : ExceptionClass) (msg : string).

(** The world outside the demonstrator, with a state [W] of its own: the
    responder, the clock [time.perf_counter] and [asyncio.sleep]. *)
Record World (F W : Type) : Type := {
  worker_query : string -> string -> W -> Outcome * W;
  perf_counter : W -> F * W;
  asyncio_sleep : F -> W -> W
}.

Definition system_prompt : string :=
  "You are an expert on Hindu mythology, philosophy, and culture.
            Provide accurate, educational, and insightful answers about Krishna, drawing from
            authentic Hindu scriptures, traditions, and scholarly interpretations.
            Be comprehensive but concise, and maintain cultural sensitivity.".

Definition mock_response : string :=
  "Mock response: Krishna is a central figure in Hindu tradition, known for his teachings in the Bhagavad Gita and his divine pastimes.".

Section KrishnaQueryDemonstrator.
Context {F : Type} `{Arith F} {W : Type}.
Variable world : World F W.

Definition St : Type := (Demonstrator F * W)%type.

(** [self.<attribute> = ...]. *)
Definition update (f : Demonstrator F -> Demonstrator F) : Prog St unit :=
  modify (fun s => (f (fst s), snd s)).

Definition incr_successful_queries (d : Demonstrator F) : Demonstrator F := {|
  results := results d;
  response_times := response_times d;
  cloudflare_worker := cloudflare_worker d;
  connectivity_issues := connectivity_issues d;
  successful_queries := successful_queries d + 1;
  total_tokens_estimated := total_tokens_estimated d
|}.

Definition incr_connectivity_issues (d : Demonstrator F) : Demonstrator F := {|
  results := results d;
  response_times := response_times d;
  cloudflare_worker := cloudflare_worker d;
  connectivity_issues := connectivity_issues d + 1;
  successful_queries := successful_queries d;
  total_tokens_estimated := total_tokens_estimated d
|}.

Definition append_response_time (t : F) (d : Demonstrator F) : Demonstrator F := {|
  results := results d;
  response_times := response_times d ++ [t];
  cloudflare_worker := cloudflare_worker d;
  connectivity_issues := connectivity_issues d;
  successful_queries := successful_queries d;
  total_tokens_estimated := total_tokens_estimated d
|}.

Definition add_estimated_tokens (n : nat) (d : Demonstrator F) : Demonstrator F := {|
  results := results d;
  response_times := response_times d;
  cloudflare_worker := cloudflare_worker d;
  connectivity_issues := connectivity_issues d;
  successful_queries := successful_queries d;
  total_tokens_estimated := total_tokens_estimated d + n
|}.

Definition append_result (r : ResultEntry F) (d : Demonstrator F) : Demonstrator F := {|
  results := results d ++ [r];
  response_times := response_times d;
  cloudflare_worker := cloudflare_worker d;
  connectivity_issues := connectivity_issues d;
  successful_queries := successful_queries d;
  total_tokens_estimated := total_tokens_estimated d
|}.

(** [time.perf_counter()]. *)
Definition read_perf_counter : Prog St F :=
  fun s => let (t, w) := perf_counter world (snd s) in (Ok t, (fst s, w)).

(** [await asyncio.sleep(delay)]. *)
Definition sleep (delay : F) : Prog St unit :=
  fun s => (Ok tt, (fst s, asyncio_sleep world delay (snd s))).

(** [await self.cloudflare_worker.query(question, system_prompt)]. *)
Definition await_worker_query (question : string) : Prog St PyValue :=
  fun s =>
    match worker_query world question system_prompt (snd s) with
    | (Returned v, w) => (Ok v, (fst s, w))
    | (Failed c msg, w) => (Raise (mkExc c msg), (fst s, w))
    end.

(** [query_krishna_topic(self, question, question_number)].  The logger
    calls write their lines to [sys.stdout] and to the log file; they do
    not touch the state and are left out. *)
Definition query_krishna_topic (question : string) (question_number : Z)
  : Prog St (string * F) :=
  try_exceptP
    (start_time <- read_perf_counter ;;
     worker <- gets (fun s => cloudflare_worker (fst s)) ;;
     response <-
       (if worker : bool
        then
          try_exceptP
            (response <- await_worker_query question ;;
             update incr_successful_queries ;;;
             ret response)
            (fun conn_error =>
               update incr_connectivity_issues ;;;
               ret (PJson (JStr ("Connection Error: " ++ exc_str conn_error)%string)))
        else ret (PJson (JStr mock_response))) ;;
     end_time <- read_perf_counter ;;
     let response_time_ms := fmul (fsub end_time start_time) (of_nat 1000) in
     update (append_response_time response_time_ms) ;;;
     let question_words := str_split question in
     answer <- lift (py_split response) ;;
     let estimated_tokens := length question_words + length (snd answer) in
     update (add_estimated_tokens estimated_tokens) ;;;
     ret (fst answer, response_time_ms))%prog
    (fun e =>
       (update incr_connectivity_issues ;;;
        ret (("Error: " ++ exc_str e)%string, of_nat 0))%prog).

(** [format_result(self, question_number, question, response_time, answer)]. *)
Definition format_result (question_number : Z) (question : string)
    (response_time : F) (answer : string) : FormattedResult F := {|
  fr_question_number := question_number;
  fr_question := question;
  fr_response_time := response_time;
  fr_answer := answer
|}.

(** The body of the inner loop of [run_queries_batch], for one pair
    [(i, question)] of the enumeration. *)
Definition process_question (total_questions : Z) (delay : F)
    (item : Z * string) (formatted_results : list (FormattedResult F))
  : Prog St (list (FormattedResult F)) :=
  let i := fst item in
  let question := snd item in
  (reply <- query_krishna_topic question i ;;
   let answer := fst reply in
   let response_time := snd reply in
   update (append_result {| question_number := i;
                            question := question;
                            response_time := response_time;
                            answer_length := py_len answer |}) ;;;
   let formatted_result := format_result i question response_time answer in
   let formatted_results := formatted_results ++ [formatted_result] in
   (if fltb (of_nat 0) delay && (i <? total_questions)%Z
    then sleep delay
    else ret tt) ;;;
   ret formatted_results)%prog.

(** The body of the outer loop, for one [batch_start]. *)
Definition process_batch (questions : list string) (delay : F) (batch_size : Z)
    (batch_start : Z) (formatted_results : list (FormattedResult F))
  : Prog St (list (FormattedResult F)) :=
  let total_questions := Z.of_nat (length questions) in
  let batch_end := Z.min (batch_start + batch_size) total_questions in
  let batch_questions := py_slice questions batch_start batch_end in
  (batch_number <- lift (py_floordiv batch_start batch_size) ;;
   formatted_results <-
     for_each (enumerate batch_questions (batch_start + 1)) formatted_results
       (process_question total_questions delay) ;;
   ratio <- lift (py_int_truediv batch_end total_questions) ;;
   let progress : F := fmul ratio (of_nat 100) in
   ret formatted_results)%prog.

(** [run_queries_batch(self, questions, delay, batch_size)]. *)
Definition run_queries_batch (questions : list string) (delay : F) (batch_size : Z)
  : Prog St (list (FormattedResult F)) :=
  let total_questions := Z.of_nat (length questions) in
  (batch_starts <- lift (py_range 0 total_questions batch_size) ;;
   for_each batch_starts [] (process_batch questions delay batch_size))%prog.

End KrishnaQueryDemonstrator.

(* ================================================================= *)
(** ** Concrete worlds *)

(** A world whose state counts the clock readings made so far: the clock
    advances by one second per reading, sleeping does nothing to it, and
    the responder is a function of the prompt alone. *)
Definition ticking_world {F} `{Arith F} (respond : string -> Outcome) : World F nat := {|
  worker_query question _ w := (respond question, w);
  perf_counter w := (of_nat w, S w);
  asyncio_sleep _ w := w
|}.

(** A responder that raises on every prompt. *)
Definition always_fails (question : string) : Outcome :=
  Failed RequestException "connection refused".

(** A responder that answers every prompt. *)
Definition echo (question : string) : Outcome :=
  Returned (PJson (JStr ("ok:" ++ question)%string)).

(** A responder that raises on the prompt ["y"] only. *)
Definition fails_on_y (question : string) : Outcome :=
  if String.eqb question "y" then Failed ValueError "boom" else echo question.

(** The responder that [CloudflareWorker.query] makes, given what each
    prompt's HTTP call does. *)
Definition cloudflare_responder (numpy_rejects : Json -> bool)
    (self : CloudflareWorker.t) (net : string -> CloudflareWorker.HttpOutcome)
    (question : string) : Outcome :=
  match CloudflareWorker.query numpy_rejects self question system_prompt (net question) with
  | Ok v => Returned v
  | Raise e =>
      match exc_class e with
      | Derived c => Failed c (exc_str e)
      | _ => Failed OtherException (exc_str e)
      end
  end.

(** The worker that [initialize_cloudflare_worker] builds when the
    environment sets nothing. *)
Definition demo_worker : CloudflareWorker.t := {|
  CloudflareWorker.cloudflare_api_key := "demo_key";
  CloudflareWorker.api_base_url :=
    "https://api.cloudflare.com/client/v4/accounts/demo_account/ai/run/";
  CloudflareWorker.llm_model_name := "@cf/meta/llama-3.2-3b-instruct";
  CloudflareWorker.embedding_model_name := "@cf/baai/bge-m3";
  CloudflareWorker.max_tokens := 4080;
  CloudflareWorker.max_response_tokens := 4080
|}.

(** A demonstrator whose worker has been initialised. *)
Definition with_worker {F} (d : Demonstrator F) : Demonstrator F := {|
  results := results d;
  response_times := response_times d;
  cloudflare_worker := true;
  connectivity_issues := connectivity_issues d;
  successful_queries := successful_queries d;
  total_tokens_estimated := total_tokens_estimated d
|}.

(* ================================================================= *)
(** ** One query, by cases on what the responder did *)

(** The text [query_krishna_topic] hands back.  [worker] is the truth
    value of [self.cloudflare_worker] and [o] what the responder did. *)
Definition answer_of (worker : bool) (o : Outcome) : string :=
  if worker
  then
    match o with
    | Returned v =>
        match py_split v with
        | Ok answer => fst answer
        | Raise e => ("Error: " ++ exc_str e)%string
        end
    | Failed _ msg => ("Connection Error: " ++ msg)%string
    end
  else mock_response.

(** Whether the query counts as a success ([successful_queries += 1]). *)
Definition successes_of (worker : bool) (o : Outcome) : nat :=
  if worker then match o with Returned _ => 1 | Failed _ _ => 0 end else 0.

(** Whether the query counts as a failure ([connectivity_issues += 1]). *)
Definition issues_of (worker : bool) (o : Outcome) : nat :=
  if worker
  then
    match o with
    | Returned v => if is_ok (py_split v) then 0 else 1
    | Failed _ _ => 1
    end
  else 0.

(** The words added to [total_tokens_estimated]. *)
Definition tokens_of (question : string) (worker : bool) (o : Outcome) : nat :=
  if worker
  then
    match o with
    | Returned v =>
        match py_split v with
        | Ok answer => length (str_split question) + length (snd answer)
        | Raise _ => 0
        end
    | Failed _ msg =>
        length (str_split question)
        + length (str_split ("Connection Error: " ++ msg)%string)
    end
  else length (str_split question) + length (str_split mock_response).

(** Whether the measured latency is the one handed back (otherwise [0.0] is). *)
Definition keeps_latency (worker : bool) (o : Outcome) : bool :=
  if worker
  then match o with Returned v => is_ok (py_split v) | Failed _ _ => true end
  else true.

Section QueryReadings.
Context {F : Type} `{Arith F} {W : Type}.
Variable world : World F W.

(** What the responder does when asked [question] in world state [w]: the
    call comes after one reading of the clock. *)
Definition outcome_at (question : string) (w : W) : Outcome :=
  fst (worker_query world question system_prompt (snd (perf_counter world w))).

(** The latency measured around that call. *)
Definition latency_at (worker : bool) (question : string) (w : W) : F :=
  let t0 := fst (perf_counter world w) in
  let w1 := snd (perf_counter world w) in
  let w2 := if worker then snd (worker_query world question system_prompt w1) else w1 in
  fmul (fsub (fst (perf_counter world w2)) t0) (of_nat 1000).

End QueryReadings.

(** Number, question and answer of a formatted result: all of it but the
    response time. *)
Definition outline {F} (r : FormattedResult F) : Z * string * string :=
  (fr_question_number r, fr_question r, fr_answer r).

(** The same for an entry of [self.results]. *)
Definition entry_outline {F} (r : ResultEntry F) : Z * string * nat :=
  (question_number r, question r, answer_length r).

(** Whether the binary64 indices for a list of length [n] are
    [n * 95 / 100] and [n * 99 / 100]. *)
Definition percentile_indices_agree (n : nat) : bool :=
  Z.eqb (p95_index_binary64 n) (Z.of_nat n * 95 / 100)
  && Z.eqb (p99_index_binary64 n) (Z.of_nat n * 99 / 100).

(** A responder is deterministic when what it does depends on the prompt
    alone: [respond] says what. *)
Definition deterministic {F W} (world : World F W) (respond : string -> Outcome) : Prop :=
  forall question system w, fst (worker_query world question system w) = respond question.

(** A responder that raises on every prompt. *)
Definition always_raises {F W} (world : World F W) : Prop :=
  forall question system w,
    exists c msg, fst (worker_query world question system w) = Failed c msg.

(** Two demonstrators that differ in the recorded times at most. *)
Definition agree_up_to_latency {F} (d1 d2 : Demonstrator F) : Prop :=
  map entry_outline (results d1) = map entry_outline (results d2) /\
  length (response_times d1) = length (response_times d2) /\
  cloudflare_worker d1 = cloudflare_worker d2 /\
  connectivity_issues d1 = connectivity_issues d2 /\
  successful_queries d1 = successful_queries d2 /\
  total_tokens_estimated d1 = total_tokens_estimated d2.

(* ================================================================= *)
(** ** The fallback worker of [initialize_cloudflare_worker] *)

(** [_generate_mock_response(self, prompt)] of the class that
    [initialize_cloudflare_worker] defines when the import of the real
    one raises [ImportError]: the first keyword found in the prompt
    decides the answer. *)
Definition _generate_mock_response (prompt : string) : string :=
  if is_substring "Bhagavad Gita" prompt then
    "In the Bhagavad Gita, Krishna appears as a divine teacher and charioteer, emphasizing philosophical wisdom, duty, and spiritual liberation. In contrast, Puranic stories depict his playful childhood with the gopis, stealing butter, and engaging in divine pastimes that highlight his human-like qualities and loving nature."
  else if is_substring "Arjuna" prompt then
    "Krishna's relationship with Arjuna exemplifies dharma (righteous duty) through the Bhagavad Gita teachings, while bhakti (devotion) is shown through Arjuna's unwavering faith in Krishna as his divine guide during the Mahabharata war."
  else if is_substring "Vaishnavism" prompt then
    "Krishna's avatars, particularly his role as the divine cowherd and teacher, became central to Vaishnavism, influencing devotional practices, temple worship, and the development of bhakti movements across India."
  else if is_substring "Mahabharata" prompt then
    "As Arjuna's charioteer, Krishna demonstrated that true wisdom comes from divine guidance rather than physical strength, teaching that spiritual wisdom is more powerful than material prowess in achieving victory."
  else if is_substring "Janmashtami" prompt then
    "Krishna Janmashtami celebrates his birth and has evolved from ancient Vedic rituals to include elaborate festivals, fasting, devotional singing, and community celebrations that reinforce his role as the divine child and protector."
  else if is_substring "philosophical teachings" prompt then
    "Krishna teaches that the soul is eternal and unchanging, while the body is temporary. True liberation comes from performing one's duty without attachment to results, recognizing the divine in all beings."
  else if is_substring "gopis" prompt then
    "The Ras Lila stories symbolize the soul's journey toward divine union, where Krishna represents the divine beloved and the gopis represent devoted souls seeking spiritual enlightenment through love and surrender."
  else if is_substring "classical arts" prompt then
    "Krishna has inspired countless works in Bharatanatyam dance, Carnatic music compositions, classical literature like Jayadeva's Gita Govinda, and visual arts depicting his divine pastimes and teachings."
  else if is_substring "time and creation" prompt then
    "Krishna's cosmic form reveals the cycle of creation, preservation, and destruction, teaching that time is divine and that understanding this cycle leads to liberation from the illusion of material existence."
  else if is_substring "modern Hindu" prompt then
    "Krishna's teachings promote equality by emphasizing character over birth, respect for all beings, and the importance of righteous action, influencing modern social reforms and ethical discussions in Hindu communities."
  else
    "Krishna, the eighth avatar of Vishnu, embodies divine love, wisdom, and protection. His teachings and stories continue to inspire millions with messages of duty, devotion, and spiritual liberation.".

(** [1 / 10] and [1 / 2]: the quotients round to the literals [0.1] and
    [0.5] of the script. *)
Definition one_tenth {F} `{Arith F} : F := fdiv (of_nat 1) (of_nat 10).
Definition one_half {F} `{Arith F} : F := fdiv (of_nat 1) (of_nat 2).

(** [query(self, prompt, system_prompt)] of the fallback class:
    [await asyncio.sleep(0.1)], then the mock response. *)
Definition mock_query {F} `{Arith F} {W} (world : World F W)
    (prompt system_prompt : string) (w : W) : Outcome * W :=
  (Returned (PJson (JStr (_generate_mock_response prompt))),
   asyncio_sleep world one_tenth w).

(** A world whose responder is an instance of the fallback class; clock
    and event loop are those of [world]. *)
Definition with_mock_worker {F} `{Arith F} {W} (world : World F W) : World F W := {|
  worker_query := mock_query world;
  perf_counter := perf_counter world;
  asyncio_sleep := asyncio_sleep world
|}.

(** A world whose responder is [CloudflareWorker.query] on the worker
    [self]; [net] says what the HTTP call made for a prompt does. *)
Definition with_cloudflare_worker {F W} (numpy_rejects : Json -> bool)
    (self : CloudflareWorker.t) (net : string -> CloudflareWorker.HttpOutcome)
    (world : World F W) : World F W := {|
  worker_query question system w :=
    (match CloudflareWorker.query numpy_rejects self question system (net question) with
     | Ok v => Returned v
     | Raise e =>
         match exc_class e with
         | Derived c => Failed c (exc_str e)
         | _ => Failed OtherException (exc_str e)
         end
     end, w);
  perf_counter := perf_counter world;
  asyncio_sleep := asyncio_sleep world
|}.

(** Whether the HTTP call brings no JSON body back. *)
Definition http_fails (net : CloudflareWorker.HttpOutcome) : bool :=
  match net with
  | CloudflareWorker.JsonBody _ => false
  | _ => true
  end.

(** The text of the [AttributeError] that [None.split()] raises, as the
    outer handler of [query_krishna_topic] words it. *)
Definition none_has_no_split : string :=
  "Error: 'NoneType' object has no attribute 'split'".

(* ================================================================= *)
(** ** [CloudflareWorker.embedding_chunk] *)

(** [str(n)] for an int [n >= 0]. *)
Definition str_of_nat (n : nat) : string := NilZero.string_of_uint (Nat.to_uint n).

(** [embedding_chunk(self, texts)]. *)
Definition embedding_chunk (numpy_rejects : Json -> bool) (self : CloudflareWorker.t)
    (texts : list string) (net : CloudflareWorker.HttpOutcome) : Result PyValue :=
  let input_ :=
    JDict [ ("text", JList (map JStr texts));
            ("max_tokens", JInt (CloudflareWorker.max_tokens self));
            ("response_token_limit", JInt (CloudflareWorker.max_response_tokens self)) ] in
  CloudflareWorker._send_request numpy_rejects self
    (CloudflareWorker.embedding_model_name self) input_
    ("Embedding - Model: " ++ CloudflareWorker.embedding_model_name self
       ++ ", Texts: " ++ str_of_nat (length texts))%string
    net.

(* ================================================================= *)
(** ** [os.getenv] *)

(** The process environment. *)
Definition Environ : Type := string -> option string.

(** [os.getenv(key, default)]. *)
Definition os_getenv (environ : Environ) (key default : string) : string :=
  match environ key with
  | Some value => value
  | None => default
  end.

(** The truth value of [os.getenv(key)]: false when the variable is unset
    or empty. *)
Definition getenv_is_set (environ : Environ) (key : string) : bool :=
  match environ key with
  | Some value => negb (String.eqb value "")
  | None => false
  end.

(* ================================================================= *)
(** ** [KrishnaQueryDemonstrator]: initialisation, the plain run, the summary *)

(** [KRISHNA_QUESTIONS], the 57 questions of the script. *)
Definition KRISHNA_QUESTIONS : list string :=
  [ "What are the main differences between Krishna's role in the Bhagavad Gita versus his depiction in the stories of his childhood and youth in the Puranas?";
    "How does Krishna's relationship with Arjuna exemplify the concepts of duty (dharma) and devotion (bhakti) in Hindu philosophy?";
    "Can you explain the significance of Krishna's role in the Mahabharata war, particularly his decision to become Arjuna's charioteer?";
    "What is the story behind Krishna's birth and how does it relate to the prophecy about Kamsa's death?";
    "How did Krishna's childhood adventures, such as lifting the Govardhan hill, demonstrate his divine nature?";
    "What role does Krishna play in the Vishnu Sahasranama, and how is he described there?";
    "How does Krishna's interaction with the serpent Kaliya illustrate themes of protection and divine intervention?";
    "What is the significance of Krishna's friendship with Sudama in Hindu devotional literature?";
    "How does Krishna's role as a king of Dwarka differ from his pastoral life in Vrindavan?";
    "What are the key events in Krishna's life according to the Vishnu Purana?";
    "How does Krishna's marriage to Rukmini exemplify the concept of divine love in Hindu tradition?";
    "What is the story of Krishna and the Syamantaka jewel, and what does it teach about trust and suspicion?";
    "How did Krishna's teachings influence the development of the concept of avatar in Hindu philosophy?";
    "What role does Krishna play in the Kurukshetra war according to different Hindu texts?";
    "How does Krishna's departure from the world (mahaprasthana) symbolize spiritual liberation?";
    "What philosophical teachings does Krishna impart about the nature of reality, the self, and liberation (moksha) in the Bhagavad Gita?";
    "How does Krishna's concept of time and the cycle of creation and destruction relate to Hindu cosmology?";
    "What does Krishna teach about the three gunas (sattva, rajas, tamas) and their influence on human behavior?";
    "How does Krishna explain the relationship between karma, dharma, and reincarnation?";
    "What is Krishna's teaching about detachment (vairagya) and its importance in spiritual practice?";
    "How does Krishna describe the path of knowledge (jnana yoga) versus the path of action (karma yoga)?";
    "What does Krishna teach about the nature of the soul (atman) and its relationship to Brahman?";
    "How does Krishna's universal form (Vishvarupa) revelation teach about divine omnipresence?";
    "What is Krishna's perspective on caste and social duty according to the Bhagavad Gita?";
    "How does Krishna explain the concept of divine grace (prasada) in spiritual development?";
    "What teachings does Krishna give about meditation and concentration of mind?";
    "How does Krishna describe the qualities of a true devotee (bhakta)?";
    "What is Krishna's teaching about the impermanence of the material world?";
    "How does Krishna explain the relationship between individual soul and universal consciousness?";
    "What does Krishna teach about overcoming desires and attachments?";
    "How do Krishna's relationships with the gopis in the Ras Lila stories symbolize spiritual love and divine union?";
    "What is the significance of Radha's relationship with Krishna in Hindu mysticism?";
    "How does Krishna's relationship with his parents, Devaki and Vasudeva, illustrate divine protection?";
    "What role does Krishna play in the stories of the Pandavas' exile and their relationship with him?";
    "How does Krishna's friendship with Arjuna transcend the boundaries of ordinary human relationships?";
    "What is the story of Krishna and Draupadi, and what does it teach about divine justice?";
    "How does Krishna's relationship with Balarama exemplify sibling love and divine companionship?";
    "What is the significance of Krishna's various marriages in Hindu tradition?";
    "How does Krishna's relationship with the Yadava clan reflect themes of loyalty and destiny?";
    "What role does Krishna play in the lives of his devotees according to various Hindu saints?";
    "In what ways has Krishna's character influenced Indian classical arts, including dance, music, and literature?";
    "How has Krishna Janmashtami evolved as a festival celebrating his birth?";
    "What is the significance of Krishna in Indian classical music traditions like Carnatic and Hindustani?";
    "How has Krishna been depicted in Indian painting and sculpture throughout history?";
    "What role does Krishna play in Indian folk traditions and regional festivals?";
    "How has Krishna influenced modern Indian literature and poetry?";
    "What is the significance of Krishna in Indian cinema and popular culture?";
    "How does Krishna appear in various Indian languages and regional literatures?";
    "What role does Krishna play in Indian performing arts like Kathakali and Bharatanatyam?";
    "How has Krishna's image been adapted in modern Hindu iconography and temple worship?";
    "What role does Krishna play in modern Hindu social and ethical teachings regarding caste and equality?";
    "How do Krishna's teachings apply to contemporary issues of gender equality and women's rights?";
    "What is Krishna's relevance to modern environmental and ecological concerns?";
    "How do Krishna's teachings about duty apply to modern professional and work ethics?";
    "What lessons from Krishna's life are relevant to modern leadership and governance?";
    "How does Krishna's philosophy address modern mental health and psychological well-being?";
    "What is Krishna's significance in interfaith dialogue and universal spiritual teachings?" ].

(** What [from examples.lightrag_hf_cloudflare_dataset_demo import
    CloudflareWorker] does: the class is bound, [ImportError] (or a
    subclass) is raised, or the module's top-level code raises something
    else. *)
Inductive ImportOutcome : Type :=
| Imported
| ImportErrorRaised
| ImportRaises (e : Exc).

(** Two lines of the summary that depend on the count of connectivity
    issues. *)
Definition network_insight (connectivity_issues : nat) : string :=
  if (connectivity_issues =? 0)%nat
  then "Network connectivity is stable"
  else (str_of_nat connectivity_issues ++ " connectivity issues detected")%string.

Definition questions_recommendation (connectivity_issues : nat) : string :=
  if (connectivity_issues =? 0)%nat
  then "[SUCCESS] All questions processed successfully"
  else ("[WARNING] " ++ str_of_nat connectivity_issues
          ++ " questions had connectivity issues")%string.

(** The values that the f-string of [generate_summary] renders, in the
    order of the report. *)
Record Summary (F : Type) : Type := {
  sm_total_questions : nat;
  sm_total_time : F;
  sm_successful_queries : nat;
  sm_connectivity_issues : nat;
  sm_success_rate : F;
  sm_avg_response_time : F;
  sm_avg_answer_length : F;
  sm_total_tokens_estimated : nat;
  sm_min_latency : F;
  sm_max_latency : F;
  sm_median_latency : F;
  sm_p95_latency : F;
  sm_p99_latency : F;
  sm_std_deviation : F;
  sm_consistency_score : F;
  sm_api_key : string;
  sm_account_id : string;
  sm_llm_model : string;
  sm_demo_mode : string;
  sm_consistency_insight : string;
  sm_network_insight : string;
  sm_processing_rate : F;
  sm_readiness : string;
  sm_latency_recommendation : string;
  sm_questions_recommendation : string
}.

(** What [generate_summary] returns: the fixed sentence
    ["No results to summarize."] or the report. *)
Inductive SummaryText (F : Type) : Type :=
| NoResults
| Report (s : Summary F).
Arguments NoResults {F}.
Arguments Report {F} s.

Section KrishnaSummary.
Context {F : Type} `{Arith F} {W : Type}.
Variable world : World F W.

(** [initialize_cloudflare_worker(self)].  The object assigned to
    [self.cloudflare_worker] is an instance of the imported class or of the
    fallback class; either is true as a condition. *)
Definition initialize_cloudflare_worker (import_outcome : ImportOutcome)
  : Prog (Demonstrator F * W) bool :=
  try_exceptP
    (import_available <-
       (match import_outcome with
        | Imported => ret true
        | ImportErrorRaised => ret false
        | ImportRaises e => raise e
        end) ;;
     update with_worker ;;;
     ret true)%prog
    (fun e => ret false).

(** The body of the loop of [run_queries]. *)
Definition run_queries_step (item : Z * string)
    (formatted_results : list (FormattedResult F))
  : Prog (Demonstrator F * W) (list (FormattedResult F)) :=
  let i := fst item in
  let question := snd item in
  (reply <- query_krishna_topic world question i ;;
   let answer := fst reply in
   let response_time := snd reply in
   let formatted_result := format_result i question response_time answer in
   let formatted_results := formatted_results ++ [formatted_result] in
   update (append_result {| question_number := i;
                            question := question;
                            response_time := response_time;
                            answer_length := py_len answer |}) ;;;
   sleep world one_half ;;;
   ret formatted_results)%prog.

(** [run_queries(self)]. *)
Definition run_queries (import_outcome : ImportOutcome)
  : Prog (Demonstrator F * W) (list (FormattedResult F)) :=
  (initialized <- initialize_cloudflare_worker import_outcome ;;
   for_each (enumerate KRISHNA_QUESTIONS 1) [] run_queries_step)%prog.

(** [generate_summary(self)]; [total_time] is the value of
    [time.time() - self.start_time]. *)
Definition generate_summary (total_time : F) (environ : Environ)
    (self : Demonstrator F) : Result (SummaryText F) :=
  match results self with
  | [] => Ok NoResults
  | _ =>
      let valid_times :=
        map (fun r => response_time r)
          (filter (fun r => fltb (of_nat 0) (response_time r)) (results self)) in
      (avg_response_time <-
         (match valid_times with
          | [] => Ok (of_nat 0)
          | _ => py_truediv (py_sum valid_times) (of_nat (length valid_times))
          end) ;;
       let total_questions := length (results self) in
       avg_answer_length <-
         py_int_truediv
           (Z.of_nat (list_sum (map (fun r => answer_length r) (results self))))
           (Z.of_nat (length (results self))) ;;
       latency_analysis <- analyze_latency_patterns (response_times self) ;;
       success_rate <-
         (if (0 <? total_questions)%nat
          then (ratio <- py_int_truediv (Z.of_nat (successful_queries self))
                           (Z.of_nat total_questions) ;;
                Ok (fmul ratio (of_nat 100)))
          else Ok (of_nat 0)) ;;
       processing_rate <- py_truediv (of_nat total_questions) total_time ;;
       Ok (Report {|
         sm_total_questions := total_questions;
         sm_total_time := total_time;
         sm_successful_queries := successful_queries self;
         sm_connectivity_issues := connectivity_issues self;
         sm_success_rate := success_rate;
         sm_avg_response_time := avg_response_time;
         sm_avg_answer_length := avg_answer_length;
         sm_total_tokens_estimated := total_tokens_estimated self;
         sm_min_latency := dict_get latency_analysis "min_latency" (of_nat 0);
         sm_max_latency := dict_get latency_analysis "max_latency" (of_nat 0);
         sm_median_latency := dict_get latency_analysis "median_latency" (of_nat 0);
         sm_p95_latency := dict_get latency_analysis "p95_latency" (of_nat 0);
         sm_p99_latency := dict_get latency_analysis "p99_latency" (of_nat 0);
         sm_std_deviation := dict_get latency_analysis "std_deviation" (of_nat 0);
         sm_consistency_score := dict_get latency_analysis "consistency_score" (of_nat 0);
         sm_api_key :=
           if getenv_is_set environ "CLOUDFLARE_API_KEY" then "Set" else "Not Set";
         sm_account_id :=
           if getenv_is_set environ "CLOUDFLARE_ACCOUNT_ID" then "Set" else "Not Set";
         sm_llm_model := os_getenv environ "LLM_MODEL" "Default";
         sm_demo_mode := if negb (cloudflare_worker self) then "Yes" else "No";
         sm_consistency_insight :=
           if fltb (of_nat 50) (dict_get latency_analysis "std_deviation" (of_nat 0))
           then "high" else "good";
         sm_network_insight := network_insight (connectivity_issues self);
         sm_processing_rate := processing_rate;
         sm_readiness :=
           if fltb (of_nat 95) success_rate
           then "[SUCCESS] Production ready - all systems operational"
           else "[WARNING] Review connectivity issues before production use";
         sm_latency_recommendation :=
           if fltb (fdiv (of_nat 7) (of_nat 10))
                (dict_get latency_analysis "consistency_score" (of_nat 0))
           then "[SUCCESS] Response times are consistent and acceptable"
           else "[WARNING] Response time variability detected";
         sm_questions_recommendation := questions_recommendation (connectivity_issues self)
       |}))%result
  end.

End KrishnaSummary.

(* ================================================================= *)
(** ** A world that records what is asked of it *)

(** The calls a demonstrator makes to the outside world. *)
Inductive Event (F : Type) : Type :=
| ClockRead
| Asked (question system : string)
| Slept (delay : F).
Arguments ClockRead {F}.
Arguments Asked {F} question system.
Arguments Slept {F} delay.

(** A world whose state is the list of the calls made so far, oldest
    first; the responder is a function of the prompt and the clock shows
    the number of calls made. *)
Definition recording_world {F} `{Arith F} (respond : string -> Outcome)
  : World F (list (Event F)) := {|
  worker_query question system w := (respond question, w ++ [Asked question system]);
  perf_counter w := (of_nat (length w), w ++ [ClockRead]);
  asyncio_sleep delay w := w ++ [Slept delay]
|}.

(** The calls that one pass of the loop body of [run_queries_batch] makes
    for the item [(i, question)]: the clock, the responder when there is a
    worker, the clock again, and the pause when the delay is positive and
    the item is not the last. *)
Definition calls_of {F} `{Arith F} (worker : bool) (total_questions : Z) (delay : F)
    (item : Z * string) : list (Event F) :=
  [ClockRead]
  ++ (if worker then [Asked (snd item) system_prompt] else [])
  ++ [ClockRead]
  ++ (if fltb (of_nat 0) delay && (fst item <? total_questions)%Z
      then [Slept delay] else []).

(* ================================================================= *)
(** ** [process_dataset_entries] *)

(** The string ["\n"]. *)
Definition newline : string := String (ascii_of_nat 10) EmptyString.

(** [for x in xs: acc = body x acc] where the body may raise. *)
Fixpoint for_each_result {X A} (xs : list X) (acc : A) (body : X -> A -> Result A)
  : Result A :=
  match xs with
  | [] => Ok acc
  | x :: xs' => (acc' <- body x acc ;; for_each_result xs' acc' body)%result
  end.

Section Dataset.

(** [str(v)] for a value that is not a [str], and the truth value of a
    float given by its literal: Python's own. *)
Variable py_str : Json -> string.
Variable float_is_true : string -> bool.

(** [bool(v)]. *)
Definition py_bool (v : Json) : bool :=
  match v with
  | JNull => false
  | JBool b => b
  | JInt z => negb (z =? 0)%Z
  | JFloat literal => float_is_true literal
  | JStr s => negb (String.eqb s "")
  | JList items => match items with [] => false | _ => true end
  | JDict fields => match fields with [] => false | _ => true end
  end.

(** [f"{v}"] and [str(v)]. *)
Definition py_format (v : Json) : string :=
  match v with
  | JStr s => s
  | _ => py_str v
  end.

(** [v.strip()]: only a str has the method here.  The string comes back
    with its stripped form. *)
Definition json_strip (v : Json) : Result (string * string) :=
  match v with
  | JStr s => Ok (s, py_strip s)
  | _ => Raise (no_attribute v "strip")
  end.

(** The [if]/[elif] chain that picks the text of an entry. *)
Definition text_content_of (entry : Json) : Result Json :=
  (has_text <- json_contains "text" entry ;;
   if has_text : bool
   then json_getitem entry "text"
   else
     (has_content <- json_contains "content" entry ;;
      if has_content : bool
      then json_getitem entry "content"
      else
        match entry with
        | JDict fields =>
            Ok (JStr (String.concat newline
                        (map (fun kv => (fst kv ++ ": " ++ py_format (snd kv))%string)
                           (filter (fun kv => py_bool (snd kv)) fields))))
        | _ => Ok (JStr (py_format entry))
        end))%result.

(** The body of the loop: the [try] statement around one entry. *)
Definition process_entry (entry : Json) (texts_to_insert : list string)
  : Result (list string) :=
  try_except
    (text_content <- text_content_of entry ;;
     stripped <- json_strip text_content ;;
     if negb (String.eqb (snd stripped) "")
     then Ok (texts_to_insert ++ [fst stripped])
     else Ok texts_to_insert)%result
    (fun e => Ok texts_to_insert).

(** [process_dataset_entries(dataset)]; the dataset maps the names of its
    splits to their entries. *)
Definition process_dataset_entries (dataset : Dict (list Json)) : Result (list string) :=
  (data_split <-
     (match dict_lookup dataset "train" with
      | Some split => Ok split
      | None =>
          match dataset with
          | (_, split) :: _ => Ok split
          | [] => Raise (mkExc IndexError "list index out of range")
          end
      end) ;;
   for_each_result data_split [] process_entry)%result.

End Dataset.

(** The text of a row [{"text": s, ...}], if the row is one. *)
Definition text_of_row (entry : Json) : option string :=
  match entry with
  | JDict fields =>
      match dict_lookup fields "text" with
      | Some (JStr s) => Some s
      | _ => None
      end
  | _ => None
  end.

(** The split that is processed: ["train"] when there is one, the first
    split otherwise. *)
Definition chosen_split (dataset : Dict (list Json)) : option (list Json) :=
  match dict_lookup dataset "train" with
  | Some split => Some split
  | None =>
      match dataset with
      | (_, split) :: _ => Some split
      | [] => None
      end
  end.

(* ================================================================= *)
(** ** What a run observes *)

(** What the loop of [run_queries_batch] meets at one item: its number,
    the question, what the responder does when asked, and the latency
    measured around the call. *)
Record Observation (F : Type) : Type := {
  ob_number : Z;
  ob_question : string;
  ob_outcome : Outcome;
  ob_latency : F
}.

Section Observations.
Context {F : Type} `{Arith F} {W : Type}.
Variable world : World F W.

(** The state of the world after one call of [query_krishna_topic]: the
    clock is read, the responder is asked if there is a worker, the clock
    is read again. *)
Definition world_after_query (worker : bool) (question : string) (w : W) : W :=
  let w1 := snd (perf_counter world w) in
  let w2 := if worker then snd (worker_query world question system_prompt w1) else w1 in
  snd (perf_counter world w2).

(** The state of the world after one pass of the loop body. *)
Definition world_after_item (worker : bool) (total_questions : Z) (delay : F)
    (item : Z * string) (w : W) : W :=
  let w3 := world_after_query worker (snd item) w in
  if fltb (of_nat 0) delay && (fst item <? total_questions)%Z
  then asyncio_sleep world delay w3
  else w3.

(** The observations of a pass over [items] from the state [w], and the
    state of the world at its end. *)
Fixpoint observe (worker : bool) (total_questions : Z) (delay : F)
    (items : list (Z * string)) (w : W) : list (Observation F) * W :=
  match items with
  | [] => ([], w)
  | item :: items' =>
      let ob := {| ob_number := fst item;
                   ob_question := snd item;
                   ob_outcome := outcome_at world (snd item) w;
                   ob_latency := latency_at world worker (snd item) w |} in
      let rest := observe worker total_questions delay items'
                    (world_after_item worker total_questions delay item w) in
      (ob :: fst rest, snd rest)
  end.

End Observations.

Section Records.
Context {F : Type} `{Arith F}.

(** The time handed back for an observation: the latency, or [0.0] from
    the outer handler. *)
Definition returned_time (worker : bool) (ob : Observation F) : F :=
  if keeps_latency worker (ob_outcome ob) then ob_latency ob else of_nat 0.

(** The formatted result and the entry of [self.results] made from an
    observation. *)
Definition formatted_of (worker : bool) (ob : Observation F) : FormattedResult F := {|
  fr_question_number := ob_number ob;
  fr_question := ob_question ob;
  fr_response_time := returned_time worker ob;
  fr_answer := answer_of worker (ob_outcome ob)
|}.

Definition entry_of (worker : bool) (ob : Observation F) : ResultEntry F := {|
  question_number := ob_number ob;
  question := ob_question ob;
  response_time := returned_time worker ob;
  answer_length := py_len (answer_of worker (ob_outcome ob))
|}.

(** The demonstrator after it has recorded the observations [obs]. *)
Definition record_observations (obs : list (Observation F)) (d : Demonstrator F)
  : Demonstrator F :=
  let worker := cloudflare_worker d in {|
  results := results d ++ map (entry_of worker) obs;
  response_times := response_times d ++ map (fun ob => ob_latency ob) obs;
  cloudflare_worker := worker;
  connectivity_issues :=
    connectivity_issues d + list_sum (map (fun ob => issues_of worker (ob_outcome ob)) obs);
  successful_queries :=
    successful_queries d + list_sum (map (fun ob => successes_of worker (ob_outcome ob)) obs);
  total_tokens_estimated :=
    total_tokens_estimated d
    + list_sum (map (fun ob => tokens_of (ob_question ob) worker (ob_outcome ob)) obs)
|}.

End Records.

(* ================================================================= *)
(** ** Batches and clocks *)

(** [questions[batch_start:batch_end]], the questions of the batch that
    starts at [batch_start]. *)
Definition batch_questions_at (questions : list string) (batch_size batch_start : Z)
  : list string :=
  py_slice questions batch_start
    (Z.min (batch_start + batch_size) (Z.of_nat (length questions))).

(** A clock that advances: a reading is above the reading before it,
    whether or not the responder was asked in between. *)
Definition clock_advances {W : Type} (world : World R W) : Prop :=
  forall (question system : string) (w : W),
    let t0 := fst (perf_counter world w) in
    let w1 := snd (perf_counter world w) in
    (t0 < fst (perf_counter world w1))%R /\
    (t0 < fst (perf_counter world (snd (worker_query world question system w1))))%R.

(* ================================================================= *)
(** ** [main] of the Krishna script *)


(** [xs[:k]] and [xs[k:]] for any int [k]; a negative [k] counts from the
    end of the list. *)
Definition py_slice_to {X} (xs : list X) (k : Z) : list X :=
  firstn (Z.to_nat (if (k <? 0)%Z then Z.of_nat (length xs) + k else k)) xs.

Definition py_slice_from {X} (xs : list X) (k : Z) : list X :=
  skipn (Z.to_nat (if (k <? 0)%Z then Z.of_nat (length xs) + k else k)) xs.

(** [str(n)] for an int. *)
Definition str_of_Z (n : Z) : string := NilZero.string_of_int (Z.to_int n).

(** [s * n]. *)
Fixpoint str_times (s : string) (n : nat) : string :=
  match n with
  | O => EmptyString
  | S n' => s ++ str_times s n'
  end.

Definition newline_char : ascii := ascii_of_nat 10.

(** [s.split(sep)] for a separator of one character. *)
Fixpoint split_on (sep : ascii) (s : string) : list string :=
  match s with
  | EmptyString => [EmptyString]
  | String c s' =>
      if Ascii.eqb c sep then EmptyString :: split_on sep s'
      else
        match split_on sep s' with
        | piece :: pieces => String c piece :: pieces
        | [] => [String c EmptyString]
        end
  end.

(** [s.replace(old, '')] for [old] not empty, as [remove_all old 0 s]: the
    occurrences of [old] are dropped from the left, without overlap.
    [skip] counts the characters of the occurrence being dropped that are
    still to pass. *)
Fixpoint remove_all (old : string) (skip : nat) (s : string) : string :=
  match s with
  | EmptyString => EmptyString
  | String c s' =>
      match skip with
      | S skip' => remove_all old skip' s'
      | O =>
          if String.prefix old s
          then remove_all old (String.length old - 1) s'
          else String c (remove_all old 0 s')
      end
  end.


(** The argument of a call of [print] in [main]: a line of text, the
    summary, or the notice of the [KeyboardInterrupt] handler. *)
Inductive Printed (F : Type) : Type :=
| Line (s : string)
| SummaryBlock (s : SummaryText F)
| InterruptNotice.
Arguments Line {F} s.
Arguments SummaryBlock {F} s.
Arguments InterruptNotice {F}.


(** [print(p)]. *)
Definition print {S F} (p : Printed F) : Prog (S * list (Printed F)) unit :=
  modify (fun s => (fst s, snd s ++ [p])).

Section Main.
Context {F : Type} `{Arith F} {W : Type}.
Variable world : World F W.

(** [f"{t:.2f}"]. *)
Variable format_2f : F -> string.

(** The text block that [format_result] returns. *)
Definition format_result_text (r : FormattedResult F) : string :=
  "Question " ++ str_of_Z (fr_question_number r) ++ ": " ++ fr_question r ++ newline
  ++ "Response Time: " ++ format_2f (fr_response_time r) ++ " ms" ++ newline
  ++ "Answer: " ++ fr_answer r ++ newline
  ++ newline
  ++ str_times "=" 80 ++ newline.

(** The body of the loop over the sample in [main]. *)
Definition show_sample (item : Z * string) (_ : unit)
  : Prog (Demonstrator F * W * list (Printed F)) unit :=
  let i := fst item in
  let result := snd item in
  if (i =? 4)%Z
  then print (Line "... [truncated] ...")
  else
    (print (Line (newline ++ "Result " ++ str_of_Z i ++ ":")) ;;;
     let lines := split_on newline_char (py_strip result) in
     line0 <- lift (py_getitem lines 0) ;;
     print (Line ("Question: " ++ py_strip (remove_all "Question" 0 line0))) ;;;
     line1 <- lift (py_getitem lines 1) ;;
     print (Line ("Response Time: " ++ line1)) ;;;
     line2 <- lift (py_getitem lines 2) ;;
     print (Line ("Answer Preview: " ++ py_take 100 line2 ++ "...")))%prog.



End Main.





(** [a.split('\n')[0]], the first line of a text. *)
Definition first_line (a : string) : string := hd EmptyString (split_on newline_char a).

(** An ASCII character that is neither white space nor the letter Q. *)
Definition plain_char (c : ascii) : bool :=
  (nat_of_ascii c <? 128)%nat
  && negb (isspace (String c EmptyString))
  && negb (Ascii.eqb c "Q").

(** The encoding of a str does not begin with a continuation byte. *)
Definition begins_a_char (s : string) : bool :=
  match s with
  | EmptyString => true
  | String c _ => negb (is_continuation c)
  end.

(** [s[-1:].isspace()]. *)
Definition ends_with_space (s : string) : bool :=
  match rev (chars s) with
  | ch :: _ => isspace ch
  | [] => false
  end.

(** A question that the sample of [main] shows as it is written: it has
    one line, does not contain the word that [main] removes, is not empty
    and does not end with white space. *)
Definition shows_as_written (q : string) : bool :=
  begins_a_char q
  && negb (is_substring newline q)
  && negb (is_substring "Question" q)
  && negb (ends_with_space q)
  && negb (String.eqb q "").

Section Sample.
Context {F : Type}.
Variable format_2f : F -> string.

(** The four calls of [print] that show the result [r] under the label
    [label]. *)
Definition sample_of_result (label : Z) (r : FormattedResult F) : list (Printed F) :=
  [ Line (newline ++ "Result " ++ str_of_Z label ++ ":");
    Line ("Question: " ++ str_of_Z (fr_question_number r) ++ ": " ++ fr_question r);
    Line ("Response Time: Response Time: " ++ format_2f (fr_response_time r) ++ " ms");
    Line ("Answer Preview: Answer: " ++ py_take 92 (first_line (fr_answer r)) ++ "...") ].

(** A result whose question and whose rendered time can be read back
    from its text block. *)
Definition readable (r : FormattedResult F) : Prop :=
  shows_as_written (fr_question r) = true /\
  is_substring newline (format_2f (fr_response_time r)) = false /\
  begins_a_char (fr_answer r) = true.

End Sample.

(** A string without white space and without the letter Q, as the
    decimal numerals are. *)
Definition plain (s : string) : bool := forallb plain_char (list_ascii_of_string s).

(* ################################################################# *)
(** * Properties *)

(* ================================================================= *)
(** ** Facts that hold in every arithmetic *)

Section BuiltinFacts.
Context {F : Type} `{Arith F}.

Lemma insert_length (x : F) (ys : list F) :
  length (insert x ys) = S (length ys).
Proof.
  induction ys as [|y ys IH]; simpl; [reflexivity|].
  destruct (fltb x y); simpl; [reflexivity | now rewrite IH].
Qed.

Lemma insert_perm (x : F) (ys : list F) :
  Permutation (insert x ys) (x :: ys).
Proof.
  induction ys as [|y ys IH]; simpl; [apply Permutation_refl|].
  destruct (fltb x y); [apply Permutation_refl|].
  eapply perm_trans; [apply perm_skip, IH | apply perm_swap].
Qed.

Lemma fold_insert_perm (xs acc : list F) :
  Permutation (fold_left (fun a x => insert x a) xs acc) (acc ++ xs).
Proof.
  revert acc; induction xs as [|x xs IH]; intros acc; simpl.
  - rewrite app_nil_r; apply Permutation_refl.
  - eapply perm_trans; [apply IH|].
    eapply perm_trans; [apply Permutation_app_tail, insert_perm|].
    simpl. apply Permutation_middle.
Qed.

(** [sorted] rearranges its argument and nothing else. *)
Lemma sorted_perm (xs : list F) : Permutation (sorted xs) xs.
Proof. exact (fold_insert_perm xs []). Qed.

Lemma sorted_length (xs : list F) : length (sorted xs) = length xs.
Proof. apply Permutation_length, sorted_perm. Qed.

Lemma py_getitem_in_range (xs : list F) (i : nat) :
  i < length xs -> exists x, nth_error xs i = Some x /\ py_getitem xs i = Ok x.
Proof.
  intros Hi. unfold py_getitem.
  destruct (nth_error xs i) as [x|] eqn:E.
  - now exists x.
  - apply nth_error_None in E. lia.
Qed.

Lemma py_getitem_out_of_range (xs : list F) (i : nat) :
  length xs <= i -> is_ok (py_getitem xs i) = false.
Proof.
  intros Hi. unfold py_getitem.
  now rewrite (proj2 (nth_error_None xs i) Hi).
Qed.

(** A list of copies of one value: every comparison picks that value. *)
Lemma min_from_repeat (L : F) (n : nat) : min_from L (repeat L n) = L.
Proof. induction n as [|n IH]; simpl; [reflexivity|]. now destruct (fltb L L). Qed.

Lemma max_from_repeat (L : F) (n : nat) : max_from L (repeat L n) = L.
Proof. induction n as [|n IH]; simpl; [reflexivity|]. now destruct (fltb L L). Qed.

Lemma insert_repeat (L : F) (n : nat) : insert L (repeat L n) = repeat L (S n).
Proof.
  induction n as [|n IH]; simpl; [reflexivity|].
  destruct (fltb L L); [reflexivity|]. now rewrite IH.
Qed.

Lemma sorted_repeat (L : F) (n : nat) : sorted (repeat L n) = repeat L n.
Proof.
  unfold sorted.
  assert (G : forall m k, fold_left (fun a x => insert x a) (repeat L m) (repeat L k)
                          = repeat L (m + k)).
  { induction m as [|m IH]; intros k; simpl; [reflexivity|].
    rewrite insert_repeat, IH.
    replace (m + S k) with (S (m + k)) by lia. reflexivity. }
  change (@nil F) with (repeat L 0). rewrite (G n 0). f_equal. lia.
Qed.

Lemma filter_repeat_true (p : F -> bool) (L : F) (n : nat) :
  p L = true -> filter p (repeat L n) = repeat L n.
Proof. intros Hp. induction n as [|n IH]; simpl; [reflexivity|]. now rewrite Hp, IH. Qed.

End BuiltinFacts.

(** The three indices stay inside a non-empty list. *)
Lemma median_index_lt (n : nat) : 0 < n -> median_index n < n.
Proof. intros Hn. unfold median_index. apply Nat.div_lt; lia. Qed.

Lemma p95_index_lt (n : nat) : 0 < n -> p95_index n < n.
Proof. intros Hn. unfold p95_index. apply Nat.Div0.div_lt_upper_bound; lia. Qed.

Lemma p99_index_lt (n : nat) : 0 < n -> p99_index n < n.
Proof. intros Hn. unfold p99_index. apply Nat.Div0.div_lt_upper_bound; lia. Qed.

(** The indices are the floors of [n/2], [0.95 n] and [0.99 n]. *)
Lemma median_index_floor (n : nat) :
  2 * median_index n <= n < 2 * (median_index n + 1).
Proof.
  unfold median_index. pose proof (Nat.div_mod_eq n 2) as E.
  pose proof (Nat.mod_upper_bound n 2). lia.
Qed.

Lemma p95_index_floor (n : nat) :
  100 * p95_index n <= 95 * n < 100 * (p95_index n + 1).
Proof.
  unfold p95_index. pose proof (Nat.div_mod_eq (n * 95) 100) as E.
  pose proof (Nat.mod_upper_bound (n * 95) 100). lia.
Qed.

Lemma p99_index_floor (n : nat) :
  100 * p99_index n <= 99 * n < 100 * (p99_index n + 1).
Proof.
  unfold p99_index. pose proof (Nat.div_mod_eq (n * 99) 100) as E.
  pose proof (Nat.mod_upper_bound (n * 99) 100). lia.
Qed.

Lemma p95_index_Z (n : nat) : Z.of_nat (p95_index n) = (Z.of_nat n * 95 / 100)%Z.
Proof. unfold p95_index. now rewrite Nat2Z.inj_div, Nat2Z.inj_mul. Qed.

Lemma p99_index_Z (n : nat) : Z.of_nat (p99_index n) = (Z.of_nat n * 99 / 100)%Z.
Proof. unfold p99_index. now rewrite Nat2Z.inj_div, Nat2Z.inj_mul. Qed.

(** The binary64 products [n * 0.95] and [n * 0.99] truncate to the same
    indices, for every length up to 4096. *)
Lemma percentile_index_binary64 :
  forallb percentile_indices_agree (seq 0 4097) = true.
Proof. vm_cast_no_check (eq_refl true). Qed.

(* ================================================================= *)
(** ** Real latencies: order, sum, extrema, sorting *)

Section RealLatencies.
Local Open Scope R_scope.

Lemma fltb_R_true (x y : R) : fltb x y = true <-> x < y.
Proof. simpl. destruct (Rlt_dec x y); split; intros; try easy. Qed.

Lemma fltb_R_false (x y : R) : fltb x y = false <-> y <= x.
Proof. simpl. destruct (Rlt_dec x y); split; intros; try easy; lra. Qed.

Lemma feqb_R_false (x y : R) : x <> y -> feqb x y = false.
Proof. intros Hxy. simpl. now destruct (Req_dec_T x y). Qed.

Lemma is_positive_true (t : R) : is_positive t = true <-> 0 < t.
Proof. unfold is_positive. rewrite fltb_R_true. simpl. tauto. Qed.

Lemma filter_positive (rs : list R) : Forall (fun t => 0 < t) (filter is_positive rs).
Proof.
  apply Forall_forall. intros t Ht. apply filter_In in Ht.
  now apply is_positive_true.
Qed.

Lemma filter_positive_id (ts : list R) :
  Forall (fun t => 0 < t) ts -> filter is_positive ts = ts.
Proof.
  induction 1 as [|t ts Ht _ IH]; simpl; [reflexivity|].
  now rewrite (proj2 (is_positive_true t) Ht), IH.
Qed.

Lemma filter_positive_nil (rs : list R) :
  filter is_positive rs = [] <-> Forall (fun t => t <= 0) rs.
Proof.
  induction rs as [|r rs IH]; simpl.
  - split; auto.
  - destruct (is_positive r) eqn:E.
    + split; [discriminate|]. intros Hall. inversion Hall; subst.
      apply is_positive_true in E. lra.
    + split.
      * intros Hnil. constructor; [|now apply IH].
        unfold is_positive in E. apply fltb_R_false in E. simpl in E. exact E.
      * intros Hall. inversion Hall; subst. now apply IH.
Qed.

(** *** Sum, minimum and maximum *)

Lemma fold_plus_shift (xs : list R) (a : R) :
  fold_left Rplus xs a = a + fold_left Rplus xs 0.
Proof.
  revert a; induction xs as [|x xs IH]; intros a; simpl; [lra|].
  rewrite (IH (a + x)), (IH (0 + x)). lra.
Qed.

Lemma py_sum_cons (x : R) (xs : list R) : py_sum (x :: xs) = x + py_sum xs.
Proof. unfold py_sum. simpl. rewrite fold_plus_shift. lra. Qed.

Lemma py_sum_nonneg (xs : list R) : Forall (fun t => 0 < t) xs -> 0 <= py_sum xs.
Proof.
  induction 1 as [|x xs Hx _ IH]; [unfold py_sum; simpl; lra|].
  rewrite py_sum_cons. lra.
Qed.

(** A sum of positive latencies is positive: the divisor of the
    consistency score is never zero. *)
Lemma py_sum_pos (x : R) (xs : list R) :
  Forall (fun t => 0 < t) (x :: xs) -> 0 < py_sum (x :: xs).
Proof.
  intros Hall. inversion Hall; subst. rewrite py_sum_cons.
  pose proof (py_sum_nonneg H2). lra.
Qed.

Lemma py_sum_repeat (L : R) (n : nat) : py_sum (repeat L n) = INR n * L.
Proof.
  induction n as [|n IH]; [unfold py_sum; simpl; lra|].
  change (repeat L (S n)) with (L :: repeat L n).
  rewrite py_sum_cons, IH, S_INR. lra.
Qed.

Lemma min_from_le (xs : list R) (c : R) :
  min_from c xs <= c /\ Forall (fun x => min_from c xs <= x) xs.
Proof.
  revert c; induction xs as [|x xs IH]; intros c; simpl; [split; [lra|constructor]|].
  destruct (Rlt_dec x c) as [Hlt|Hge].
  - destruct (IH x) as [H1 H2]. split; [lra|]. now constructor.
  - destruct (IH c) as [H1 H2]. split; [lra|]. constructor; [lra|exact H2].
Qed.

Lemma max_from_ge (xs : list R) (c : R) :
  c <= max_from c xs /\ Forall (fun x => x <= max_from c xs) xs.
Proof.
  revert c; induction xs as [|x xs IH]; intros c; simpl; [split; [lra|constructor]|].
  destruct (Rlt_dec c x) as [Hlt|Hge].
  - destruct (IH x) as [H1 H2]. split; [lra|]. now constructor.
  - destruct (IH c) as [H1 H2]. split; [lra|]. constructor; [lra|exact H2].
Qed.

Lemma min_from_In (xs : list R) (c : R) : In (min_from c xs) (c :: xs).
Proof.
  revert c; induction xs as [|x xs IH]; intros c; simpl; [now left|].
  destruct (Rlt_dec x c); specialize (IH (if Rlt_dec x c then x else c)).
  - destruct (Rlt_dec x c); [|contradiction]. simpl in IH. tauto.
  - destruct (Rlt_dec x c); [contradiction|]. simpl in IH. tauto.
Qed.

Lemma max_from_In (xs : list R) (c : R) : In (max_from c xs) (c :: xs).
Proof.
  revert c; induction xs as [|x xs IH]; intros c; simpl; [now left|].
  destruct (Rlt_dec c x); specialize (IH (if Rlt_dec c x then x else c)).
  - destruct (Rlt_dec c x); [|contradiction]. simpl in IH. tauto.
  - destruct (Rlt_dec c x); [contradiction|]. simpl in IH. tauto.
Qed.

(** *** [sorted] is ascending *)

Lemma insert_HdRel (a x : R) (ys : list R) :
  a <= x -> HdRel Rle a ys -> HdRel Rle a (insert x ys).
Proof.
  intros Hax Hhd. destruct ys as [|y ys]; simpl; [now constructor|].
  destruct (Rlt_dec x y); constructor; [exact Hax|].
  now inversion Hhd.
Qed.

Lemma insert_Sorted (x : R) (ys : list R) :
  Sorted Rle ys -> Sorted Rle (insert x ys).
Proof.
  induction 1 as [|y ys Hs IH Hhd]; simpl; [repeat constructor|].
  destruct (Rlt_dec x y) as [Hlt|Hge].
  - constructor; [now constructor|]. constructor. lra.
  - constructor; [exact IH|]. apply insert_HdRel; [lra|exact Hhd].
Qed.

Lemma sorted_Sorted (xs : list R) : Sorted Rle (sorted xs).
Proof.
  unfold sorted.
  assert (G : forall l acc, Sorted Rle acc ->
              Sorted Rle (fold_left (fun a x => insert x a) l acc)).
  { induction l as [|x l IH]; intros acc Hacc; simpl; [exact Hacc|].
    apply IH, insert_Sorted, Hacc. }
  apply G. constructor.
Qed.

Lemma sorted_ascending (xs : list R) : StronglySorted Rle (sorted xs).
Proof.
  apply Sorted_StronglySorted; [|apply sorted_Sorted].
  intros a b c; apply Rle_trans.
Qed.

End RealLatencies.

(* ================================================================= *)
(** ** Binary64: sums of positive values and counts are positive

    Read off the specification of the primitive operations
    ([FloatAxioms]): rounding a positive integer multiple of a power of
    two that is not below the least exponent gives a positive value or
    infinity, never zero. *)

Section Binary64Facts.
Local Open Scope Z_scope.

Lemma digits2_pos_lower (m : positive) : 2 ^ (Z.pos (digits2_pos m) - 1) <= Z.pos m.
Proof.
  induction m as [m IH|m IH|]; cbn [digits2_pos].
  - rewrite Pos2Z.inj_succ.
    replace (Z.succ (Z.pos (digits2_pos m)) - 1) with (Z.succ (Z.pos (digits2_pos m) - 1)) by lia.
    rewrite Z.pow_succ_r by lia. lia.
  - rewrite Pos2Z.inj_succ.
    replace (Z.succ (Z.pos (digits2_pos m)) - 1) with (Z.succ (Z.pos (digits2_pos m) - 1)) by lia.
    rewrite Z.pow_succ_r by lia. lia.
  - reflexivity.
Qed.

Lemma shr_1_m (mrs : shr_record) :
  0 <= shr_m mrs -> shr_m (shr_1 mrs) = shr_m mrs / 2.
Proof.
  destruct mrs as [m r s]. cbn [shr_m]. intros Hm.
  destruct m as [|p|p]; [reflexivity| |lia].
  destruct p as [p|p|]; cbn [shr_1 shr_m].
  - rewrite Pos2Z.inj_xI. apply Z.div_unique with (r := 1); lia.
  - rewrite Pos2Z.inj_xO. apply Z.div_unique with (r := 0); lia.
  - reflexivity.
Qed.

Lemma iter_shr_1_m (k : positive) (mrs : shr_record) :
  0 <= shr_m mrs -> shr_m (SpecFloat.iter_pos shr_1 k mrs) = shr_m mrs / 2 ^ Z.pos k.
Proof.
  revert mrs. induction k as [k IH|k IH|]; intros mrs Hm; cbn [SpecFloat.iter_pos].
  - assert (H1 : 0 <= shr_m (shr_1 mrs)) by (rewrite shr_1_m by assumption; apply Z.div_pos; lia).
    assert (H2 : 0 <= shr_m (SpecFloat.iter_pos shr_1 k (shr_1 mrs))).
    { rewrite IH by assumption. apply Z.div_pos; [assumption|]. apply Z.pow_pos_nonneg; lia. }
    rewrite IH, IH, shr_1_m by assumption.
    rewrite !Z.div_div by (try apply Z.pow_pos_nonneg; lia).
    f_equal. replace (Z.pos k~1) with (1 + Z.pos k + Z.pos k) by lia.
    rewrite !Z.pow_add_r, Z.pow_1_r by lia. ring.
  - assert (H2 : 0 <= shr_m (SpecFloat.iter_pos shr_1 k mrs)).
    { rewrite IH by assumption. apply Z.div_pos; [assumption|]. apply Z.pow_pos_nonneg; lia. }
    rewrite IH, IH by assumption.
    rewrite !Z.div_div by (try apply Z.pow_pos_nonneg; lia).
    f_equal. rewrite <- Z.pow_add_r by lia. f_equal. lia.
  - rewrite shr_1_m by assumption. reflexivity.
Qed.

Lemma shr_record_of_loc_m (m : Z) (l : location) : shr_m (shr_record_of_loc m l) = m.
Proof. destruct l as [|[]]; reflexivity. Qed.

Lemma shr_fexp_positive (p : positive) (ex : Z) (l : location) :
  SpecFloat.emin prec emax <= ex ->
  0 < shr_m (fst (shr_fexp prec emax (Z.pos p) ex l)) /\
  SpecFloat.emin prec emax <= snd (shr_fexp prec emax (Z.pos p) ex l).
Proof.
  intros He. unfold SpecFloat.shr_fexp, SpecFloat.shr.
  destruct (fexp prec emax (Zdigits2 (Z.pos p) + ex) - ex) as [|k|k] eqn:Hk;
    cbn [fst snd]; rewrite ?shr_record_of_loc_m; try (split; lia).
  split; [|lia].
  rewrite iter_shr_1_m by (rewrite shr_record_of_loc_m; lia).
  rewrite shr_record_of_loc_m.
  apply Z.div_str_pos. split; [apply Z.pow_pos_nonneg; lia|].
  pose proof (digits2_pos_lower p) as Hd.
  cbn [Zdigits2] in Hk. unfold SpecFloat.fexp in Hk.
  assert (Hkd : Z.pos k <= Z.pos (digits2_pos p) - 1) by (unfold SpecFloat.emin, prec, emax in *; lia).
  apply Z.le_trans with (2 := Hd). apply Z.pow_le_mono_r; lia.
Qed.

Lemma round_nearest_even_positive (m : Z) (l : location) :
  0 < m -> 0 < round_nearest_even m l.
Proof.
  intros Hm. unfold SpecFloat.round_nearest_even.
  destruct l as [|[]]; try lia. destruct (Z.even m); lia.
Qed.

Lemma binary_round_aux_positive (p : positive) (ex : Z) (l : location) :
  SpecFloat.emin prec emax <= ex ->
  sf_positive (binary_round_aux prec emax false (Z.pos p) ex l) = true.
Proof.
  intros He. unfold SpecFloat.binary_round_aux.
  destruct (shr_fexp_positive p l He) as [Hm He'].
  destruct (shr_fexp prec emax (Z.pos p) ex l) as [mrs' e']. cbn [fst snd] in Hm, He'.
  pose proof (round_nearest_even_positive (loc_of_shr_record mrs') Hm) as Hr.
  destruct (round_nearest_even (shr_m mrs') (loc_of_shr_record mrs')) as [|q|q]; try lia.
  destruct (shr_fexp_positive q loc_Exact He') as [Hm2 _].
  destruct (shr_fexp prec emax (Z.pos q) e' loc_Exact) as [mrs'' e'']. cbn [fst] in Hm2.
  destruct (shr_m mrs'') as [|q2|q2]; try lia.
  destruct (e'' <=? emax - prec); reflexivity.
Qed.

Lemma binary_round_positive (p : positive) (ex : Z) :
  SpecFloat.emin prec emax <= ex ->
  sf_positive (binary_round prec emax false p ex) = true.
Proof.
  intros He. unfold SpecFloat.binary_round, SpecFloat.shl_align.
  destruct (fexp prec emax (Z.pos (digits2_pos p) + ex) - ex) as [|k|k] eqn:Hk;
    try (now apply binary_round_aux_positive).
  apply binary_round_aux_positive. unfold SpecFloat.fexp. lia.
Qed.

Lemma valid_finite_exponent (s : bool) (m : positive) (e : Z) :
  valid_binary (S754_finite s m e) = true -> SpecFloat.emin prec emax <= e.
Proof.
  cbn [valid_binary]. unfold SpecFloat.bounded, SpecFloat.canonical_mantissa, SpecFloat.fexp.
  intros Hv. apply andb_prop in Hv. destruct Hv as [Hc _].
  apply Z.eqb_eq in Hc. lia.
Qed.

Lemma SFadd_positive (x y : spec_float) :
  valid_binary x = true -> valid_binary y = true ->
  sf_zero x || sf_positive x = true -> sf_positive y = true ->
  sf_positive (SFadd prec emax x y) = true.
Proof.
  intros Vx Vy Hx Hy.
  destruct y as [sy|sy| |sy my ey]; try discriminate; destruct sy; try discriminate;
    destruct x as [sx|sx| |sx mx ex]; try discriminate; try destruct sx; try discriminate;
    try reflexivity.
  apply valid_finite_exponent in Vx, Vy.
  cbn [SFadd cond_Zopp binary_normalize Z.add].
  apply binary_round_positive. lia.
Qed.

End Binary64Facts.

Lemma ltb_0_positive (x : float) : PrimFloat.ltb 0 x = sf_positive (Prim2SF x).
Proof.
  rewrite ltb_spec. change (Prim2SF 0) with (S754_zero false).
  destruct (Prim2SF x) as [s|s| |s m e]; try destruct s; reflexivity.
Qed.

Lemma positive_is_not_zero (x : float) :
  sf_positive (Prim2SF x) = true -> PrimFloat.eqb x 0 = false.
Proof.
  rewrite eqb_spec. change (Prim2SF 0) with (S754_zero false).
  destruct (Prim2SF x) as [s|s| |s m e]; try destruct s; try discriminate; reflexivity.
Qed.

Lemma add_positive (x y : float) :
  sf_zero (Prim2SF x) || sf_positive (Prim2SF x) = true -> sf_positive (Prim2SF y) = true ->
  sf_positive (Prim2SF (x + y)) = true.
Proof.
  intros Hx Hy. rewrite add_spec. apply SFadd_positive; try assumption; apply Prim2SF_valid.
Qed.

Lemma fold_add_positive (xs : list float) (acc : float) :
  sf_zero (Prim2SF acc) || sf_positive (Prim2SF acc) = true ->
  Forall (fun t => PrimFloat.ltb 0 t = true) xs ->
  xs <> [] ->
  sf_positive (Prim2SF (fold_left PrimFloat.add xs acc)) = true.
Proof.
  intros Hacc Hxs. revert acc Hacc. induction Hxs as [|x xs Hx Hxs IH]; intros acc Hacc Hne.
  - contradiction.
  - cbn [fold_left]. rewrite ltb_0_positive in Hx.
    pose proof (add_positive acc x Hacc Hx) as Hs.
    destruct xs as [|x' xs']; [exact Hs|].
    apply IH; [|discriminate]. rewrite Hs. apply orb_true_r.
Qed.

Lemma of_nat_positive (libm : Libm) (n : nat) :
  (1 <= n)%nat -> (Z.of_nat n < 2 ^ 63)%Z ->
  sf_positive (Prim2SF (@of_nat float (Arith_binary64 libm) n)) = true.
Proof.
  intros Hn Hlt. cbn [of_nat Arith_binary64].
  rewrite of_uint63_spec, Uint63.of_Z_spec.
  rewrite Z.mod_small by (change Uint63.wB with (2 ^ 63)%Z; lia).
  destruct (Z.of_nat n) as [|p|p] eqn:Hp; try lia.
  cbn [binary_normalize]. apply binary_round_positive. unfold SpecFloat.emin, prec, emax. lia.
Qed.

(* ================================================================= *)
(** ** The analysis in any arithmetic *)

Lemma bind_Ok_inv {A B} (r : Result A) (k : A -> Result B) (b : B) :
  Py.bind r k = Ok b -> exists a, r = Ok a /\ k a = Ok b.
Proof. destruct r as [a|e]; [|discriminate]. intros Hk. now exists a. Qed.

Section AnalysisShape.
Context {F : Type} `{Arith F}.

Lemma analyze_without_positive_time (rs : list F) :
  filter (fun t => fltb (of_nat 0) t) rs = [] -> analyze_latency_patterns rs = Ok [].
Proof.
  intros Hf. unfold analyze_latency_patterns.
  destruct rs as [|r rs']; [reflexivity|]. now rewrite Hf.
Qed.

(** With a positive latency, [min], [max] and the three subscripts go
    through: what is left is the two divisions and the two powers. *)
Lemma analyze_with_positive_time (rs : list F) (t : F) (ts : list F) :
  filter (fun t => fltb (of_nat 0) t) rs = t :: ts ->
  exists med p95 p99,
    nth_error (sorted (t :: ts)) (median_index (length (t :: ts))) = Some med /\
    nth_error (sorted (t :: ts)) (p95_index (length (t :: ts))) = Some p95 /\
    nth_error (sorted (t :: ts)) (p99_index (length (t :: ts))) = Some p99 /\
    analyze_latency_patterns rs =
      (ssd <- sum_squared_deviations (t :: ts) ;;
       variance <- py_truediv ssd (of_nat (length (t :: ts))) ;;
       std_deviation <- py_pow_half variance ;;
       spread <- py_truediv (fsub (max_from t ts) (min_from t ts)) (py_sum (t :: ts)) ;;
       Ok [ ("min_latency", min_from t ts);
            ("max_latency", max_from t ts);
            ("median_latency", med);
            ("p95_latency", p95);
            ("p99_latency", p99);
            ("std_deviation", std_deviation);
            ("consistency_score",
             fsub (of_nat 1) (fmul spread (of_nat (length (t :: ts))))) ])%result.
Proof.
  intros Hf.
  assert (Hn : (0 < length (t :: ts))%nat) by (simpl; lia).
  destruct (py_getitem_in_range (sorted (t :: ts)) (i := median_index (length (t :: ts))))
    as (med & Hmed & Gmed); [rewrite sorted_length; now apply median_index_lt|].
  destruct (py_getitem_in_range (sorted (t :: ts)) (i := p95_index (length (t :: ts))))
    as (p95 & Hp95 & Gp95); [rewrite sorted_length; now apply p95_index_lt|].
  destruct (py_getitem_in_range (sorted (t :: ts)) (i := p99_index (length (t :: ts))))
    as (p99 & Hp99 & Gp99); [rewrite sorted_length; now apply p99_index_lt|].
  exists med, p95, p99. repeat (split; [assumption|]).
  unfold analyze_latency_patterns.
  destruct rs as [|r rs']; [discriminate|].
  rewrite Hf. cbv zeta iota beta.
  cbn [py_min py_max Py.bind]. rewrite Gmed, Gp95, Gp99. cbn [Py.bind].
  reflexivity.
Qed.


Lemma py_pow2_raises (x : F) (e : Exc) : py_pow2 x = Raise e -> e = range_error.
Proof. unfold py_pow2. destruct (fpow2 x); [discriminate|]. now intros [= <-]. Qed.

Lemma py_pow_half_raises (x : F) (e : Exc) : py_pow_half x = Raise e -> e = range_error.
Proof. unfold py_pow_half. destruct (fpow_half x); [discriminate|]. now intros [= <-]. Qed.


End AnalysisShape.

(* ================================================================= *)
(** ** The analysis on binary64 *)

Lemma finite_positive (L : float) :
  PrimFloat.ltb 0 L = true -> PrimFloat.ltb L infinity = true ->
  exists m e, Prim2SF L = S754_finite false m e.
Proof.
  rewrite !ltb_spec. change (Prim2SF 0) with (S754_zero false).
  change (Prim2SF infinity) with (S754_infinity false).
  destruct (Prim2SF L) as [s|s| |s m e]; try destruct s; try discriminate.
  intros _ _. now exists m, e.
Qed.

Lemma sub_finite_self (L : float) (s : bool) (m : positive) (e : Z) :
  Prim2SF L = S754_finite s m e -> (L - L)%float = 0%float.
Proof.
  intros HL. apply Prim2SF_inj. rewrite sub_spec, HL.
  change (Prim2SF 0) with (S754_zero false).
  unfold SF64sub, SFsub. cbv zeta. rewrite Z.sub_diag. reflexivity.
Qed.

Lemma eqb_finite_eq (x L : float) (m : positive) (e : Z) :
  Prim2SF L = S754_finite false m e -> PrimFloat.eqb x L = true -> x = L.
Proof.
  intros HL. rewrite eqb_spec, HL. intros Heq. apply Prim2SF_inj. rewrite HL.
  unfold SFeqb, SFcompare in Heq.
  destruct (Prim2SF x) as [s|s| |s m' e']; try destruct s; try discriminate.
  destruct (Z.compare e' e) eqn:He; try discriminate.
  destruct (Pos.compare_cont Eq m' m) eqn:Hm; try discriminate.
  apply Z.compare_eq in He. apply Pos.compare_eq in Hm. now subst.
Qed.

Lemma zero_div_positive (y : float) :
  sf_positive (Prim2SF y) = true -> (0 / y)%float = 0%float.
Proof.
  intros Hy. apply Prim2SF_inj. rewrite div_spec.
  change (Prim2SF 0) with (S754_zero false).
  destruct (Prim2SF y) as [s|s| |s m e]; try destruct s; try discriminate; reflexivity.
Qed.

Section Binary64Analysis.
Variable libm : Libm.

Local Abbreviation arith := (Arith_binary64 libm).
Local Abbreviation analyze := (@analyze_latency_patterns float arith).
Local Abbreviation sum := (@py_sum float arith).
Local Abbreviation truediv := (@py_truediv float arith).
Local Abbreviation float_of := (@of_nat float arith).

Lemma truediv_by_positive (a b : float) :
  sf_positive (Prim2SF b) = true -> truediv a b = Ok (a / b)%float.
Proof.
  intros Hb. unfold py_truediv. cbn [feqb fdiv of_nat Arith_binary64].
  change (of_uint63 (Uint63.of_Z (Z.of_nat 0))) with 0%float.
  now rewrite positive_is_not_zero.
Qed.

Lemma sum_positive (times : list float) :
  Forall (fun t => PrimFloat.ltb 0 t = true) times -> times <> [] ->
  sf_positive (Prim2SF (sum times)) = true.
Proof.
  intros Hpos Hne. unfold py_sum. cbn [fadd of_nat Arith_binary64].
  now apply fold_add_positive.
Qed.

Lemma filter_positive_binary64 (rs : list float) :
  Forall (fun t => PrimFloat.ltb 0 t = true) (filter (fun t => PrimFloat.ltb 0 t) rs).
Proof. apply Forall_forall. intros t Ht. now apply filter_In in Ht. Qed.

Lemma filter_nil_binary64 (rs : list float) :
  filter (fun t => PrimFloat.ltb 0 t) rs = [] <-> Forall (fun t => PrimFloat.ltb 0 t = false) rs.
Proof.
  induction rs as [|r rs IH]; cbn [filter].
  - split; [constructor|reflexivity].
  - destruct (PrimFloat.ltb 0 r) eqn:Hr.
    + split; [discriminate|]. intros Hall. inversion Hall; congruence.
    + rewrite IH. split; [now constructor|]. intros Hall. now inversion Hall.
Qed.

(** The analysis of a list with a positive time raises nothing but the
    [OverflowError] of a power. *)
Lemma analyze_binary64_raises (rs : list float) (e : Exc) :
  (Z.of_nat (length rs) < 2 ^ 63)%Z ->
  analyze rs = Raise e -> e = range_error.
Proof.
  intros Hlen Hraise.
  destruct (filter (fun t => PrimFloat.ltb 0 t) rs) as [|t ts] eqn:Hf.
  - rewrite (@analyze_without_positive_time float arith rs Hf) in Hraise. discriminate.
  - pose proof (filter_positive_binary64 rs) as Hpos. rewrite Hf in Hpos.
    pose proof (filter_length_le (fun t => PrimFloat.ltb 0 t) rs) as Hle. rewrite Hf in Hle.
    assert (Hn : sf_positive (Prim2SF (float_of (length (t :: ts)))) = true).
    { apply of_nat_positive; [simpl; lia | lia]. }
    assert (Hs : sf_positive (Prim2SF (sum (t :: ts))) = true).
    { now apply sum_positive. }
    destruct (@analyze_with_positive_time float arith rs t ts Hf)
      as (med & p95 & p99 & _ & _ & _ & Ha).
    rewrite Ha in Hraise. clear Ha.
    destruct (@sum_squared_deviations float arith (t :: ts)) as [ssd|e0] eqn:Hssd;
      cbn [Py.bind] in Hraise.
    + rewrite truediv_by_positive in Hraise by exact Hn. cbn [Py.bind] in Hraise.
      destruct (py_pow_half _) as [std|e1] eqn:Hstd in Hraise; cbn [Py.bind] in Hraise.
      * rewrite truediv_by_positive in Hraise by exact Hs. discriminate.
      * injection Hraise as <-. now apply py_pow_half_raises in Hstd.
    + injection Hraise as <-.
      unfold sum_squared_deviations in Hssd.
      rewrite truediv_by_positive in Hssd by exact Hn. cbn [Py.bind] in Hssd.
      revert Hssd. generalize (sum (t :: ts) / float_of (length (t :: ts)))%float. intros mean.
      assert (G : forall l acc,
                (forall e', acc = Raise e' -> e' = range_error) ->
                fold_left
                  (fun acc t0 =>
                     (a <- acc ;;
                      square <- @py_pow2 float arith (t0 - mean)%float ;;
                      Ok (a + square)%float)%result) l acc = Raise e0 ->
                e0 = range_error).
      { induction l as [|x l IH]; intros acc Hacc; cbn [fold_left].
        - apply Hacc.
        - apply IH. intros e' He'.
          destruct acc as [a|e1]; cbn [Py.bind] in He'.
          + destruct (@py_pow2 float arith (x - mean)%float) as [sq|e2] eqn:Hsq; cbn [Py.bind] in He';
              [discriminate|].
            injection He' as <-. now apply py_pow2_raises in Hsq.
          + injection He' as <-. now apply Hacc. }
      apply G. discriminate.
Qed.

End Binary64Analysis.

(* ================================================================= *)
(** ** Binary64: no square root of a negative variance *)

Lemma ltb_0_not_negative (x : float) :
  PrimFloat.ltb x 0 = negb (sf_not_negative (Prim2SF x)).
Proof.
  rewrite ltb_spec. change (Prim2SF 0) with (S754_zero false).
  destruct (Prim2SF x) as [s|s| |s m e]; try destruct s; reflexivity.
Qed.

Lemma binary_round_aux_not_negative (m e : Z) (l : location) :
  sf_not_negative (binary_round_aux prec emax false m e l) = true.
Proof.
  unfold SpecFloat.binary_round_aux.
  destruct (shr_fexp prec emax m e l) as [mrs' e'].
  destruct (shr_fexp prec emax _ e' loc_Exact) as [mrs'' e''].
  destruct (shr_m mrs''); try reflexivity.
  destruct (e'' <=? emax - prec)%Z; reflexivity.
Qed.

Lemma binary_round_not_negative (m : positive) (e : Z) :
  sf_not_negative (binary_round prec emax false m e) = true.
Proof.
  unfold SpecFloat.binary_round.
  destruct (shl_align m e _) as [mz ez]. apply binary_round_aux_not_negative.
Qed.

Lemma SFadd_not_negative (x y : spec_float) :
  sf_not_negative x = true -> sf_not_negative y = true ->
  sf_not_negative (SFadd prec emax x y) = true.
Proof.
  intros Hx Hy.
  destruct x as [sx|sx| |sx mx ex]; try destruct sx; try discriminate;
    destruct y as [sy|sy| |sy my ey]; try destruct sy; try discriminate;
    try reflexivity.
  cbn [SFadd cond_Zopp binary_normalize Z.add]. apply binary_round_not_negative.
Qed.

Lemma SFdiv_not_negative (x y : spec_float) :
  sf_not_negative x = true -> sf_positive y = true ->
  sf_not_negative (SFdiv prec emax x y) = true.
Proof.
  intros Hx Hy.
  destruct y as [sy|sy| |sy my ey]; try discriminate; destruct sy; try discriminate;
    destruct x as [sx|sx| |sx mx ex]; try destruct sx; try discriminate;
    try reflexivity.
  cbn [SFdiv xorb].
  destruct (SFdiv_core_binary prec emax (Z.pos mx) ex (Z.pos my) ey) as [[mz ez] lz].
  apply binary_round_aux_not_negative.
Qed.

Section NoNegativeVariance.
Variable libm : Libm.
Hypothesis libm_sign : pow_is_not_negative libm.

Local Abbreviation arith := (Arith_binary64 libm).

Lemma positive_magnitude (x : float) :
  float_is_nan x = false -> PrimFloat.eqb x 0 = false ->
  PrimFloat.ltb 0 (if PrimFloat.ltb x 0 then PrimFloat.opp x else x) = true.
Proof.
  unfold float_is_nan. rewrite !eqb_spec, !ltb_spec. change (Prim2SF 0) with (S754_zero false).
  destruct (Prim2SF x) as [s|s| |s m e] eqn:Hx; try destruct s; cbn; intros Hnan Hz;
    try discriminate; rewrite ?ltb_spec, ?opp_spec, ?Hx; reflexivity.
Qed.

(** A square is not negative. *)
Lemma float_pow2_not_negative (x v : float) :
  float_pow2 libm x = Some v -> sf_not_negative (Prim2SF v) = true.
Proof.
  unfold float_pow2.
  destruct (float_is_nan x) eqn:Hnan.
  { intros [= <-]. unfold float_is_nan in Hnan. rewrite eqb_spec in Hnan.
    destruct (Prim2SF x) as [s|s| |s m e]; try reflexivity; try destruct s; cbn in Hnan;
      try discriminate.
    - unfold SFeqb, SFcompare in Hnan. now rewrite Z.compare_refl, Pos.compare_cont_refl in Hnan.
    - unfold SFeqb, SFcompare in Hnan. now rewrite Z.compare_refl, Pos.compare_cont_refl in Hnan. }
  destruct (float_is_inf x).
  { intros [= <-]. rewrite abs_spec. destruct (Prim2SF x) as [s|s| |s m e]; reflexivity. }
  destruct (PrimFloat.eqb x 0) eqn:Hz; [now intros [= <-]|].
  pose proof (@positive_magnitude x Hnan Hz) as Hpos. cbv zeta.
  destruct (PrimFloat.eqb _ 1); [now intros [= <-]|].
  pose proof libm_sign as Hsign. unfold pow_is_not_negative in Hsign.
  specialize (Hsign _ 2%float Hpos).
  unfold adjust_erange. destruct (libm_pow libm _ 2) as [ix erange]. cbn [fst] in Hsign.
  destruct (if erange then _ else _); [discriminate|]. intros [= <-].
  rewrite ltb_0_not_negative in Hsign. now apply negb_false_iff in Hsign.
Qed.

(** The sum of the squared deviations is not negative. *)
Lemma sum_squared_deviations_not_negative (times : list float) (ssd : float) :
  @sum_squared_deviations float arith times = Ok ssd ->
  sf_not_negative (Prim2SF ssd) = true.
Proof.
  unfold sum_squared_deviations.
  generalize (@py_truediv float arith (@py_sum float arith times)
                (@of_nat float arith (length times))). intros mean.
  assert (G : forall l acc,
            (forall a, acc = Ok a -> sf_not_negative (Prim2SF a) = true) ->
            fold_left
              (fun acc t =>
                 (a <- acc ;;
                  mean <- mean ;;
                  square <- @py_pow2 float arith (@fsub float arith t mean) ;;
                  Ok (@fadd float arith a square))%result) l acc = Ok ssd ->
            sf_not_negative (Prim2SF ssd) = true).
  { induction l as [|x l IH]; intros acc Hacc; cbn [fold_left].
    - apply Hacc.
    - apply IH. intros a' Ha'.
      apply bind_Ok_inv in Ha' as (a & -> & Ha').
      apply bind_Ok_inv in Ha' as (m & _ & Ha').
      apply bind_Ok_inv in Ha' as (square & Hsq & Ha').
      injection Ha' as <-.
      unfold py_pow2 in Hsq. cbn [fpow2 Arith_binary64] in Hsq.
      destruct (float_pow2 libm _) as [v|] eqn:Hv; [|discriminate].
      injection Hsq as <-. cbn [fadd Arith_binary64]. rewrite add_spec.
      apply SFadd_not_negative; [now apply Hacc | now apply float_pow2_not_negative in Hv]. }
  apply G. intros a [= <-]. reflexivity.
Qed.

(** The base of [** 0.5] in the analysis is not negative: the case in
    which Python builds a complex number does not arise. *)
Lemma variance_is_not_negative (times : list float) (ssd : float) :
  (1 <= length times)%nat -> (Z.of_nat (length times) < 2 ^ 63)%Z ->
  @sum_squared_deviations float arith times = Ok ssd ->
  PrimFloat.ltb (ssd / @of_nat float arith (length times)) 0 = false.
Proof.
  intros Hn Hlt Hssd. rewrite ltb_0_not_negative, div_spec.
  apply negb_false_iff. apply SFdiv_not_negative.
  - now apply sum_squared_deviations_not_negative with (times := times).
  - now apply of_nat_positive.
Qed.

(** A square root is not negative. *)
Lemma float_pow_half_not_negative (x v : float) :
  PrimFloat.ltb x 0 = false ->
  float_pow_half libm x = Some v -> sf_not_negative (Prim2SF v) = true.
Proof.
  intros Hx. unfold float_pow_half.
  destruct (float_is_nan x) eqn:Hnan.
  { intros [= <-]. rewrite ltb_0_not_negative in Hx. now apply negb_false_iff in Hx. }
  destruct (float_is_inf x).
  { intros [= <-]. rewrite abs_spec. destruct (Prim2SF x) as [s|s| |s m e]; reflexivity. }
  destruct (PrimFloat.eqb x 0) eqn:Hz; [now intros [= <-]|].
  rewrite Hx.
  destruct (PrimFloat.eqb x 1); [now intros [= <-]|].
  pose proof (@positive_magnitude x Hnan Hz) as Hpos. rewrite Hx in Hpos.
  pose proof libm_sign as Hsign. unfold pow_is_not_negative in Hsign.
  specialize (Hsign _ 0x1p-1%float Hpos).
  unfold adjust_erange. destruct (libm_pow libm x 0x1p-1) as [ix erange]. cbn [fst] in Hsign.
  destruct (if erange then _ else _); [discriminate|]. intros [= <-].
  rewrite ltb_0_not_negative in Hsign. now apply negb_false_iff in Hsign.
Qed.

(** The standard deviation that the analysis returns is not negative. *)
Lemma std_deviation_is_not_negative (rs : list float) (d : Dict float) :
  (Z.of_nat (length rs) < 2 ^ 63)%Z ->
  @analyze_latency_patterns float arith rs = Ok d ->
  PrimFloat.ltb (dict_get d "std_deviation" 0%float) 0 = false.
Proof.
  intros Hlen Hd.
  destruct (filter (fun t => PrimFloat.ltb 0 t) rs) as [|t ts] eqn:Hf.
  - rewrite (@analyze_without_positive_time float arith rs Hf) in Hd.
    injection Hd as <-. reflexivity.
  - pose proof (filter_length_le (fun t => PrimFloat.ltb 0 t) rs) as Hle. rewrite Hf in Hle.
    assert (H1 : (1 <= length (t :: ts))%nat) by (simpl; lia).
    assert (H2 : (Z.of_nat (length (t :: ts)) < 2 ^ 63)%Z) by lia.
    destruct (@analyze_with_positive_time float arith rs t ts Hf)
      as (med & p95 & p99 & _ & _ & _ & Ha).
    rewrite Ha in Hd. clear Ha.
    apply bind_Ok_inv in Hd as (ssd & Hssd & Hd).
    apply bind_Ok_inv in Hd as (variance & Hvar & Hd).
    apply bind_Ok_inv in Hd as (std & Hstd & Hd).
    apply bind_Ok_inv in Hd as (spread & _ & Hd).
    injection Hd as <-.
    change (dict_get _ "std_deviation" 0%float) with std.
    rewrite (@truediv_by_positive libm ssd _ (of_nat_positive libm H1 H2)) in Hvar.
    injection Hvar as <-.
    pose proof (@variance_is_not_negative (t :: ts) ssd H1 H2 Hssd) as Hv.
    unfold py_pow_half in Hstd. cbn [fpow_half Arith_binary64] in Hstd.
    destruct (float_pow_half libm _) as [v|] eqn:Hhalf; [|discriminate].
    injection Hstd as <-.
    rewrite ltb_0_not_negative. apply negb_false_iff.
    exact (@float_pow_half_not_negative _ v Hv Hhalf).
Qed.

End NoNegativeVariance.

(** The correctly rounded [pow] returns nothing negative. *)
Lemma correctly_rounded_is_not_negative : pow_is_not_negative correctly_rounded.
Proof.
  intros x y Hx. rewrite ltb_0_positive in Hx.
  unfold correctly_rounded. cbn [libm_pow].
  destruct (PrimFloat.eqb y 2); [|destruct (PrimFloat.eqb y 0x1p-1)]; cbn [fst];
    rewrite ltb_0_not_negative; apply negb_false_iff.
  - rewrite mul_spec.
    destruct (Prim2SF x) as [s|s| |s m e]; try destruct s; try discriminate; try reflexivity.
    cbn [SF64mul SFmul xorb]. apply binary_round_aux_not_negative.
  - rewrite sqrt_spec.
    destruct (Prim2SF x) as [s|s| |s m e]; try destruct s; try discriminate; try reflexivity.
    unfold SF64sqrt, SFsqrt.
    destruct (SFsqrt_core_binary prec emax (Z.pos m) e) as [[mz ez] lz].
    apply binary_round_aux_not_negative.
  - reflexivity.
Qed.

(* ================================================================= *)
(** ** The analysis over the real numbers *)

Section RealAnalysis.
Local Open Scope R_scope.

Lemma INR_length_nonzero (t : R) (ts : list R) : INR (length (t :: ts)) <> 0.
Proof. apply not_0_INR. simpl. lia. Qed.

Lemma py_truediv_R_ok (a b : R) : b <> 0 -> py_truediv a b = Ok (a / b).
Proof. intros Hb. unfold py_truediv. rewrite feqb_R_false; [reflexivity|]. simpl. exact Hb. Qed.

Lemma sum_squared_deviations_exact (times : list R) :
  times <> [] -> sum_squared_deviations times = Ok (squared_deviations times).
Proof.
  intros Hne. unfold sum_squared_deviations, squared_deviations.
  assert (Hm : py_truediv (py_sum times) (of_nat (length times)) = Ok (mean times)).
  { destruct times as [|t ts]; [contradiction|].
    apply py_truediv_R_ok. apply INR_length_nonzero. }
  assert (G : forall l a,
            fold_left
              (fun acc t =>
                 (a <- acc ;;
                  mean <- py_truediv (py_sum times) (of_nat (length times)) ;;
                  square <- py_pow2 (fsub t mean) ;;
                  Ok (fadd a square))%result) l (Ok a)
            = Ok (fold_left (fun a t => a + (t - mean times) * (t - mean times)) l a)).
  { rewrite Hm. cbn [Py.bind].
    induction l as [|x l IH]; intros a; cbn [fold_left Py.bind]; [reflexivity|].
    apply IH. }
  apply G.
Qed.

Lemma analyze_exact (rs : list R) (t : R) (ts : list R) :
  filter is_positive rs = t :: ts ->
  exists med p95 p99,
    nth_error (sorted (t :: ts)) (median_index (length (t :: ts))) = Some med /\
    nth_error (sorted (t :: ts)) (p95_index (length (t :: ts))) = Some p95 /\
    nth_error (sorted (t :: ts)) (p99_index (length (t :: ts))) = Some p99 /\
    analyze_latency_patterns rs =
      Ok [ ("min_latency", min_from t ts);
           ("max_latency", max_from t ts);
           ("median_latency", med);
           ("p95_latency", p95);
           ("p99_latency", p99);
           ("std_deviation", sqrt (squared_deviations (t :: ts) / INR (length (t :: ts))));
           ("consistency_score",
            1 - (max_from t ts - min_from t ts) / py_sum (t :: ts) * INR (length (t :: ts))) ].
Proof.
  intros Hf.
  assert (Hn : (0 < length (t :: ts))%nat) by (simpl; lia).
  destruct (py_getitem_in_range (sorted (t :: ts)) (i := median_index (length (t :: ts))))
    as (med & Hmed & Gmed); [rewrite sorted_length; now apply median_index_lt|].
  destruct (py_getitem_in_range (sorted (t :: ts)) (i := p95_index (length (t :: ts))))
    as (p95 & Hp95 & Gp95); [rewrite sorted_length; now apply p95_index_lt|].
  destruct (py_getitem_in_range (sorted (t :: ts)) (i := p99_index (length (t :: ts))))
    as (p99 & Hp99 & Gp99); [rewrite sorted_length; now apply p99_index_lt|].
  exists med, p95, p99. repeat (split; [assumption|]).
  unfold analyze_latency_patterns.
  destruct rs as [|r rs']; [discriminate|].
  change (filter (fun t0 : R => fltb (of_nat 0) t0) (r :: rs')) with (filter is_positive (r :: rs')).
  rewrite Hf. cbv zeta iota beta.
  cbn [py_min py_max Py.bind]. rewrite Gmed, Gp95, Gp99. cbn [Py.bind].
  rewrite sum_squared_deviations_exact by discriminate. cbn [Py.bind].
  rewrite py_truediv_R_ok by apply INR_length_nonzero. cbn [Py.bind].
  rewrite py_truediv_R_ok; [reflexivity|].
  apply Rgt_not_eq, Rlt_gt, py_sum_pos. rewrite <- Hf. apply filter_positive.
Qed.


Lemma squared_deviations_repeat (L : R) (n : nat) :
  (0 < n)%nat -> squared_deviations (repeat L n) = 0.
Proof.
  intros Hn. unfold squared_deviations.
  assert (Hmean : mean (repeat L n) = L).
  { unfold mean. rewrite py_sum_repeat, repeat_length. field.
    apply not_0_INR. lia. }
  rewrite Hmean.
  assert (G : forall m a, fold_left (fun a t => a + (t - L) * (t - L)) (repeat L m) a = a).
  { induction m as [|m IH]; intros a; simpl; [reflexivity|]. rewrite IH. ring. }
  apply G.
Qed.

Lemma nth_error_repeat_inv {X} (L v : X) (n i : nat) :
  nth_error (repeat L n) i = Some v -> v = L.
Proof. intros Hnth. apply nth_error_In in Hnth. now apply repeat_spec in Hnth. Qed.

End RealAnalysis.


(* ================================================================= *)
(** ** Programs: algebra of [bindP] and [for_each] *)

Section ProgFacts.
Context {S : Type}.

Lemma bindP_ret_r {A} (m : Prog S A) (s : S) : bindP m (fun a => ret a) s = m s.
Proof. unfold bindP, ret. destruct (m s) as [[a|e] s']; reflexivity. Qed.

Lemma bindP_assoc {A B C} (m : Prog S A) (k : A -> Prog S B) (h : B -> Prog S C) (s : S) :
  bindP (bindP m k) h s = bindP m (fun a => bindP (k a) h) s.
Proof. unfold bindP. destruct (m s) as [[a|e] s']; reflexivity. Qed.

Lemma bindP_ext {A B} (m : Prog S A) (k1 k2 : A -> Prog S B) (s : S) :
  (forall a s', k1 a s' = k2 a s') -> bindP m k1 s = bindP m k2 s.
Proof. intros Hk. unfold bindP. destruct (m s) as [[a|e] s']; [apply Hk | reflexivity]. Qed.

Lemma bindP_lift_ok {A B} (a : A) (k : A -> Prog S B) (s : S) :
  bindP (lift (Ok a)) k s = k a s.
Proof. reflexivity. Qed.

Lemma for_each_app {X A} (xs ys : list X) (acc : A) (body : X -> A -> Prog S A) (s : S) :
  for_each (xs ++ ys) acc body s
  = bindP (for_each xs acc body) (fun acc' => for_each ys acc' body) s.
Proof.
  revert acc s. induction xs as [|x xs IH]; intros acc s; simpl.
  - reflexivity.
  - rewrite bindP_assoc. apply bindP_ext. intros a s'. apply IH.
Qed.

End ProgFacts.

(* ================================================================= *)
(** ** [range], slices and [enumerate] *)

Lemma py_range_zero_step (start stop : Z) :
  is_ok (py_range start stop 0) = false.
Proof. reflexivity. Qed.

Lemma py_range_empty (start stop step : Z) :
  (0 < step)%Z -> (stop <= start)%Z -> py_range start stop step = Ok [].
Proof.
  intros Hstep Hle. unfold py_range.
  destruct (Z.eqb_spec step 0); [lia|].
  destruct (Z.ltb_spec 0 step); [|lia].
  destruct (Z.ltb_spec start stop); [lia|]. reflexivity.
Qed.

Lemma py_range_cons (start stop step : Z) :
  (0 < step)%Z -> (start < stop)%Z ->
  exists rest,
    py_range (start + step) stop step = Ok rest /\
    py_range start stop step = Ok (start :: rest).
Proof.
  intros Hstep Hlt. unfold py_range.
  destruct (Z.eqb_spec step 0); [lia|].
  destruct (Z.ltb_spec 0 step); [|lia].
  destruct (Z.ltb_spec start stop); [|lia].
  eexists. split; [reflexivity|]. f_equal.
  set (len' := (if (start + step <? stop)%Z
                then ((stop - (start + step) - 1) / step + 1)%Z else 0%Z)).
  assert (Hlen : ((stop - start - 1) / step + 1 = len' + 1)%Z /\ (0 <= len')%Z).
  { unfold len'. destruct (Z.ltb_spec (start + step) stop).
    - replace (stop - start - 1)%Z with ((stop - (start + step) - 1) + 1 * step)%Z by ring.
      rewrite Z.div_add by lia.
      assert (0 <= (stop - (start + step) - 1) / step)%Z by (apply Z.div_pos; lia).
      lia.
    - rewrite Z.div_small by lia. lia. }
  destruct Hlen as [Hlen Hpos]. rewrite Hlen.
  rewrite Z2Nat.inj_add by lia. rewrite Nat.add_comm. simpl.
  f_equal; [lia|].
  rewrite <- seq_shift, map_map. apply map_ext. intros k.
  rewrite Nat2Z.inj_succ. ring.
Qed.

Lemma enumerate_app {X} (xs ys : list X) (start : Z) :
  enumerate (xs ++ ys) start
  = enumerate xs start ++ enumerate ys (start + Z.of_nat (length xs)).
Proof.
  revert start. induction xs as [|x xs IH]; intros start; simpl.
  - now rewrite Z.add_0_r.
  - rewrite IH. do 3 f_equal. lia.
Qed.

Lemma enumerate_length {X} (xs : list X) (start : Z) :
  length (enumerate xs start) = length xs.
Proof. revert start. induction xs; intros; simpl; [reflexivity | now f_equal]. Qed.

Lemma map_fst_enumerate {X} (xs : list X) (start : Z) :
  map fst (enumerate xs start)
  = map (fun k => (start + Z.of_nat k)%Z) (seq 0 (length xs)).
Proof.
  revert start. induction xs as [|x xs IH]; intros start; simpl; [reflexivity|].
  f_equal; [lia|]. rewrite IH, <- seq_shift, map_map. apply map_ext. intros k. lia.
Qed.

Lemma map_snd_enumerate {X} (xs : list X) (start : Z) :
  map snd (enumerate xs start) = xs.
Proof. revert start. induction xs; intros; simpl; [reflexivity | now f_equal]. Qed.

(** A batch and what follows it make up what was left of the questions. *)
Lemma batch_split {X} (questions : list X) (batch_start batch_size : Z) :
  (0 <= batch_start < Z.of_nat (length questions))%Z -> (0 < batch_size)%Z ->
  let batch_end := Z.min (batch_start + batch_size) (Z.of_nat (length questions)) in
  enumerate (skipn (Z.to_nat batch_start) questions) (batch_start + 1)
  = enumerate (py_slice questions batch_start batch_end) (batch_start + 1)
    ++ enumerate (skipn (Z.to_nat (batch_start + batch_size)) questions)
         (batch_start + batch_size + 1).
Proof.
  intros Ha Hbs batch_end. unfold py_slice.
  set (rest := skipn (Z.to_nat batch_start) questions).
  assert (Hrest : length rest = (length questions - Z.to_nat batch_start)%nat)
    by apply length_skipn.
  rewrite <- (firstn_skipn (Z.to_nat (batch_end - batch_start)) rest) at 1.
  rewrite enumerate_app. f_equal.
  rewrite length_firstn, Hrest. unfold rest. rewrite skipn_skipn.
  destruct (Z.le_ge_cases (batch_start + batch_size) (Z.of_nat (length questions))) as [Hin|Hout].
  - assert (batch_end = (batch_start + batch_size)%Z) by (unfold batch_end; lia).
    f_equal; [f_equal; lia | lia].
  - assert (batch_end = Z.of_nat (length questions)) by (unfold batch_end; lia).
    rewrite !skipn_all2 by lia. reflexivity.
Qed.
(* ================================================================= *)
(** ** [query_krishna_topic] *)

(** Reduces the projections of demonstrator records and nothing else. *)
Ltac fields :=
  cbn [results response_times cloudflare_worker connectivity_issues
       successful_queries total_tokens_estimated].

Section QueryFacts.
Context {F : Type} `{Arith F} {W : Type}.
Variable world : World F W.

Lemma query_krishna_topic_spec (question : string) (i : Z) (d : Demonstrator F) (w : W) :
  let worker := cloudflare_worker d in
  let o := outcome_at world question w in
  let rt := latency_at world worker question w in
  exists w',
    query_krishna_topic world question i (d, w)
    = (Ok (answer_of worker o, if keeps_latency worker o then rt else of_nat 0),
       ({| results := results d;
           response_times := response_times d ++ [rt];
           cloudflare_worker := worker;
           connectivity_issues := connectivity_issues d + issues_of worker o;
           successful_queries := successful_queries d + successes_of worker o;
           total_tokens_estimated := total_tokens_estimated d + tokens_of question worker o |},
        w')).
Proof.
  intros worker o rt. subst worker o rt.
  unfold outcome_at, latency_at, query_krishna_topic, try_exceptP, bindP,
    read_perf_counter, gets, await_worker_query, update, modify, ret, lift.
  cbn [fst snd].
  destruct (perf_counter world w) as [t0 w1] eqn:E0. cbn [fst snd].
  destruct (cloudflare_worker d) eqn:Ew; cbn [fst snd].
  - destruct (worker_query world question system_prompt w1) as [[v|c msg] w2] eqn:Eq;
      cbn [fst snd exc_class derives_from_Exception].
    + destruct (perf_counter world w2) as [t1 w3] eqn:E1. cbn [fst snd].
      unfold answer_of, issues_of, successes_of, tokens_of, keeps_latency.
      destruct (py_split v) as [[a ws]|e] eqn:Es; cbn [fst snd is_ok].
      * exists w3.
        unfold add_estimated_tokens, append_response_time, incr_successful_queries.
        fields. rewrite Ew, Nat.add_0_r. reflexivity.
      * assert (He : derives_from_Exception (exc_class e) = true).
        { destruct v as [[]|]; simpl in Es; inversion Es; reflexivity. }
        rewrite He. exists w3.
        unfold incr_connectivity_issues, append_response_time, incr_successful_queries.
        fields. rewrite Ew, Nat.add_0_r. reflexivity.
    + destruct (perf_counter world w2) as [t1 w3] eqn:E1. cbn [fst snd].
      exists w3. unfold answer_of, issues_of, successes_of, tokens_of, keeps_latency.
      unfold py_split. cbn [fst snd].
      unfold add_estimated_tokens, append_response_time, incr_connectivity_issues.
      fields. rewrite Ew, Nat.add_0_r. reflexivity.
  - destruct (perf_counter world w1) as [t1 w3] eqn:E1. cbn [fst snd].
    exists w3. unfold answer_of, issues_of, successes_of, tokens_of, keeps_latency.
    unfold py_split. cbn [fst snd].
    unfold add_estimated_tokens, append_response_time.
    fields. rewrite Ew, !Nat.add_0_r. reflexivity.
Qed.

End QueryFacts.

(* ================================================================= *)
(** ** The inner loop of [run_queries_batch] *)

Section LoopFacts.
Context {F : Type} `{Arith F} {W : Type}.
Variable world : World F W.

Lemma process_question_spec (total : Z) (delay : F) (i : Z) (question : string)
    (acc : list (FormattedResult F)) (d : Demonstrator F) (w : W) :
  let worker := cloudflare_worker d in
  let o := outcome_at world question w in
  let rt := latency_at world worker question w in
  let t := if keeps_latency worker o then rt else of_nat 0 in
  exists w',
    process_question world total delay (i, question) acc (d, w)
    = (Ok (acc ++ [format_result i question t (answer_of worker o)]),
       ({| results :=
             results d ++ [{| question_number := i;
                              question := question;
                              response_time := t;
                              answer_length := py_len (answer_of worker o) |}];
           response_times := response_times d ++ [rt];
           cloudflare_worker := worker;
           connectivity_issues := connectivity_issues d + issues_of worker o;
           successful_queries := successful_queries d + successes_of worker o;
           total_tokens_estimated := total_tokens_estimated d + tokens_of question worker o |},
        w')).
Proof.
  intros worker o rt t.
  destruct (query_krishna_topic_spec world question i d w) as [w1 Hq].
  fold worker o rt t in Hq.
  unfold process_question, bindP. cbn [fst snd]. rewrite Hq.
  unfold update, modify, sleep, ret. cbn [fst snd].
  destruct (fltb (of_nat 0) delay && (i <? total)%Z);
    eexists; unfold append_result; fields; reflexivity.
Qed.

(** The inner loop never raises, whatever the responder does, and adds
    one formatted result and one [self.results] entry per item, numbered and
    worded as the items are. *)
Lemma inner_loop_spec (total : Z) (delay : F) (items : list (Z * string)) :
  forall (acc : list (FormattedResult F)) (d : Demonstrator F) (w : W),
  exists new entries d' w',
    for_each items acc (process_question world total delay) (d, w)
    = (Ok (acc ++ new), (d', w')) /\
    map (fun r => (fr_question_number r, fr_question r)) new = items /\
    map (fun r => (question_number r, question r)) entries = items /\
    results d' = results d ++ entries /\
    map (fun r => answer_length r) entries = map (fun r => py_len (fr_answer r)) new /\
    map (fun r => response_time r) entries = map (fun r => fr_response_time r) new /\
    cloudflare_worker d' = cloudflare_worker d /\
    length (response_times d') = length (response_times d) + length items /\
    connectivity_issues d' + successful_queries d'
      >= connectivity_issues d + successful_queries d.
Proof.
  induction items as [|[i q] items IH]; intros acc d w.
  - exists [], [], d, w. cbn [for_each]. unfold ret.
    rewrite !app_nil_r. cbn [map length]. repeat split; lia.
  - cbn [for_each]. unfold bindP at 1.
    destruct (process_question_spec total delay i q acc d w) as [w1 Hp].
    cbv zeta in Hp. rewrite Hp.
    match goal with
    | |- context [for_each items ?acc1 _ (?d1, w1)] =>
        destruct (IH acc1 d1 w1)
          as (new & entries & d' & w' & Hrun & Hnew & Hent & Hres & Hlen & Htime & Hwk & Hrt & Hcnt)
    end.
    rewrite Hrun. revert Hres Hwk Hrt Hcnt. fields. intros Hres Hwk Hrt Hcnt.
    eexists (_ :: new), (_ :: entries), d', w'.
    split; [rewrite <- app_assoc; reflexivity|].
    cbn [map length fr_question_number fr_question fr_answer fr_response_time
         question_number question answer_length response_time format_result].
    rewrite Hnew, Hent, Hlen, Htime, Hres, <- app_assoc.
    rewrite length_app in Hrt. cbn [length] in Hrt.
    repeat split; try reflexivity; try assumption; lia.
Qed.

End LoopFacts.

(* ================================================================= *)
(** ** Batching: the outer loop is the inner loop over all questions *)

Section BatchFacts.
Context {F : Type} `{Arith F} {W : Type}.
Variable world : World F W.

Lemma process_batch_is_inner_loop (questions : list string) (delay : F)
    (batch_size batch_start : Z) (acc : list (FormattedResult F)) (s : St) :
  (0 < batch_size)%Z ->
  (0 <= batch_start < Z.of_nat (length questions))%Z ->
  process_batch world questions delay batch_size batch_start acc s
  = for_each
      (enumerate
         (py_slice questions batch_start
            (Z.min (batch_start + batch_size) (Z.of_nat (length questions))))
         (batch_start + 1))
      acc (process_question world (Z.of_nat (length questions)) delay) s.
Proof.
  intros Hbs Ha. unfold process_batch, py_floordiv, py_int_truediv.
  destruct (Z.eqb_spec batch_size 0); [lia|].
  destruct (Z.eqb_spec (Z.of_nat (length questions)) 0); [lia|].
  rewrite bindP_lift_ok.
  etransitivity; [|apply bindP_ret_r].
  apply bindP_ext. intros out s'. reflexivity.
Qed.

Lemma outer_loop_is_inner_loop (questions : list string) (delay : F) (batch_size : Z) :
  (0 < batch_size)%Z ->
  forall (fuel : nat) (batch_start : Z) (starts : list Z)
         (acc : list (FormattedResult F)) (s : St),
    (0 <= batch_start)%Z ->
    (Z.of_nat (length questions) - batch_start <= Z.of_nat fuel)%Z ->
    py_range batch_start (Z.of_nat (length questions)) batch_size = Ok starts ->
    for_each starts acc (process_batch world questions delay batch_size) s
    = for_each
        (enumerate (skipn (Z.to_nat batch_start) questions) (batch_start + 1))
        acc (process_question world (Z.of_nat (length questions)) delay) s.
Proof.
  intros Hbs. induction fuel as [|fuel IH]; intros a starts acc s Ha Hfuel Hrange.
  - rewrite py_range_empty in Hrange by lia. inversion Hrange; subst.
    rewrite skipn_all2 by lia. reflexivity.
  - destruct (Z.le_gt_cases (Z.of_nat (length questions)) a) as [Hdone|Hmore].
    + rewrite py_range_empty in Hrange by lia. inversion Hrange; subst.
      rewrite skipn_all2 by lia. reflexivity.
    + destruct (py_range_cons Hbs Hmore)
        as (rest & Hrest & Hcons).
      rewrite Hcons in Hrange. inversion Hrange; subst starts.
      rewrite (@batch_split _ questions a batch_size) by lia. rewrite for_each_app.
      cbn [for_each]. unfold bindP.
      rewrite process_batch_is_inner_loop by lia.
      destruct (for_each _ acc _ s) as [[out|e] s']; [|reflexivity].
      apply IH; [lia | lia | exact Hrest].
Qed.

(** With a positive batch size, [run_queries_batch] does what one pass
    over the enumerated questions does: same result, same final state. *)
Lemma run_queries_batch_unbatched (questions : list string) (delay : F)
    (batch_size : Z) (s : St) :
  (0 < batch_size)%Z ->
  run_queries_batch world questions delay batch_size s
  = for_each (enumerate questions 1) []
      (process_question world (Z.of_nat (length questions)) delay) s.
Proof.
  intros Hbs. unfold run_queries_batch.
  destruct (py_range 0 (Z.of_nat (length questions)) batch_size) as [starts|e] eqn:Hrange.
  - rewrite bindP_lift_ok.
    apply (@outer_loop_is_inner_loop questions delay batch_size Hbs (length questions) 0%Z);
      [lia | lia | exact Hrange].
  - unfold py_range in Hrange. destruct (Z.eqb_spec batch_size 0); [lia|discriminate].
Qed.

(** A batch size of zero makes [range] raise before any question is asked. *)
Lemma run_queries_batch_zero (questions : list string) (delay : F) (s : St) :
  run_queries_batch world questions delay 0 s
  = (Raise (mkExc ValueError "range() arg 3 must not be zero"), s).
Proof. reflexivity. Qed.

(** A negative batch size asks nothing and returns nothing. *)
Lemma run_queries_batch_negative (questions : list string) (delay : F)
    (batch_size : Z) (s : St) :
  (batch_size < 0)%Z ->
  run_queries_batch world questions delay batch_size s = (Ok [], s).
Proof.
  intros Hneg. unfold run_queries_batch, py_range.
  destruct (Z.eqb_spec batch_size 0); [lia|].
  destruct (Z.ltb_spec 0 batch_size); [lia|].
  destruct (Z.ltb_spec (Z.of_nat (length questions)) 0); [lia|].
  reflexivity.
Qed.

End BatchFacts.

(* ================================================================= *)
(** ** Runs of [run_queries_batch] *)

Section RunFacts.
Context {F : Type} `{Arith F} {W : Type}.
Variable world : World F W.

Lemma enumerate_from_1 {X} (xs : list X) :
  map fst (enumerate xs 1) = map Z.of_nat (seq 1 (length xs)).
Proof.
  rewrite map_fst_enumerate, <- seq_shift, map_map.
  apply map_ext. intros k. lia.
Qed.

Lemma seq_increasing (start len : nat) :
  StronglySorted Z.lt (map Z.of_nat (seq start len)).
Proof.
  revert start. induction len as [|len IH]; intros start; simpl; constructor.
  - apply IH.
  - apply Forall_forall. intros z Hz. apply in_map_iff in Hz.
    destruct Hz as (k & <- & Hk). apply in_seq in Hk. lia.
Qed.

(** What a run with a positive batch size does, item by item. *)
Lemma run_queries_batch_spec (questions : list string) (delay : F) (batch_size : Z)
    (d : Demonstrator F) (w : W) :
  (0 < batch_size)%Z ->
  exists out entries d' w',
    run_queries_batch world questions delay batch_size (d, w) = (Ok out, (d', w')) /\
    map (fun r => (fr_question_number r, fr_question r)) out = enumerate questions 1 /\
    map (fun r => (question_number r, question r)) entries = enumerate questions 1 /\
    results d' = results d ++ entries /\
    length (response_times d') = length (response_times d) + length questions.
Proof.
  intros Hbs. rewrite run_queries_batch_unbatched by exact Hbs.
  destruct (inner_loop_spec world (Z.of_nat (length questions)) delay
              (enumerate questions 1) [] d w)
    as (new & entries & d' & w' & Hrun & Hnew & Hent & Hres & _ & _ & _ & Hrt & _).
  exists new, entries, d', w'. rewrite enumerate_length in Hrt.
  repeat split; assumption.
Qed.

Lemma outlines_project {A B C} (f : A -> B * C) (xs : list A) (ys : list (B * C)) :
  map f xs = ys ->
  map (fun x => fst (f x)) xs = map fst ys /\ map (fun x => snd (f x)) xs = map snd ys.
Proof. intros <-. now rewrite !map_map. Qed.

(** Under a deterministic responder the inner loop produces the same
    numbers, questions, answers and tallies from any two world states. *)
Lemma inner_loop_deterministic (respond : string -> Outcome) (total : Z) (delay : F) :
  deterministic world respond ->
  forall (items : list (Z * string)) (acc1 acc2 : list (FormattedResult F))
         (d1 d2 : Demonstrator F) (w1 w2 : W),
    map outline acc1 = map outline acc2 ->
    agree_up_to_latency d1 d2 ->
    exists out1 out2 d1' d2' w1' w2',
      for_each items acc1 (process_question world total delay) (d1, w1)
        = (Ok out1, (d1', w1')) /\
      for_each items acc2 (process_question world total delay) (d2, w2)
        = (Ok out2, (d2', w2')) /\
      map outline out1 = map outline out2 /\
      agree_up_to_latency d1' d2'.
Proof.
  intros Hdet. induction items as [|[i q] items IH];
    intros acc1 acc2 d1 d2 w1 w2 Hacc Hd.
  - exists acc1, acc2, d1, d2, w1, w2. repeat split; try assumption; apply Hd.
  - cbn [for_each]. unfold bindP.
    destruct (process_question_spec world total delay i q acc1 d1 w1) as [w1a Hp1].
    destruct (process_question_spec world total delay i q acc2 d2 w2) as [w2a Hp2].
    cbv zeta in Hp1, Hp2. rewrite Hp1, Hp2.
    assert (Ho1 : outcome_at world q w1 = respond q) by apply Hdet.
    assert (Ho2 : outcome_at world q w2 = respond q) by apply Hdet.
    destruct Hd as (Hres & Hrt & Hwk & Hci & Hsq & Htok).
    rewrite Ho1, Ho2, Hwk in *.
    apply IH.
    + rewrite !map_app, Hacc. reflexivity.
    + unfold agree_up_to_latency. fields.
      rewrite !map_app, !length_app, Hres, Hrt, Hci, Hsq, Htok.
      repeat split; reflexivity.
Qed.

(** When the responder raises on every prompt, a run counts no success
    and one failure per prompt. *)
Lemma inner_loop_all_fail (total : Z) (delay : F) :
  always_raises world ->
  forall (items : list (Z * string)) (acc : list (FormattedResult F))
         (d : Demonstrator F) (w : W),
    cloudflare_worker d = true ->
    exists out d' w',
      for_each items acc (process_question world total delay) (d, w)
        = (Ok out, (d', w')) /\
      successful_queries d' = successful_queries d /\
      connectivity_issues d' = connectivity_issues d + length items.
Proof.
  intros Hfail. induction items as [|[i q] items IH]; intros acc d w Hwk.
  - exists acc, d, w. cbn [for_each length]. unfold ret. repeat split; lia.
  - cbn [for_each]. unfold bindP.
    destruct (process_question_spec world total delay i q acc d w) as [w1 Hp].
    cbv zeta in Hp. rewrite Hp.
    destruct (Hfail q system_prompt (snd (perf_counter world w))) as (c & msg & Ho).
    fold (outcome_at world q w) in Ho. rewrite Ho, Hwk in *.
    match goal with
    | |- context [for_each items ?acc1 _ (?d1, w1)] =>
        destruct (IH acc1 d1 w1 eq_refl) as (out & d' & w' & Hrun & Hsq & Hci)
    end.
    exists out, d', w'. split; [exact Hrun|].
    revert Hsq Hci. fields. cbn [successes_of issues_of length]. lia.
Qed.

End RunFacts.

(* ================================================================= *)
(** ** [CloudflareWorker._send_request] *)

Section WorkerFacts.
Variable numpy_rejects : Json -> bool.

Lemma post_json_raises_Exception (net : CloudflareWorker.HttpOutcome) (e : Exc) :
  CloudflareWorker.post_json net = Raise e -> derives_from_Exception (exc_class e) = true.
Proof. destruct net; simpl; intros Hr; inversion Hr; reflexivity. Qed.

Lemma json_get_raises_Exception (v : Json) (k : string) (default : Json) (e : Exc) :
  json_get v k default = Raise e -> derives_from_Exception (exc_class e) = true.
Proof. destruct v; simpl; intros Hr; inversion Hr; reflexivity. Qed.

Lemma json_contains_raises_Exception (k : string) (v : Json) (e : Exc) :
  json_contains k v = Raise e -> derives_from_Exception (exc_class e) = true.
Proof. destruct v; simpl; intros Hr; inversion Hr; reflexivity. Qed.

Lemma json_getitem_raises_Exception (v : Json) (k : string) (e : Exc) :
  json_getitem v k = Raise e -> derives_from_Exception (exc_class e) = true.
Proof.
  destruct v; simpl; try (intros Hr; inversion Hr; reflexivity).
  destruct (dict_lookup fields k); intros Hr; inversion Hr; reflexivity.
Qed.

Lemma np_array_raises_Exception (data : Json) (e : Exc) :
  CloudflareWorker.np_array numpy_rejects data = Raise e ->
  derives_from_Exception (exc_class e) = true.
Proof.
  unfold CloudflareWorker.np_array. destruct (numpy_rejects data);
    intros Hr; inversion Hr; reflexivity.
Qed.

(** Whatever the [try] body of [_send_request] raises is caught by
    [except Exception]. *)
Lemma send_request_try_raises_Exception (net : CloudflareWorker.HttpOutcome) (e : Exc) :
  CloudflareWorker._send_request_try numpy_rejects net = Raise e ->
  derives_from_Exception (exc_class e) = true.
Proof.
  unfold CloudflareWorker._send_request_try.
  destruct (CloudflareWorker.post_json net) as [response_raw|e0] eqn:Hpost; cbn [Py.bind].
  2:{ intros Hr; inversion Hr; subst. eapply post_json_raises_Exception, Hpost. }
  destruct (json_get response_raw "result" (JDict [])) as [result|e0] eqn:Hget; cbn [Py.bind].
  2:{ intros Hr; inversion Hr; subst. eapply json_get_raises_Exception, Hget. }
  destruct (json_contains "data" result) as [[|]|e0] eqn:Hdata; cbn [Py.bind].
  3:{ intros Hr; inversion Hr; subst. eapply json_contains_raises_Exception, Hdata. }
  - destruct (json_getitem result "data") as [data|e0] eqn:Hitem; cbn [Py.bind].
    + apply np_array_raises_Exception.
    + intros Hr; inversion Hr; subst. eapply json_getitem_raises_Exception, Hitem.
  - destruct (json_contains "response" result) as [[|]|e0] eqn:Hresp; cbn [Py.bind].
    + destruct (json_getitem result "response") as [r|e0] eqn:Hitem; cbn [Py.bind].
      * discriminate.
      * intros Hr; inversion Hr; subst. eapply json_getitem_raises_Exception, Hitem.
    + intros Hr; inversion Hr; reflexivity.
    + intros Hr; inversion Hr; subst. eapply json_contains_raises_Exception, Hresp.
Qed.

(** A handler [except Exception] lets an interrupt through: the
    guarantee rests on what the [try] body can raise. *)
Lemma try_except_lets_interrupts_through {A} (msg : string) (handler : Exc -> Result A) :
  try_except (Raise (mkExc KeyboardInterrupt msg)) handler
  = Raise (mkExc KeyboardInterrupt msg).
Proof. reflexivity. Qed.

End WorkerFacts.

(* ################################################################# *)
(** * The claims *)

(* ================================================================= *)
(** ** The batch client: [query_krishna_topic] and [run_queries_batch] *)

(** C1 (the code departs from the claim).  The claim: when the responder
    raises, the recorded result carries the error text, latency 0.0 and
    counts as a failure.  In the code the handler of the responder call
    builds the text and counts the failure, but control then reaches the
    timing code: the latency handed back and appended to
    [self.response_times] is the measured one.  Here the clock advances by
    one second between its two readings, and the latency is 1000.0 ms. *)
Theorem responder_failure_keeps_measured_latency :
  query_krishna_topic (ticking_world always_fails) "What is dharma?" 1
    (with_worker (new_demonstrator float), 0)
  = (Ok ("Connection Error: connection refused", 1000%float),
     ({| results := [];
         response_times := [1000%float];
         cloudflare_worker := true;
         connectivity_issues := 1;
         successful_queries := 0;
         total_tokens_estimated := 7 |}, 2)).
Proof. vm_compute. reflexivity. Qed.

(** The same in every world: a responder error is answered with its
    text, counted as a failure and timed like a success. *)
Lemma responder_failure_spec {F : Type} `{Arith F} {W : Type} (world : World F W)
    (question : string) (i : Z) (d : Demonstrator F) (w : W)
    (c : ExceptionClass) (msg : string) :
  cloudflare_worker d = true ->
  outcome_at world question w = Failed c msg ->
  exists w',
    query_krishna_topic world question i (d, w)
    = (Ok (("Connection Error: " ++ msg)%string, latency_at world true question w),
       ({| results := results d;
           response_times := response_times d ++ [latency_at world true question w];
           cloudflare_worker := true;
           connectivity_issues := connectivity_issues d + 1;
           successful_queries := successful_queries d + 0;
           total_tokens_estimated :=
             total_tokens_estimated d
             + (length (str_split question)
                + length (str_split ("Connection Error: " ++ msg)%string)) |},
        w')).
Proof.
  intros Hwk Ho. destruct (query_krishna_topic_spec world question i d w) as [w' Hq].
  cbv zeta in Hq. rewrite Ho, Hwk in Hq. exists w'. exact Hq.
Qed.

(** The other handler does hand back 0.0: a responder that returns [None],
    as [CloudflareWorker.query] does on every error, is caught when the
    answer is split into words.  The query has by then been counted as a
    success and its latency recorded. *)
Lemma none_response_is_counted_twice :
  query_krishna_topic
    (ticking_world
       (cloudflare_responder (fun _ => false) demo_worker
          (fun _ => CloudflareWorker.PostRaises RequestException "timed out")))
    "What is dharma?" 1
    (with_worker (new_demonstrator float), 0)
  = (Ok ("Error: 'NoneType' object has no attribute 'split'", 0%float),
     ({| results := [];
         response_times := [1000%float];
         cloudflare_worker := true;
         connectivity_issues := 1;
         successful_queries := 1;
         total_tokens_estimated := 0 |}, 2)).
Proof. vm_compute. reflexivity. Qed.

(** C2 (the code departs from the claim).  The claim: when the responder
    fails on all [n] prompts, the summary has [successful == 0],
    [failed == n] and every latency statistic at the zero/absent sentinel.
    The two tallies are as claimed, but the measured latencies of the
    failed calls are in [self.response_times], so the analysis is not
    empty: three failures one second long give min = max = median = p95 =
    p99 = 1000.0. *)
Theorem all_failing_run_has_latency_statistics :
  let run :=
    run_queries_batch (ticking_world always_fails) ["a"; "b"; "c"] 0%float 10
      (with_worker (new_demonstrator float), 0) in
  let d := fst (snd run) in
  successful_queries d = 0 /\
  connectivity_issues d = 3 /\
  response_times d = [1000%float; 1000%float; 1000%float] /\
  analyze_latency_patterns (response_times d)
  = Ok [ ("min_latency", 1000%float); ("max_latency", 1000%float);
         ("median_latency", 1000%float); ("p95_latency", 1000%float);
         ("p99_latency", 1000%float); ("std_deviation", 0%float);
         ("consistency_score", 1%float) ].
Proof. vm_compute. repeat split; reflexivity. Qed.

(** The part of C2 that the code keeps, for every world whose responder
    always raises: no success and one failure per prompt. *)
Lemma all_failing_run_tallies {F : Type} `{Arith F} {W : Type} (world : World F W)
    (questions : list string) (delay : F) (batch_size : Z)
    (d : Demonstrator F) (w : W) :
  always_raises world -> cloudflare_worker d = true -> (0 < batch_size)%Z ->
  exists out d' w',
    run_queries_batch world questions delay batch_size (d, w) = (Ok out, (d', w')) /\
    successful_queries d' = successful_queries d /\
    connectivity_issues d' = connectivity_issues d + length questions.
Proof.
  intros Hfail Hwk Hbs. rewrite run_queries_batch_unbatched by exact Hbs.
  destruct (inner_loop_all_fail (Z.of_nat (length questions)) delay Hfail
              (enumerate questions 1) [] d w Hwk) as (out & d' & w' & Hrun & Hsq & Hci).
  rewrite enumerate_length in Hci. now exists out, d', w'.
Qed.

(** C3.  For every prompt sequence and every responder, also one that
    raises on some or all prompts, [run_queries_batch] (batch size at least
    1) returns, and returns exactly one result per prompt: no failure of an
    item aborts the run. *)
Theorem run_queries_batch_one_result_per_prompt
    {F : Type} `{Arith F} {W : Type} (world : World F W)
    (questions : list string) (delay : F) (batch_size : Z)
    (d : Demonstrator F) (w : W) :
  (0 < batch_size)%Z ->
  exists out d' w',
    run_queries_batch world questions delay batch_size (d, w) = (Ok out, (d', w')) /\
    length out = length questions /\
    length (results d') = length (results d) + length questions.
Proof.
  intros Hbs.
  destruct (run_queries_batch_spec world questions delay d w Hbs)
    as (out & entries & d' & w' & Hrun & Hout & Hent & Hres & _).
  exists out, d', w'. split; [exact Hrun|].
  apply (f_equal (@length _)) in Hout, Hent.
  rewrite length_map, enumerate_length in Hout, Hent.
  rewrite Hres, length_app. split; lia.
Qed.

(** C3 at three prompts, the second of which the responder refuses, in
    batches of two. *)
Lemma run_queries_batch_one_result_per_prompt_witness :
  (0 < 2)%Z /\
  exists out d' w',
    run_queries_batch (ticking_world fails_on_y) ["x"; "y"; "z"] 0.5%float 2
      (with_worker (new_demonstrator float), 0) = (Ok out, (d', w')) /\
    length out = 3 /\
    length (results d') = 0 + 3.
Proof.
  split; [reflexivity|].
  exact (run_queries_batch_one_result_per_prompt (ticking_world fails_on_y)
           ["x"; "y"; "z"] 0.5%float (with_worker (new_demonstrator float)) 0
           (batch_size := 2) eq_refl).
Defined.

(** C4.  For every prompt sequence of length [n] the returned results,
    and the entries added to [self.results], carry the numbers 1..n in
    strictly increasing order, each with the prompt submitted at that
    position, whatever succeeds or fails. *)
Theorem run_queries_batch_indices_in_order
    {F : Type} `{Arith F} {W : Type} (world : World F W)
    (questions : list string) (delay : F) (batch_size : Z)
    (d : Demonstrator F) (w : W) :
  (0 < batch_size)%Z ->
  exists out entries d' w',
    run_queries_batch world questions delay batch_size (d, w) = (Ok out, (d', w')) /\
    map (fun r => fr_question_number r) out = map Z.of_nat (seq 1 (length questions)) /\
    StronglySorted Z.lt (map (fun r => fr_question_number r) out) /\
    map (fun r => fr_question r) out = questions /\
    results d' = results d ++ entries /\
    map (fun r => question_number r) entries = map Z.of_nat (seq 1 (length questions)) /\
    map (fun r => question r) entries = questions.
Proof.
  intros Hbs.
  destruct (run_queries_batch_spec world questions delay d w Hbs)
    as (out & entries & d' & w' & Hrun & Hout & Hent & Hres & _).
  exists out, entries, d', w'. split; [exact Hrun|].
  apply outlines_project in Hout, Hent. cbn [fst snd] in Hout, Hent.
  destruct Hout as [Hnum Hq]. destruct Hent as [Henum Heq].
  rewrite enumerate_from_1 in Hnum, Henum. rewrite map_snd_enumerate in Hq, Heq.
  rewrite Hnum. repeat split; try assumption. apply seq_increasing.
Qed.

(** C4 at the same run. *)
Lemma run_queries_batch_indices_in_order_witness :
  (0 < 2)%Z /\
  exists out entries d' w',
    run_queries_batch (ticking_world fails_on_y) ["x"; "y"; "z"] 0.5%float 2
      (with_worker (new_demonstrator float), 0) = (Ok out, (d', w')) /\
    map (fun r => fr_question_number r) out = [1; 2; 3]%Z /\
    StronglySorted Z.lt (map (fun r => fr_question_number r) out) /\
    map (fun r => fr_question r) out = ["x"; "y"; "z"] /\
    results d' = [] ++ entries /\
    map (fun r => question_number r) entries = [1; 2; 3]%Z /\
    map (fun r => question r) entries = ["x"; "y"; "z"].
Proof.
  split; [reflexivity|].
  exact (run_queries_batch_indices_in_order (ticking_world fails_on_y)
           ["x"; "y"; "z"] 0.5%float (with_worker (new_demonstrator float)) 0
           (batch_size := 2) eq_refl).
Defined.

(** C5, as stated, fails on the empty prompt sequence: the batch size
    "number of prompts" is then 0, and [range(0, 0, 0)] raises [ValueError],
    while batch size 1 returns the empty list. *)
Lemma empty_run_with_batch_size_len_raises :
  let s := (with_worker (new_demonstrator float), 0) in
  let prompts : list string := [] in
  run_queries_batch (ticking_world echo) prompts 0.5%float 1 s = (Ok [], s) /\
  run_queries_batch (ticking_world echo) prompts 0.5%float (Z.of_nat (length prompts)) s
  = (Raise (mkExc ValueError "range() arg 3 must not be zero"), s).
Proof. split; reflexivity. Qed.

(** X1.  Any two positive batch sizes give the same run, in the same
    world state: the same results with the same latencies, the same final
    demonstrator and the same final state of the world.  The batch size
    shows in the progress log only. *)
Lemma batch_size_is_irrelevant {F : Type} `{Arith F} {W : Type} (world : World F W)
    (questions : list string) (delay : F) (b1 b2 : Z) (s : Demonstrator F * W) :
  (0 < b1)%Z -> (0 < b2)%Z ->
  run_queries_batch world questions delay b1 s
  = run_queries_batch world questions delay b2 s.
Proof. intros H1 H2. now rewrite !run_queries_batch_unbatched. Qed.

(** X1 at three questions and the batch sizes 1 and 3. *)
Lemma batch_size_is_irrelevant_witness :
  (0 < 1)%Z /\ (0 < 3)%Z /\
  run_queries_batch (ticking_world fails_on_y) ["x"; "y"; "z"] 0.5%float 1
    (with_worker (new_demonstrator float), 0)
  = run_queries_batch (ticking_world fails_on_y) ["x"; "y"; "z"] 0.5%float 3
      (with_worker (new_demonstrator float), 0).
Proof.
  assert (H1 : (0 < 1)%Z) by lia.
  assert (H3 : (0 < 3)%Z) by lia.
  split; [exact H1|]. split; [exact H3|].
  exact (@batch_size_is_irrelevant float _ nat (ticking_world fails_on_y)
           ["x"; "y"; "z"] 0.5%float 1 3 (with_worker (new_demonstrator float), 0) H1 H3).
Defined.

(** C5, amended.  For every non-empty prompt sequence and every
    deterministic responder, the run with batch size 1 and the run with
    batch size [len(prompts)], started from the same demonstrator in any two
    states of the world (so the clocks, and with them the latencies, may
    differ), both return one result per prompt, and the two result sequences
    agree in number, question and answer text; the final demonstrators agree
    in what they recorded and in the success and failure tallies. *)
Theorem batch_size_changes_latencies_at_most
    {F : Type} `{Arith F} {W : Type} (world : World F W)
    (respond : string -> Outcome) (questions : list string) (delay : F)
    (d : Demonstrator F) (w1 w2 : W) :
  deterministic world respond ->
  questions <> [] ->
  exists out1 out2 d1 d2 w1' w2',
    run_queries_batch world questions delay 1 (d, w1) = (Ok out1, (d1, w1')) /\
    run_queries_batch world questions delay (Z.of_nat (length questions)) (d, w2)
      = (Ok out2, (d2, w2')) /\
    length out1 = length questions /\
    length out2 = length questions /\
    map outline out1 = map outline out2 /\
    agree_up_to_latency d1 d2.
Proof.
  intros Hdet Hne.
  assert (Hn : (0 < Z.of_nat (length questions))%Z).
  { destruct questions; [contradiction | simpl; lia]. }
  rewrite !run_queries_batch_unbatched by lia.
  assert (Hd : agree_up_to_latency d d) by (repeat split).
  destruct (@inner_loop_deterministic F _ W world respond (Z.of_nat (length questions))
              delay Hdet (enumerate questions 1) [] [] d d w1 w2 eq_refl Hd)
    as (out1 & out2 & d1 & d2 & w1' & w2' & Hr1 & Hr2 & Hout & Hagree).
  exists out1, out2, d1, d2, w1', w2'.
  destruct (inner_loop_spec world (Z.of_nat (length questions)) delay
              (enumerate questions 1) [] d w1) as (n1 & e1 & x1 & y1 & Hs1 & Hn1 & _).
  destruct (inner_loop_spec world (Z.of_nat (length questions)) delay
              (enumerate questions 1) [] d w2) as (n2 & e2 & x2 & y2 & Hs2 & Hn2 & _).
  rewrite Hr1 in Hs1. rewrite Hr2 in Hs2. inversion Hs1; inversion Hs2; subst.
  apply (f_equal (@length _)) in Hn1, Hn2.
  rewrite length_map, enumerate_length in Hn1, Hn2.
  repeat split; try assumption; apply Hagree.
Qed.

(** C5 at three prompts, the two runs started at different clock
    readings. *)
Lemma batch_size_changes_latencies_at_most_witness :
  deterministic (ticking_world (F := float) fails_on_y) fails_on_y /\
  ["x"; "y"; "z"] <> [] /\
  exists out1 out2 d1 d2 w1' w2',
    run_queries_batch (ticking_world fails_on_y) ["x"; "y"; "z"] 0.5%float 1
      (with_worker (new_demonstrator float), 0) = (Ok out1, (d1, w1')) /\
    run_queries_batch (ticking_world fails_on_y) ["x"; "y"; "z"] 0.5%float 3
      (with_worker (new_demonstrator float), 40) = (Ok out2, (d2, w2')) /\
    length out1 = 3 /\
    length out2 = 3 /\
    map outline out1 = map outline out2 /\
    agree_up_to_latency d1 d2.
Proof.
  assert (Hdet : deterministic (ticking_world (F := float) fails_on_y) fails_on_y)
    by (intros q sp w; reflexivity).
  assert (Hne : ["x"; "y"; "z"] <> []) by discriminate.
  split; [exact Hdet|]. split; [exact Hne|].
  exact (batch_size_changes_latencies_at_most 0.5%float
           (with_worker (new_demonstrator float)) 0 40 Hdet Hne).
Defined.

(* ================================================================= *)
(** ** The Cloudflare worker *)

(** C8.  For every model name, input and outcome of the HTTP call,
    [_send_request], and with it [query], returns to its caller and raises
    nothing: whenever the body of its [try] raises (the transport fails, the
    body is not JSON, the response has an unexpected shape), the result is
    [None]. *)
Theorem send_request_never_raises (numpy_rejects : Json -> bool)
    (self : CloudflareWorker.t) (model_name : string) (input_ : Json)
    (debug_log prompt system : string) (net : CloudflareWorker.HttpOutcome) :
  (exists v,
     CloudflareWorker._send_request numpy_rejects self model_name input_ debug_log net
     = Ok v /\
     (is_ok (CloudflareWorker._send_request_try numpy_rejects net) = false ->
      v = PyNone)) /\
  (exists v, CloudflareWorker.query numpy_rejects self prompt system net = Ok v).
Proof.
  assert (G : exists v,
             try_except (CloudflareWorker._send_request_try numpy_rejects net)
               (fun _ => Ok PyNone) = Ok v /\
             (is_ok (CloudflareWorker._send_request_try numpy_rejects net) = false ->
              v = PyNone)).
  { destruct (CloudflareWorker._send_request_try numpy_rejects net) as [v|e] eqn:Htry.
    - exists v. split; [reflexivity | discriminate].
    - exists PyNone. unfold try_except.
      rewrite (send_request_try_raises_Exception _ _ Htry). split; reflexivity. }
  split.
  - exact G.
  - destruct G as (v & Hv & _). exists v. exact Hv.
Qed.

(* ================================================================= *)
(** ** The latency analysis *)

Section AnalysisClaims.
Local Open Scope R_scope.

(** C6.  For every list of recorded latencies whose filtered list [times]
    (the latencies above 0) is not empty, of length [n]: the analysis
    returns, and its median is the element at index [n // 2] of the
    ascending rearrangement of [times] (for even [n] the upper of the two
    middle elements, no average), its p95 the element at index
    [floor(0.95 n)] and its p99 the element at index [floor(0.99 n)], each
    an element of the list, not an interpolation. *)
Theorem median_and_percentiles_by_sorted_index (response_times : list R) :
  let times := filter is_positive response_times in
  times <> [] ->
  exists d median p95 p99,
    analyze_latency_patterns response_times = Ok d /\
    Permutation (sorted times) times /\
    StronglySorted Rle (sorted times) /\
    dict_lookup d "median_latency" = Some median /\
    nth_error (sorted times) (length times / 2) = Some median /\
    dict_lookup d "p95_latency" = Some p95 /\
    nth_error (sorted times) (length times * 95 / 100) = Some p95 /\
    dict_lookup d "p99_latency" = Some p99 /\
    nth_error (sorted times) (length times * 99 / 100) = Some p99.
Proof.
  intros times Hne. subst times.
  destruct (filter is_positive response_times) as [|t ts] eqn:Hf; [contradiction|].
  destruct (analyze_exact _ Hf) as (med & p95 & p99 & Hmed & Hp95 & Hp99 & Ha).
  eexists; exists med, p95, p99. split; [exact Ha|].
  split; [apply sorted_perm|]. split; [apply sorted_ascending|].
  repeat split; assumption || reflexivity.
Qed.

(** C6 at six recorded latencies, four of them positive. *)
Lemma median_and_percentiles_by_sorted_index_witness :
  filter is_positive [3; -1; 1; 0; 2; 4] <> [] /\
  exists d median p95 p99,
    analyze_latency_patterns [3; -1; 1; 0; 2; 4] = Ok d /\
    Permutation (sorted (filter is_positive [3; -1; 1; 0; 2; 4]))
      (filter is_positive [3; -1; 1; 0; 2; 4]) /\
    StronglySorted Rle (sorted (filter is_positive [3; -1; 1; 0; 2; 4])) /\
    dict_lookup d "median_latency" = Some median /\
    nth_error (sorted (filter is_positive [3; -1; 1; 0; 2; 4]))
      (length (filter is_positive [3; -1; 1; 0; 2; 4]) / 2) = Some median /\
    dict_lookup d "p95_latency" = Some p95 /\
    nth_error (sorted (filter is_positive [3; -1; 1; 0; 2; 4]))
      (length (filter is_positive [3; -1; 1; 0; 2; 4]) * 95 / 100) = Some p95 /\
    dict_lookup d "p99_latency" = Some p99 /\
    nth_error (sorted (filter is_positive [3; -1; 1; 0; 2; 4]))
      (length (filter is_positive [3; -1; 1; 0; 2; 4]) * 99 / 100) = Some p99.
Proof.
  assert (Hne : filter is_positive [3; -1; 1; 0; 2; 4] <> []).
  { cbn [filter]. rewrite (proj2 (is_positive_true 3)) by lra. discriminate. }
  split; [exact Hne|].
  exact (median_and_percentiles_by_sorted_index [3; -1; 1; 0; 2; 4] Hne).
Defined.

(** C7 over the real numbers: for every [n >= 1], if all [n] recorded
    latencies equal one positive value [L], the analysis returns min = max
    = median = p95 = p99 = [L], a standard deviation of 0 (the population
    one: the squared deviations are divided by [n], see [analyze_exact])
    and a consistency score of 1. *)
Lemma constant_latency_exact (n : nat) (L : R) :
  (1 <= n)%nat -> 0 < L ->
  analyze_latency_patterns (repeat L n) =
    Ok [ ("min_latency", L); ("max_latency", L); ("median_latency", L);
         ("p95_latency", L); ("p99_latency", L);
         ("std_deviation", 0); ("consistency_score", 1) ].
Proof.
  intros Hn HL. destruct n as [|m]; [lia|].
  assert (Hf : filter is_positive (repeat L (S m)) = L :: repeat L m).
  { apply (filter_repeat_true is_positive). now apply is_positive_true. }
  destruct (analyze_exact _ Hf) as (med & p95 & p99 & Hmed & Hp95 & Hp99 & Ha).
  change (L :: repeat L m) with (repeat L (S m)) in *.
  rewrite sorted_repeat in Hmed, Hp95, Hp99.
  apply nth_error_repeat_inv in Hmed, Hp95, Hp99. subst med p95 p99.
  rewrite Ha.
  change (repeat L (S m)) with (L :: repeat L m).
  rewrite min_from_repeat, max_from_repeat.
  change (L :: repeat L m) with (repeat L (S m)).
  rewrite squared_deviations_repeat by lia.
  replace (0 / INR (length (repeat L (S m)))) with 0
    by (unfold Rdiv; now rewrite Rmult_0_l).
  rewrite sqrt_0.
  replace (1 - (L - L) / py_sum (repeat L (S m)) * INR (length (repeat L (S m)))) with 1;
    [reflexivity|].
  unfold Rdiv. rewrite Rminus_diag. ring.
Qed.

(** C9.  For every non-empty list of strictly positive latencies the
    analysis returns, and its consistency score
    [1 - (max - min) / sum * n] is at most 1. *)
Theorem consistency_score_at_most_1 (times : list R) :
  times <> [] -> Forall (fun t => 0 < t) times ->
  exists d c,
    analyze_latency_patterns times = Ok d /\
    dict_lookup d "consistency_score" = Some c /\
    c <= 1.
Proof.
  intros Hne Hpos. destruct times as [|t ts]; [contradiction|].
  pose proof (filter_positive_id Hpos) as Hf.
  destruct (analyze_exact _ Hf) as (med & p95 & p99 & _ & _ & _ & Ha).
  eexists. eexists. split; [exact Ha|]. split; [reflexivity|].
  pose proof (py_sum_pos Hpos) as Hsum.
  pose proof (proj1 (min_from_le ts t)) as Hmin.
  pose proof (proj1 (max_from_ge ts t)) as Hmax.
  assert (Hlen : 0 <= INR (length (t :: ts))) by apply pos_INR.
  assert (Hq : 0 <= (max_from t ts - min_from t ts) / py_sum (t :: ts)).
  { apply Rmult_le_pos; [lra|]. left. now apply Rinv_0_lt_compat. }
  pose proof (Rmult_le_pos _ _ Hq Hlen). lra.
Qed.

(** C9 at the latencies 1 ms and 100 ms. *)
Lemma consistency_score_at_most_1_witness :
  [1; 100] <> [] /\ Forall (fun t => 0 < t) [1; 100] /\
  exists d c,
    analyze_latency_patterns [1; 100] = Ok d /\
    dict_lookup d "consistency_score" = Some c /\
    c <= 1.
Proof.
  assert (Hne : [1; 100] <> []) by discriminate.
  assert (Hpos : Forall (fun t => 0 < t) [1; 100]) by (repeat constructor; lra).
  split; [exact Hne|]. split; [exact Hpos|].
  exact (consistency_score_at_most_1 Hne Hpos).
Defined.

(** C10 over the real numbers: [analyze_latency_patterns] returns on
    every list of recorded latencies.  With [times] the latencies above 0
    and [n] their number: the result is the empty dict exactly when
    [times] is empty, that is when no latency is positive; otherwise the
    three indices [n // 2], [floor(0.95 n)] and [floor(0.99 n)] are inside
    [sorted(times)], every element of [times] is positive, and neither
    divisor, [n] or [sum(times)], is zero. *)
Lemma analyze_latency_patterns_total (response_times : list R) :
  let times := filter is_positive response_times in
  let n := length times in
  (exists d, analyze_latency_patterns response_times = Ok d /\ (d = [] <-> times = [])) /\
  (times = [] <-> Forall (fun t => t <= 0) response_times) /\
  (times <> [] ->
     Forall (fun t => 0 < t) times /\
     (n / 2 < length (sorted times))%nat /\
     (n * 95 / 100 < length (sorted times))%nat /\
     (n * 99 / 100 < length (sorted times))%nat /\
     @of_nat R _ n <> 0 /\
     py_sum times <> 0 /\
     is_ok (py_truediv (py_sum times) (of_nat n)) = true /\
     (forall a, is_ok (py_truediv a (of_nat n)) = true) /\
     (forall a, is_ok (py_truediv a (py_sum times)) = true)).
Proof.
  intros times n. subst n times. split; [|split].
  - destruct (filter is_positive response_times) as [|t ts] eqn:Hf.
    + exists []. split; [|tauto]. unfold analyze_latency_patterns.
      destruct response_times as [|r rs]; [reflexivity|].
      change (filter (fun t : R => fltb (of_nat 0) t) (r :: rs)) with (filter is_positive (r :: rs)).
      now rewrite Hf.
    + destruct (analyze_exact _ Hf) as (med & p95 & p99 & _ & _ & _ & Ha).
      eexists. split; [exact Ha|]. split; discriminate.
  - apply filter_positive_nil.
  - intros Hne. pose proof (filter_positive response_times) as Hpos.
    destruct (filter is_positive response_times) as [|t ts]; [contradiction|].
    pose proof (py_sum_pos Hpos) as Hsum.
    assert (Hn : (0 < length (t :: ts))%nat) by (simpl; lia).
    assert (HN : INR (length (t :: ts)) <> 0) by apply INR_length_nonzero.
    rewrite sorted_length.
    split; [exact Hpos|].
    split; [now apply median_index_lt|].
    split; [now apply p95_index_lt|].
    split; [now apply p99_index_lt|].
    split; [exact HN|].
    split; [lra|].
    split; [now rewrite py_truediv_R_ok|].
    split; intros a; rewrite py_truediv_R_ok; try reflexivity; [exact HN | lra].
Qed.

End AnalysisClaims.

(* ================================================================= *)
(** ** The latency analysis as the interpreter runs it *)

Section ConstantShape.
Context {F : Type} `{Arith F}.

(** The analysis of [n >= 1] equal positive times, with [min], [max] and
    the subscripts resolved. *)
Lemma analyze_constant (L : F) (n : nat) :
  (1 <= n)%nat -> fltb (of_nat 0) L = true ->
  analyze_latency_patterns (repeat L n) =
    (ssd <- sum_squared_deviations (repeat L n) ;;
     variance <- py_truediv ssd (of_nat n) ;;
     std_deviation <- py_pow_half variance ;;
     spread <- py_truediv (fsub L L) (py_sum (repeat L n)) ;;
     Ok [ ("min_latency", L); ("max_latency", L); ("median_latency", L);
          ("p95_latency", L); ("p99_latency", L);
          ("std_deviation", std_deviation);
          ("consistency_score", fsub (of_nat 1) (fmul spread (of_nat n))) ])%result.
Proof.
  intros Hn HL. destruct n as [|m]; [lia|].
  assert (Hf : filter (fun t => fltb (of_nat 0) t) (repeat L (S m)) = L :: repeat L m).
  { now apply (filter_repeat_true (fun t : F => fltb (of_nat 0) t)). }
  destruct (analyze_with_positive_time _ Hf) as (med & p95 & p99 & Hmed & Hp95 & Hp99 & Ha).
  change (L :: repeat L m) with (repeat L (S m)) in *.
  rewrite sorted_repeat in Hmed, Hp95, Hp99.
  apply nth_error_repeat_inv in Hmed, Hp95, Hp99. subst med p95 p99.
  rewrite Ha. rewrite min_from_repeat, max_from_repeat, repeat_length. reflexivity.
Qed.

Lemma constant_order_statistics (L : F) (n : nat) (d : Dict F) :
  (1 <= n)%nat -> fltb (of_nat 0) L = true ->
  analyze_latency_patterns (repeat L n) = Ok d ->
  dict_lookup d "min_latency" = Some L /\
  dict_lookup d "max_latency" = Some L /\
  dict_lookup d "median_latency" = Some L /\
  dict_lookup d "p95_latency" = Some L /\
  dict_lookup d "p99_latency" = Some L.
Proof.
  intros Hn HL. rewrite analyze_constant by assumption.
  destruct (sum_squared_deviations _); [|discriminate]. cbn [Py.bind].
  destruct (py_truediv _ _); [|discriminate]. cbn [Py.bind].
  destruct (py_pow_half _); [|discriminate]. cbn [Py.bind].
  destruct (py_truediv _ _); [|discriminate]. cbn [Py.bind].
  intros [= <-]. repeat split; reflexivity.
Qed.

End ConstantShape.

Section Binary64Constant.
Variable libm : Libm.

Local Abbreviation arith := (Arith_binary64 libm).
Local Abbreviation analyze := (@analyze_latency_patterns float arith).
Local Abbreviation sum := (@py_sum float arith).
Local Abbreviation truediv := (@py_truediv float arith).
Local Abbreviation float_of := (@of_nat float arith).

(** Every deviation from a mean that is the common value is [+0.0], its
    square is the [0.0] that [float_pow] returns for a base of zero
    without calling [pow], and the squares add up to [0.0]. *)
Lemma squared_deviations_of_the_mean (L : float) (s : bool) (m : positive) (e : Z) (k : nat) :
  Prim2SF L = S754_finite s m e ->
  fold_left
    (fun acc t =>
       (a <- acc ;;
        square <- @py_pow2 float arith (t - L)%float ;;
        Ok (a + square)%float)%result) (repeat L k) (Ok 0%float)
  = Ok 0%float.
Proof.
  intros HL. induction k as [|k IH]; [reflexivity|].
  cbn [repeat fold_left Py.bind]. rewrite (@sub_finite_self L s m e HL).
  exact IH.
Qed.

Lemma constant_mean_gives_zero_deviation (L : float) (n : nat) :
  (1 <= n)%nat -> (Z.of_nat n < 2 ^ 63)%Z ->
  PrimFloat.ltb 0 L = true -> PrimFloat.ltb L infinity = true ->
  PrimFloat.eqb (sum (repeat L n) / float_of n) L = true ->
  exists score,
    analyze (repeat L n) =
      Ok [ ("min_latency", L); ("max_latency", L); ("median_latency", L);
           ("p95_latency", L); ("p99_latency", L);
           ("std_deviation", 0%float); ("consistency_score", score) ].
Proof.
  intros Hn Hlt HL Hfin Hmean.
  destruct (finite_positive HL Hfin) as (m & e & HSF).
  apply (@eqb_finite_eq _ L m e HSF) in Hmean.
  assert (Hnf : sf_positive (Prim2SF (float_of n)) = true) by now apply of_nat_positive.
  assert (Hs : sf_positive (Prim2SF (sum (repeat L n))) = true).
  { apply sum_positive.
    - apply Forall_forall. intros t Ht. apply repeat_spec in Ht. now subst.
    - destruct n; [lia|discriminate]. }
  rewrite (@analyze_constant float arith L n Hn HL).
  unfold sum_squared_deviations. rewrite repeat_length.
  rewrite (@truediv_by_positive libm _ _ Hnf). cbn [Py.bind].
  rewrite Hmean.
  cbn [fsub fadd Arith_binary64].
  change (@of_nat float arith 0) with 0%float.
  rewrite (@squared_deviations_of_the_mean L false m e n HSF). cbn [Py.bind].
  rewrite (@truediv_by_positive libm _ _ Hnf). cbn [Py.bind].
  rewrite (@zero_div_positive _ Hnf).
  change (@py_pow_half float arith 0%float) with (@Ok float 0%float). cbn [Py.bind].
  rewrite (@truediv_by_positive libm _ _ Hs). cbn [Py.bind].
  eexists. reflexivity.
Qed.

End Binary64Constant.

Section ConstantClaim.
Local Open Scope R_scope.

(** C7, amended.  Let all [n >= 1] recorded latencies equal one positive
    value [L].

    With the latencies and the arithmetic taken as exact real numbers the
    analysis returns min = max = median = p95 = p99 = [L], a standard
    deviation of 0 (the population one: the squared deviations are divided
    by [n]) and a consistency score of 1.

    On binary64, over any C library, for finite [L] and [n < 2 ** 63] (a
    list is never longer): whenever the analysis returns, min = max =
    median = p95 = p99 = [L]; all it can raise is the [OverflowError] of a
    power; and if [sum(times) / len(times)] evaluates to [L] itself, it
    returns and its standard deviation is [0.0].  That quotient is not
    always [L], as three latencies of 0.1 ms show below. *)
Theorem constant_latency (n : nat) :
  (1 <= n)%nat ->
  (forall L : R,
     0 < L ->
     analyze_latency_patterns (repeat L n) =
       Ok [ ("min_latency", L); ("max_latency", L); ("median_latency", L);
            ("p95_latency", L); ("p99_latency", L);
            ("std_deviation", 0); ("consistency_score", 1) ]) /\
  (forall (libm : Libm) (L : float),
     (Z.of_nat n < 2 ^ 63)%Z ->
     PrimFloat.ltb 0 L = true -> PrimFloat.ltb L infinity = true ->
     let analysis := @analyze_latency_patterns float (Arith_binary64 libm) (repeat L n) in
     let mean :=
       (@py_sum float (Arith_binary64 libm) (repeat L n)
        / @of_nat float (Arith_binary64 libm) n)%float in
     (forall d, analysis = Ok d ->
        dict_lookup d "min_latency" = Some L /\
        dict_lookup d "max_latency" = Some L /\
        dict_lookup d "median_latency" = Some L /\
        dict_lookup d "p95_latency" = Some L /\
        dict_lookup d "p99_latency" = Some L) /\
     (forall e, analysis = Raise e -> e = range_error) /\
     (PrimFloat.eqb mean L = true ->
      exists d, analysis = Ok d /\ dict_lookup d "std_deviation" = Some 0%float)).
Proof.
  intros Hn. split.
  - intros L HL. now apply constant_latency_exact.
  - intros libm L Hlt HL Hfin analysis mean. subst analysis mean.
    split; [|split].
    + intros d. now apply (@constant_order_statistics float (Arith_binary64 libm)).
    + intros e. apply analyze_binary64_raises. now rewrite repeat_length.
    + intros Hmean.
      destruct (@constant_mean_gives_zero_deviation libm L n Hn Hlt HL Hfin Hmean)
        as (score & Ha).
      eexists. split; [exact Ha|reflexivity].
Qed.

(** C7 at three latencies of 250 ms: as real numbers, and on binary64,
    where their sum divided by 3 is 250.0. *)
Lemma constant_latency_witness :
  (1 <= 3)%nat /\
  analyze_latency_patterns (repeat 250 3) =
    Ok [ ("min_latency", 250); ("max_latency", 250); ("median_latency", 250);
         ("p95_latency", 250); ("p99_latency", 250);
         ("std_deviation", 0); ("consistency_score", 1) ] /\
  exists d,
    @analyze_latency_patterns float (Arith_binary64 correctly_rounded) (repeat 250%float 3)
    = Ok d /\
    dict_lookup d "std_deviation" = Some 0%float.
Proof.
  assert (Hn : (1 <= 3)%nat) by lia.
  split; [exact Hn|].
  destruct (constant_latency Hn) as [Hexact Hbinary64].
  split.
  - apply Hexact. lra.
  - destruct (Hbinary64 correctly_rounded 250%float eq_refl eq_refl eq_refl)
      as (_ & _ & Hstd).
    apply Hstd. vm_compute. reflexivity.
Defined.

End ConstantClaim.

Section Binary64Claims.
Variable libm : Libm.

Local Abbreviation arith := (Arith_binary64 libm).
Local Abbreviation analyze := (@analyze_latency_patterns float arith).
Local Abbreviation sum := (@py_sum float arith).
Local Abbreviation truediv := (@py_truediv float arith).
Local Abbreviation float_of := (@of_nat float arith).

(** C10, amended.  On binary64, over any C library, and for every list
    of fewer than [2 ** 63] recorded latencies (a list is never longer):
    all that [analyze_latency_patterns] can raise is the [OverflowError]
    of a power.  With [times] the latencies above 0 and [n] their number:
    [times] is empty exactly when no latency is above 0, and the result is
    then the empty dict; otherwise every element of [times] is positive,
    the three indices [n // 2], [floor(0.95 n)] and [floor(0.99 n)] are
    inside [sorted(times)], neither divisor, [n] or [sum(times)], is zero,
    so that no division raises, and a result that is returned is not the
    empty dict.  The power does overflow, as the latencies 1e200 and 3e200
    show below. *)
Theorem analyze_latency_patterns_raises_overflow_only (response_times : list float) :
  let times := filter (fun t => PrimFloat.ltb 0 t) response_times in
  let n := length times in
  (Z.of_nat (length response_times) < 2 ^ 63)%Z ->
  (forall e, analyze response_times = Raise e -> e = range_error) /\
  (times = [] <-> Forall (fun t => PrimFloat.ltb 0 t = false) response_times) /\
  (times = [] -> analyze response_times = Ok []) /\
  (times <> [] ->
     Forall (fun t => PrimFloat.ltb 0 t = true) times /\
     (n / 2 < length (@sorted float arith times))%nat /\
     (n * 95 / 100 < length (@sorted float arith times))%nat /\
     (n * 99 / 100 < length (@sorted float arith times))%nat /\
     PrimFloat.eqb (float_of n) 0 = false /\
     PrimFloat.eqb (sum times) 0 = false /\
     (forall a, truediv a (float_of n) = Ok (a / float_of n)%float) /\
     (forall a, truediv a (sum times) = Ok (a / sum times)%float) /\
     (forall d, analyze response_times = Ok d -> d <> [])).
Proof.
  intros times n Hlen. subst n times.
  split; [intros e; now apply analyze_binary64_raises|].
  split; [apply filter_nil_binary64|].
  split; [apply (@analyze_without_positive_time float arith)|].
  intros Hne.
  pose proof (filter_positive_binary64 response_times) as Hpos.
  pose proof (filter_length_le (fun t => PrimFloat.ltb 0 t) response_times) as Hle.
  destruct (filter (fun t => PrimFloat.ltb 0 t) response_times) as [|t ts] eqn:Hf;
    [contradiction|].
  assert (H0 : (0 < length (t :: ts))%nat) by (simpl; lia).
  assert (Hn : sf_positive (Prim2SF (float_of (length (t :: ts)))) = true).
  { apply of_nat_positive; lia. }
  assert (Hs : sf_positive (Prim2SF (sum (t :: ts))) = true).
  { now apply sum_positive. }
  rewrite (@sorted_length float arith).
  split; [exact Hpos|].
  split; [now apply median_index_lt|].
  split; [now apply p95_index_lt|].
  split; [now apply p99_index_lt|].
  split; [now apply positive_is_not_zero|].
  split; [now apply positive_is_not_zero|].
  split; [intros a; now apply truediv_by_positive|].
  split; [intros a; now apply truediv_by_positive|].
  intros d Hd.
  destruct (@analyze_with_positive_time float arith response_times t ts Hf)
    as (med & p95 & p99 & _ & _ & _ & Ha).
  rewrite Ha in Hd.
  destruct (@sum_squared_deviations float arith (t :: ts)); [|discriminate].
  cbn [Py.bind] in Hd. destruct (truediv _ _); [|discriminate].
  cbn [Py.bind] in Hd. destruct (py_pow_half _); [|discriminate].
  cbn [Py.bind] in Hd. destruct (truediv _ _); [|discriminate].
  cbn [Py.bind] in Hd. injection Hd as <-. discriminate.
Qed.

End Binary64Claims.

(** C10 at the recorded latencies 120.5, 0.0, -1.0 and 80.25: the
    analysis returns, and what it could raise is the [OverflowError]
    only.  Both powers are exact here. *)
Lemma analyze_latency_patterns_raises_overflow_only_witness :
  (Z.of_nat (length [0x1.e2p+6; 0; -1; 0x1.41p+6]%float) < 2 ^ 63)%Z /\
  @analyze_latency_patterns float (Arith_binary64 correctly_rounded)
    [0x1.e2p+6; 0; -1; 0x1.41p+6]%float
  = Ok [ ("min_latency", 0x1.41p+6%float); ("max_latency", 0x1.e2p+6%float);
         ("median_latency", 0x1.e2p+6%float); ("p95_latency", 0x1.e2p+6%float);
         ("p99_latency", 0x1.e2p+6%float); ("std_deviation", 0x1.42p+4%float);
         ("consistency_score", 0x1.32b09e20849f6p-1%float) ] /\
  forall e, @analyze_latency_patterns float (Arith_binary64 correctly_rounded)
              [0x1.e2p+6; 0; -1; 0x1.41p+6]%float = Raise e -> e = range_error.
Proof.
  assert (Hlen : (Z.of_nat (length [0x1.e2p+6; 0; -1; 0x1.41p+6]%float) < 2 ^ 63)%Z)
    by reflexivity.
  split; [exact Hlen|]. split; [vm_compute; reflexivity|].
  exact (proj1 (@analyze_latency_patterns_raises_overflow_only correctly_rounded
                  [0x1.e2p+6; 0; -1; 0x1.41p+6]%float Hlen)).
Defined.

(** C10, as stated, fails in the arithmetic the interpreter runs: of the
    two latencies 1e200 and 3e200 (the binary64 values nearest to them)
    the mean is 2e200, the deviation of the first is -1e200, and its
    square is beyond the largest binary64 number: [pow] returns infinity,
    [float_pow] raises [OverflowError] and the analysis with it. *)
Lemma squared_deviation_overflows :
  analyze_latency_patterns [0x1.4e718d7d7625ap+664; 0x1.f5aa543c31387p+665]%float
  = Raise range_error.
Proof. vm_compute. reflexivity. Qed.

(** C6, on binary64 and over any C library: whenever the analysis of the
    four latencies 4, 1, 3, 2 returns, their median is the upper middle
    one, 3.0, not the average 2.5, and p95 and p99 are the largest. *)
Lemma upper_median_binary64 (libm : Libm) (d : Dict float) :
  @analyze_latency_patterns float (Arith_binary64 libm) [4; 1; 3; 2]%float = Ok d ->
  dict_lookup d "min_latency" = Some 1%float /\
  dict_lookup d "max_latency" = Some 4%float /\
  dict_lookup d "median_latency" = Some 3%float /\
  dict_lookup d "p95_latency" = Some 4%float /\
  dict_lookup d "p99_latency" = Some 4%float.
Proof.
  destruct (@analyze_with_positive_time float (Arith_binary64 libm)
              [4; 1; 3; 2]%float 4%float [1; 3; 2]%float eq_refl)
    as (med & p95 & p99 & Hmed & Hp95 & Hp99 & Ha).
  vm_compute in Hmed, Hp95, Hp99.
  assert (Hstats : med = 3%float /\ p95 = 4%float /\ p99 = 4%float)
    by (repeat split; congruence).
  destruct Hstats as (-> & -> & ->).
  rewrite Ha. intros Hd.
  apply bind_Ok_inv in Hd as (ssd & _ & Hd).
  apply bind_Ok_inv in Hd as (variance & _ & Hd).
  apply bind_Ok_inv in Hd as (std_deviation & _ & Hd).
  apply bind_Ok_inv in Hd as (spread & _ & Hd).
  injection Hd as <-. repeat split; reflexivity.
Qed.

(** With a [pow] that is correctly rounded the analysis of these four
    does return. *)
Lemma upper_median_binary64_returns :
  is_ok (analyze_latency_patterns [4; 1; 3; 2]%float) = true.
Proof. vm_compute. reflexivity. Qed.

(** C7, as stated, fails in the arithmetic the interpreter runs: three
    latencies of 0.1 ms (the binary64 value nearest to 0.1) have the five
    order statistics equal to that value, but their sum divided by 3 is one
    unit in the last place above it, and the standard deviation comes out
    as 1.3877787807814457e-17, not 0.  Both powers are exact here: each
    deviation is [-2^-56], its square [2^-112], and the square root of the
    variance [2^-56]. *)
Lemma constant_latency_binary64_deviation :
  let L := 0x1.999999999999ap-4%float in
  PrimFloat.ltb 0 L = true /\
  analyze_latency_patterns (repeat L 3)
  = Ok [ ("min_latency", L); ("max_latency", L); ("median_latency", L);
         ("p95_latency", L); ("p99_latency", L);
         ("std_deviation", 0x1p-56%float); ("consistency_score", 1%float) ] /\
  PrimFloat.eqb 0x1p-56 0 = false.
Proof. vm_compute. repeat split; reflexivity. Qed.

(** C9, the other half: the score is negative for latencies as far apart
    as 1 ms and 100 ms. *)
Lemma consistency_score_can_be_negative :
  analyze_latency_patterns [1; 100]%float
  = Ok [ ("min_latency", 1%float); ("max_latency", 100%float);
         ("median_latency", 100%float); ("p95_latency", 100%float);
         ("p99_latency", 100%float);
         ("std_deviation", 49.5%float);
         ("consistency_score", (-0x1.ebb9079a9d26p-1)%float) ] /\
  PrimFloat.ltb (-0x1.ebb9079a9d26p-1) 0 = true.
Proof. vm_compute. split; reflexivity. Qed.

(* ################################################################# *)
(** * Further properties of the two scripts *)

(* ================================================================= *)
(** ** A run, observation by observation *)

Section ObservedRuns.
Context {F : Type} `{Arith F} {W : Type}.
Variable world : World F W.

(** One query, with the state in which it leaves the world. *)
Lemma query_krishna_topic_observed (question : string) (i : Z)
    (d : Demonstrator F) (w : W) :
  let worker := cloudflare_worker d in
  let o := outcome_at world question w in
  let rt := latency_at world worker question w in
  query_krishna_topic world question i (d, w)
  = (Ok (answer_of worker o, if keeps_latency worker o then rt else of_nat 0),
     ({| results := results d;
         response_times := response_times d ++ [rt];
         cloudflare_worker := worker;
         connectivity_issues := connectivity_issues d + issues_of worker o;
         successful_queries := successful_queries d + successes_of worker o;
         total_tokens_estimated := total_tokens_estimated d + tokens_of question worker o |},
      world_after_query world worker question w)).
Proof.
  intros worker o rt. subst worker o rt.
  unfold outcome_at, latency_at, world_after_query, query_krishna_topic, try_exceptP,
    bindP, read_perf_counter, gets, await_worker_query, update, modify, ret, lift.
  cbn [fst snd].
  destruct (perf_counter world w) as [t0 w1] eqn:E0. cbn [fst snd].
  destruct (cloudflare_worker d) eqn:Ew; cbn [fst snd].
  - destruct (worker_query world question system_prompt w1) as [[v|c msg] w2] eqn:Eq;
      cbn [fst snd exc_class derives_from_Exception].
    + destruct (perf_counter world w2) as [t1 w3] eqn:E1. cbn [fst snd].
      unfold answer_of, issues_of, successes_of, tokens_of, keeps_latency.
      destruct (py_split v) as [[a ws]|e] eqn:Es; cbn [fst snd is_ok].
      * unfold add_estimated_tokens, append_response_time, incr_successful_queries.
        fields. rewrite Ew, Nat.add_0_r. reflexivity.
      * assert (He : derives_from_Exception (exc_class e) = true).
        { destruct v as [[]|]; simpl in Es; inversion Es; reflexivity. }
        rewrite He.
        unfold incr_connectivity_issues, append_response_time, incr_successful_queries.
        fields. rewrite Ew, Nat.add_0_r. reflexivity.
    + destruct (perf_counter world w2) as [t1 w3] eqn:E1. cbn [fst snd].
      unfold answer_of, issues_of, successes_of, tokens_of, keeps_latency.
      unfold py_split. cbn [fst snd].
      unfold add_estimated_tokens, append_response_time, incr_connectivity_issues.
      fields. rewrite Ew, Nat.add_0_r. reflexivity.
  - destruct (perf_counter world w1) as [t1 w3] eqn:E1. cbn [fst snd].
    unfold answer_of, issues_of, successes_of, tokens_of, keeps_latency.
    unfold py_split. cbn [fst snd].
    unfold add_estimated_tokens, append_response_time.
    fields. rewrite Ew, !Nat.add_0_r. reflexivity.
Qed.

(** One pass of the loop body of [run_queries_batch]. *)
Lemma process_question_observed (total : Z) (delay : F) (item : Z * string)
    (acc : list (FormattedResult F)) (d : Demonstrator F) (w : W) :
  let worker := cloudflare_worker d in
  let ob := {| ob_number := fst item;
               ob_question := snd item;
               ob_outcome := outcome_at world (snd item) w;
               ob_latency := latency_at world worker (snd item) w |} in
  process_question world total delay item acc (d, w)
  = (Ok (acc ++ [formatted_of worker ob]),
     (record_observations [ob] d, world_after_item world worker total delay item w)).
Proof.
  intros worker ob. destruct item as [i question].
  unfold process_question, bindP. cbn [fst snd].
  rewrite query_krishna_topic_observed.
  unfold update, modify, sleep, ret, world_after_item. cbn [fst snd].
  fold worker.
  unfold record_observations, formatted_of, entry_of, returned_time, format_result, append_result.
  subst ob. unfold list_sum.
  cbn [map fold_right fst snd ob_number ob_question ob_outcome ob_latency]. fields.
  fold worker. rewrite !Nat.add_0_r.
  destruct (fltb (of_nat 0) delay && (i <? total)%Z); reflexivity.
Qed.

Lemma record_observations_app (obs1 obs2 : list (Observation F)) (d : Demonstrator F) :
  record_observations obs2 (record_observations obs1 d) = record_observations (obs1 ++ obs2) d.
Proof.
  unfold record_observations. fields.
  rewrite !map_app, !list_sum_app, !app_assoc, !Nat.add_assoc. reflexivity.
Qed.

Lemma record_observations_worker (obs : list (Observation F)) (d : Demonstrator F) :
  cloudflare_worker (record_observations obs d) = cloudflare_worker d.
Proof. reflexivity. Qed.

(** The inner loop over any items: it returns, with one formatted result
    per observation, and leaves the demonstrator with the observations
    recorded and the world where the last item left it. *)
Lemma inner_loop_observed (total : Z) (delay : F) (items : list (Z * string)) :
  forall (acc : list (FormattedResult F)) (d : Demonstrator F) (w : W),
    let worker := cloudflare_worker d in
    let run := observe world worker total delay items w in
    for_each items acc (process_question world total delay) (d, w)
    = (Ok (acc ++ map (formatted_of worker) (fst run)),
       (record_observations (fst run) d, snd run)).
Proof.
  induction items as [|item items IH]; intros acc d w worker run.
  - subst run. cbn [for_each observe fst snd map]. unfold ret, record_observations, list_sum.
    cbn [map fold_right]. rewrite !app_nil_r, !Nat.add_0_r. destruct d; reflexivity.
  - subst run. cbn [for_each observe fst snd map]. unfold bindP at 1.
    rewrite process_question_observed. fold worker.
    rewrite IH. rewrite record_observations_worker. fold worker.
    rewrite record_observations_app, <- app_assoc. reflexivity.
Qed.

(** A run with a positive batch size, observation by observation. *)
Lemma run_queries_batch_observed (questions : list string) (delay : F)
    (batch_size : Z) (d : Demonstrator F) (w : W) :
  (0 < batch_size)%Z ->
  let worker := cloudflare_worker d in
  let run := observe world worker (Z.of_nat (length questions)) delay
               (enumerate questions 1) w in
  run_queries_batch world questions delay batch_size (d, w)
  = (Ok (map (formatted_of worker) (fst run)),
     (record_observations (fst run) d, snd run)).
Proof.
  intros Hbs worker run. rewrite run_queries_batch_unbatched by exact Hbs.
  apply (inner_loop_observed (Z.of_nat (length questions)) delay (enumerate questions 1) [] d w).
Qed.

Lemma observe_numbers (worker : bool) (total : Z) (delay : F) (items : list (Z * string)) :
  forall w,
    map (fun ob => (ob_number ob, ob_question ob)) (fst (observe world worker total delay items w))
    = items.
Proof.
  induction items as [|[i q] items IH]; intros w; cbn [observe fst snd map];
    [reflexivity|].
  cbn [ob_number ob_question]. now rewrite IH.
Qed.

Lemma observe_length (worker : bool) (total : Z) (delay : F) (items : list (Z * string)) (w : W) :
  length (fst (observe world worker total delay items w)) = length items.
Proof.
  rewrite <- (observe_numbers worker total delay items w) at 2. now rewrite length_map.
Qed.

(** What every observation of a pass satisfies, if every outcome the
    responder can produce does. *)
Lemma observe_outcomes (P : Outcome -> Prop) (worker : bool) (total : Z) (delay : F)
    (items : list (Z * string)) :
  (forall question system w, P (fst (worker_query world question system w))) ->
  forall w, Forall (fun ob => P (ob_outcome ob)) (fst (observe world worker total delay items w)).
Proof.
  intros HP. induction items as [|item items IH]; intros w; cbn [observe fst snd];
    constructor; [apply HP | apply IH].
Qed.

End ObservedRuns.

(* ================================================================= *)
(** ** The batch client *)

(** X2.  A batch size that is not positive asks nothing.  With the batch
    size 0, [range(0, n, 0)] raises [ValueError] before the first
    question; with a negative batch size the range is empty, the loop body
    never runs and the empty list is returned, however many questions
    there are.  Either way the demonstrator and the world are left as they
    were. *)
Theorem nonpositive_batch_size_asks_nothing
    {F : Type} `{Arith F} {W : Type} (world : World F W)
    (questions : list string) (delay : F) (batch_size : Z) (s : Demonstrator F * W) :
  (batch_size <= 0)%Z ->
  run_queries_batch world questions delay batch_size s
  = (if (batch_size =? 0)%Z
     then Raise (mkExc ValueError "range() arg 3 must not be zero")
     else Ok [],
     s).
Proof.
  intros Hle. destruct (Z.eqb_spec batch_size 0) as [->|Hne].
  - apply run_queries_batch_zero.
  - apply run_queries_batch_negative. lia.
Qed.

(** X2 at two questions and the batch size -3. *)
Lemma nonpositive_batch_size_asks_nothing_witness :
  (-3 <= 0)%Z /\
  run_queries_batch (ticking_world echo) ["a"; "b"] 0.5%float (-3)
    (with_worker (new_demonstrator float), 0)
  = (Ok [], (with_worker (new_demonstrator float), 0)).
Proof.
  assert (Hle : (-3 <= 0)%Z) by lia.
  split; [exact Hle|].
  exact (nonpositive_batch_size_asks_nothing (ticking_world echo) ["a"; "b"] 0.5%float
           (with_worker (new_demonstrator float), 0) Hle).
Defined.

Lemma observe_recording_world {F : Type} `{Arith F} (respond : string -> Outcome)
    (worker : bool) (total : Z) (delay : F) (items : list (Z * string)) :
  forall log : list (Event F),
    snd (observe (recording_world respond) worker total delay items log)
    = log ++ flat_map (calls_of worker total delay) items.
Proof.
  induction items as [|item items IH]; intros log; cbn [observe fst snd flat_map].
  - now rewrite app_nil_r.
  - rewrite IH. unfold world_after_item, world_after_query, calls_of.
    cbn [recording_world perf_counter worker_query asyncio_sleep fst snd].
    destruct worker, (fltb (of_nat 0) delay && (fst item <? total)%Z);
      cbn [app]; rewrite <- ?app_assoc; reflexivity.
Qed.

(** X3.  The calls that a run makes to the outside world, in the world
    that records them: for each question in turn, in the order of the
    prompts, the clock is read, the question is put to the responder once
    (with the fixed system prompt, and only if there is a worker), the
    clock is read again, and the run pauses for [delay] if the delay is
    positive and the question is not the last one.  Nothing else is called:
    no question is asked twice or out of order, there is no pause after
    the last question, and the batch size does not show. *)
Theorem run_queries_batch_calls_in_order
    {F : Type} `{Arith F} (respond : string -> Outcome)
    (questions : list string) (delay : F) (batch_size : Z)
    (d : Demonstrator F) (log : list (Event F)) :
  (0 < batch_size)%Z ->
  snd (snd (run_queries_batch (recording_world respond) questions delay batch_size (d, log)))
  = log ++ flat_map (calls_of (cloudflare_worker d) (Z.of_nat (length questions)) delay)
             (enumerate questions 1).
Proof.
  intros Hbs. rewrite run_queries_batch_observed by exact Hbs. cbn [snd].
  apply observe_recording_world.
Qed.

(** X3 at three questions in batches of two. *)
Lemma run_queries_batch_calls_in_order_witness :
  (0 < 2)%Z /\
  snd (snd (run_queries_batch (recording_world fails_on_y) ["x"; "y"; "z"] 0.5%float 2
              (with_worker (new_demonstrator float), [])))
  = [ ClockRead; Asked "x" system_prompt; ClockRead; Slept 0.5%float;
      ClockRead; Asked "y" system_prompt; ClockRead; Slept 0.5%float;
      ClockRead; Asked "z" system_prompt; ClockRead ].
Proof.
  assert (Hbs : (0 < 2)%Z) by lia.
  split; [exact Hbs|].
  exact (run_queries_batch_calls_in_order fails_on_y ["x"; "y"; "z"] 0.5%float
           (with_worker (new_demonstrator float)) [] Hbs).
Defined.

Lemma list_sum_le_length {X} (f : X -> nat) (xs : list X) :
  (forall x, f x <= 1) -> list_sum (map f xs) <= length xs.
Proof.
  intros Hf. induction xs as [|x xs IH]; simpl; [lia|].
  specialize (Hf x). lia.
Qed.

Lemma list_sum_ge_length {X} (f g : X -> nat) (xs : list X) :
  (forall x, 1 <= f x + g x) -> length xs <= list_sum (map f xs) + list_sum (map g xs).
Proof.
  intros Hf. induction xs as [|x xs IH]; simpl; [lia|].
  specialize (Hf x). lia.
Qed.

Lemma list_sum_zero {X} (f : X -> nat) (xs : list X) :
  (forall x, f x = 0) -> list_sum (map f xs) = 0.
Proof.
  intros Hf. induction xs as [|x xs IH]; simpl; [reflexivity|].
  rewrite Hf, IH. reflexivity.
Qed.

Lemma list_sum_ones {X} (f : X -> nat) (xs : list X) :
  Forall (fun x => f x = 1) xs -> list_sum (map f xs) = length xs.
Proof.
  induction 1 as [|x xs Hx _ IH]; simpl; [reflexivity|].
  rewrite Hx, IH. reflexivity.
Qed.

Lemma list_sum_zeros {X} (f : X -> nat) (xs : list X) :
  Forall (fun x => f x = 0) xs -> list_sum (map f xs) = 0.
Proof.
  induction 1 as [|x xs Hx _ IH]; simpl; [reflexivity|].
  rewrite Hx, IH. reflexivity.
Qed.

Lemma successes_of_le_1 (worker : bool) (o : Outcome) : successes_of worker o <= 1.
Proof. destruct worker, o; simpl; lia. Qed.

Lemma issues_of_le_1 (worker : bool) (o : Outcome) : issues_of worker o <= 1.
Proof.
  destruct worker, o as [v|c msg]; simpl; try lia.
  destruct (is_ok (py_split v)); lia.
Qed.

Lemma counted_at_least_once (o : Outcome) : 1 <= successes_of true o + issues_of true o.
Proof. destruct o; simpl; lia. Qed.

(** X4.  The tallies and the two lists of times that a run leaves behind,
    whatever the responder does.  A run over [n] questions returns; it adds
    one entry to [self.results] and one time to [self.response_times] per
    question; the time stored in the entry is the recorded one or 0.0;
    neither [successful_queries] nor [connectivity_issues] grows by more
    than [n]; with a worker every question is counted by at least one of
    the two, and without one neither tally moves. *)
Theorem run_queries_batch_keeps_tallies_in_bounds
    {F : Type} `{Arith F} {W : Type} (world : World F W)
    (questions : list string) (delay : F) (batch_size : Z)
    (d : Demonstrator F) (w : W) :
  (0 < batch_size)%Z ->
  exists out d' w' entries times successes issues,
    run_queries_batch world questions delay batch_size (d, w) = (Ok out, (d', w')) /\
    results d' = results d ++ entries /\
    response_times d' = response_times d ++ times /\
    Forall2 (fun entry t => response_time entry = t \/ response_time entry = of_nat 0)
      entries times /\
    length entries = length questions /\
    successful_queries d' = successful_queries d + successes /\
    connectivity_issues d' = connectivity_issues d + issues /\
    successes <= length questions /\
    issues <= length questions /\
    (cloudflare_worker d = true -> length questions <= successes + issues) /\
    (cloudflare_worker d = false -> successes = 0 /\ issues = 0).
Proof.
  intros Hbs. rewrite run_queries_batch_observed by exact Hbs.
  set (worker := cloudflare_worker d).
  set (obs := fst (observe world worker (Z.of_nat (length questions)) delay
                     (enumerate questions 1) w)).
  assert (Hlen : length obs = length questions).
  { unfold obs. now rewrite observe_length, enumerate_length. }
  do 3 eexists.
  exists (map (entry_of worker) obs), (map (fun ob => ob_latency ob) obs),
    (list_sum (map (fun ob => successes_of worker (ob_outcome ob)) obs)),
    (list_sum (map (fun ob => issues_of worker (ob_outcome ob)) obs)).
  split; [reflexivity|].
  split; [reflexivity|]. split; [reflexivity|].
  split.
  { clear Hlen. induction obs as [|ob obs IH]; cbn [map]; constructor; [|exact IH].
    unfold entry_of, returned_time. cbn [response_time].
    destruct (keeps_latency worker (ob_outcome ob)); [now left | now right]. }
  split; [now rewrite length_map|].
  split; [reflexivity|]. split; [reflexivity|].
  rewrite <- Hlen.
  split; [apply list_sum_le_length; intros ob; apply successes_of_le_1|].
  split; [apply list_sum_le_length; intros ob; apply issues_of_le_1|].
  split.
  - intros Hwk. fold worker in Hwk. rewrite Hwk.
    apply list_sum_ge_length. intros ob. apply counted_at_least_once.
  - intros Hwk. fold worker in Hwk. rewrite Hwk.
    split; apply list_sum_zero; reflexivity.
Qed.

(** X4 at three questions, the second of which the responder refuses. *)
Lemma run_queries_batch_keeps_tallies_in_bounds_witness :
  (0 < 2)%Z /\
  exists out d' w' entries times successes issues,
    run_queries_batch (ticking_world fails_on_y) ["x"; "y"; "z"] 0.5%float 2
      (with_worker (new_demonstrator float), 0) = (Ok out, (d', w')) /\
    results d' = [] ++ entries /\
    response_times d' = [] ++ times /\
    Forall2 (fun entry t => response_time entry = t \/ response_time entry = 0%float)
      entries times /\
    length entries = 3 /\
    successful_queries d' = 0 + successes /\
    connectivity_issues d' = 0 + issues /\
    successes <= 3 /\
    issues <= 3 /\
    (true = true -> 3 <= successes + issues) /\
    (true = false -> successes = 0 /\ issues = 0).
Proof.
  assert (Hbs : (0 < 2)%Z) by lia.
  split; [exact Hbs|].
  exact (run_queries_batch_keeps_tallies_in_bounds (ticking_world fails_on_y)
           ["x"; "y"; "z"] 0.5%float (with_worker (new_demonstrator float)) 0 Hbs).
Defined.

(* ================================================================= *)
(** ** The demonstrator on top of the two workers *)

Lemma query_is_none_when_http_fails (numpy_rejects : Json -> bool)
    (self : CloudflareWorker.t) (prompt system : string)
    (net : CloudflareWorker.HttpOutcome) :
  http_fails net = true ->
  CloudflareWorker.query numpy_rejects self prompt system net = Ok PyNone.
Proof. destruct net; [reflexivity | reflexivity | discriminate]. Qed.

(** X5.  What a failed HTTP call of the real worker looks like to the
    demonstrator.  [CloudflareWorker.query] answers a call that raises, or
    a body that is not JSON, with [None]; [query_krishna_topic] has then
    counted the query as successful and recorded its latency, and
    [None.split()] takes it to the outer handler: the text handed back is
    ["Error: 'NoneType' object has no attribute 'split'"], the time handed
    back is 0.0, and the query is counted as a connectivity issue as
    well.  The handler meant for responder errors is not reached. *)
Theorem failed_http_call_counts_as_success_and_issue
    {F : Type} `{Arith F} {W : Type} (world : World F W)
    (numpy_rejects : Json -> bool) (self : CloudflareWorker.t)
    (net : string -> CloudflareWorker.HttpOutcome)
    (question : string) (i : Z) (d : Demonstrator F) (w : W) :
  cloudflare_worker d = true ->
  http_fails (net question) = true ->
  let cloudflare := with_cloudflare_worker numpy_rejects self net world in
  query_krishna_topic cloudflare question i (d, w)
  = (Ok (none_has_no_split, of_nat 0),
     ({| results := results d;
         response_times := response_times d ++ [latency_at cloudflare true question w];
         cloudflare_worker := true;
         connectivity_issues := connectivity_issues d + 1;
         successful_queries := successful_queries d + 1;
         total_tokens_estimated := total_tokens_estimated d |},
      world_after_query cloudflare true question w)).
Proof.
  intros Hwk Hfail cloudflare.
  rewrite query_krishna_topic_observed. rewrite Hwk.
  assert (Ho : outcome_at cloudflare question w = Returned PyNone).
  { unfold outcome_at, cloudflare.
    cbn [with_cloudflare_worker worker_query perf_counter fst snd].
    now rewrite query_is_none_when_http_fails. }
  rewrite Ho. cbn [answer_of keeps_latency issues_of successes_of tokens_of py_split PyNone is_ok].
  rewrite Nat.add_0_r. reflexivity.
Qed.

(** X5 at a call that times out. *)
Lemma failed_http_call_counts_as_success_and_issue_witness :
  let net := fun _ : string => CloudflareWorker.PostRaises RequestException "timed out" in
  let cloudflare :=
    with_cloudflare_worker (fun _ => false) demo_worker net (ticking_world (F := float) echo) in
  cloudflare_worker (with_worker (new_demonstrator float)) = true /\
  http_fails (net "What is dharma?") = true /\
  query_krishna_topic cloudflare "What is dharma?" 1 (with_worker (new_demonstrator float), 0)
  = (Ok (none_has_no_split, 0%float),
     ({| results := [];
         response_times := [1000%float];
         cloudflare_worker := true;
         connectivity_issues := 1;
         successful_queries := 1;
         total_tokens_estimated := 0 |}, 2)).
Proof.
  intros net cloudflare.
  assert (Hwk : cloudflare_worker (with_worker (new_demonstrator float)) = true) by reflexivity.
  assert (Hfail : http_fails (net "What is dharma?") = true) by reflexivity.
  split; [exact Hwk|]. split; [exact Hfail|].
  exact (failed_http_call_counts_as_success_and_issue
           (ticking_world (F := float) echo) (fun _ => false) demo_worker net
           "What is dharma?" 1 (with_worker (new_demonstrator float)) 0 Hwk Hfail).
Defined.

Lemma mock_outcome {F : Type} `{Arith F} {W : Type} (world : World F W)
    (question system : string) (w : W) :
  fst (worker_query (with_mock_worker world) question system w)
  = Returned (PJson (JStr (_generate_mock_response question))).
Proof. reflexivity. Qed.

(** X6.  The fallback class as the worker.  Its [query] sleeps and
    returns the mock response of the prompt; it never fails.  A run on it
    answers every question with [_generate_mock_response] of the question,
    counts every question as successful and none as a connectivity issue,
    and hands back every measured latency. *)
Theorem mock_worker_answers_every_question
    {F : Type} `{Arith F} {W : Type} (world : World F W)
    (questions : list string) (delay : F) (batch_size : Z)
    (d : Demonstrator F) (w : W) :
  (0 < batch_size)%Z ->
  cloudflare_worker d = true ->
  exists out d' w' times,
    run_queries_batch (with_mock_worker world) questions delay batch_size (d, w)
    = (Ok out, (d', w')) /\
    map (fun r => fr_answer r) out = map _generate_mock_response questions /\
    response_times d' = response_times d ++ times /\
    map (fun r => fr_response_time r) out = times /\
    successful_queries d' = successful_queries d + length questions /\
    connectivity_issues d' = connectivity_issues d.
Proof.
  intros Hbs Hwk. rewrite run_queries_batch_observed by exact Hbs. rewrite Hwk.
  set (obs := fst (observe (with_mock_worker world) true (Z.of_nat (length questions)) delay
                     (enumerate questions 1) w)).
  assert (Hout : Forall (fun ob => ob_outcome ob
                          = Returned (PJson (JStr (_generate_mock_response (ob_question ob)))))
                   obs).
  { unfold obs. generalize (enumerate questions 1), w.
    induction l as [|item items IH]; intros w0; cbn [observe fst snd]; constructor.
    - reflexivity.
    - apply IH. }
  assert (Hq : map (fun ob => ob_question ob) obs = questions).
  { pose proof (observe_numbers (with_mock_worker world) true (Z.of_nat (length questions))
                  delay (enumerate questions 1) w) as Hn.
    fold obs in Hn. apply (f_equal (map snd)) in Hn.
    rewrite map_map, map_snd_enumerate in Hn. exact Hn. }
  assert (Hlen : length obs = length questions).
  { unfold obs. now rewrite observe_length, enumerate_length. }
  do 3 eexists. exists (map (fun ob => ob_latency ob) obs).
  split; [reflexivity|].
  unfold record_observations. fields. rewrite Hwk.
  split.
  { rewrite <- Hq, !map_map. clear Hq Hlen.
    induction Hout as [|ob obs' Hob _ IH]; cbn [map]; [reflexivity|].
    rewrite IH. f_equal. cbn [formatted_of fr_answer]. now rewrite Hob. }
  split; [reflexivity|].
  split.
  { rewrite map_map. clear Hq Hlen.
    induction Hout as [|ob obs' Hob _ IH]; cbn [map]; [reflexivity|].
    rewrite IH. f_equal. cbn [formatted_of fr_response_time]. unfold returned_time.
    now rewrite Hob. }
  split.
  - f_equal. rewrite <- Hlen. apply list_sum_ones.
    eapply Forall_impl; [|exact Hout]. intros ob Hob. now rewrite Hob.
  - rewrite list_sum_zeros; [lia|].
    eapply Forall_impl; [|exact Hout]. intros ob Hob. now rewrite Hob.
Qed.

(** X6 at two of the script's questions. *)
Lemma mock_worker_answers_every_question_witness :
  (0 < 10)%Z /\
  cloudflare_worker (with_worker (new_demonstrator float)) = true /\
  exists out d' w' times,
    run_queries_batch (with_mock_worker (ticking_world echo))
      ["What does Krishna teach Arjuna?"; "Who is Radha?"] 0.5%float 10
      (with_worker (new_demonstrator float), 0)
    = (Ok out, (d', w')) /\
    map (fun r => fr_answer r) out
    = map _generate_mock_response ["What does Krishna teach Arjuna?"; "Who is Radha?"] /\
    response_times d' = [] ++ times /\
    map (fun r => fr_response_time r) out = times /\
    successful_queries d' = 0 + 2 /\
    connectivity_issues d' = 0.
Proof.
  assert (Hbs : (0 < 10)%Z) by lia.
  assert (Hwk : cloudflare_worker (with_worker (new_demonstrator float)) = true) by reflexivity.
  split; [exact Hbs|]. split; [exact Hwk|].
  exact (mock_worker_answers_every_question (ticking_world echo)
           ["What does Krishna teach Arjuna?"; "Who is Radha?"] 0.5%float
           (with_worker (new_demonstrator float)) 0 Hbs Hwk).
Defined.

(* ================================================================= *)
(** ** [run_queries] *)

Lemma for_each_ext_in {S X A} (xs : list X) (body1 body2 : X -> A -> Prog S A) :
  (forall x acc s, In x xs -> body1 x acc s = body2 x acc s) ->
  forall acc s, for_each xs acc body1 s = for_each xs acc body2 s.
Proof.
  induction xs as [|x xs IH]; intros Hb acc s; cbn [for_each]; [reflexivity|].
  unfold bindP. rewrite (Hb x acc s) by now left.
  destruct (body2 x acc s) as [[acc'|e] s']; [|reflexivity].
  apply IH. intros y acc0 s0 Hy. apply Hb. now right.
Qed.

Lemma bindP_cong {S A B} (m1 m2 : Prog S A) (k : A -> Prog S B) (s : S) :
  m1 s = m2 s -> bindP m1 k s = bindP m2 k s.
Proof. intros Hm. unfold bindP. now rewrite Hm. Qed.

Lemma enumerate_In {X} (xs : list X) (start : Z) (item : Z * X) :
  In item (enumerate xs start) ->
  (start <= fst item < start + Z.of_nat (length xs))%Z.
Proof.
  revert start. induction xs as [|x xs IH]; intros start; cbn [enumerate In length];
    [contradiction|].
  intros [<-|Hin]; cbn [fst]; [lia|].
  apply IH in Hin. lia.
Qed.

Section RunQueriesFacts.
Context {F : Type} `{Arith F} {W : Type}.
Variable world : World F W.
Hypothesis half_is_positive : fltb (of_nat 0) (one_half (F := F)) = true.

(** Before the last question the body of [run_queries] is the body of
    [run_queries_batch] at the delay 0.5. *)
Lemma run_queries_step_inside (total : Z) (item : Z * string)
    (acc : list (FormattedResult F)) (s : Demonstrator F * W) :
  (fst item < total)%Z ->
  run_queries_step world item acc s = process_question world total one_half item acc s.
Proof.
  intros Hlt. unfold run_queries_step, process_question.
  rewrite half_is_positive. apply Z.ltb_lt in Hlt. rewrite Hlt. reflexivity.
Qed.

(** At the last question it pauses where [run_queries_batch] does not. *)
Lemma run_queries_step_last (total : Z) (question : string)
    (acc : list (FormattedResult F)) (s : Demonstrator F * W) :
  run_queries_step world (total, question) acc s
  = bindP (process_question world total one_half (total, question) acc)
      (fun out => bindP (sleep world one_half) (fun _ => ret out)) s.
Proof.
  unfold run_queries_step, process_question. cbn [fst snd].
  rewrite Z.ltb_irrefl, andb_false_r.
  unfold bindP, update, modify, sleep, ret.
  destruct (query_krishna_topic world question total s) as [[reply|e] s']; reflexivity.
Qed.

Lemma run_queries_loop (questions : list string) (s : Demonstrator F * W) :
  questions <> [] ->
  for_each (enumerate questions 1) [] (run_queries_step world) s
  = bindP (for_each (enumerate questions 1) []
             (process_question world (Z.of_nat (length questions)) one_half))
      (fun out => bindP (sleep world one_half) (fun _ => ret out)) s.
Proof.
  intros Hne. destruct (exists_last Hne) as (front & last & ->).
  rewrite enumerate_app, length_app. cbn [enumerate length].
  replace (Z.of_nat (length front + 1)) with (1 + Z.of_nat (length front))%Z by lia.
  set (total := (1 + Z.of_nat (length front))%Z).
  rewrite for_each_app.
  rewrite (bindP_cong _ _ _ _ (for_each_app _ _ _ _ _)), bindP_assoc.
  assert (Hfront :
            for_each (enumerate front 1) [] (run_queries_step world) s
            = for_each (enumerate front 1) [] (process_question world total one_half) s).
  { apply for_each_ext_in. intros item acc s' Hin. apply run_queries_step_inside.
    apply enumerate_In in Hin. subst total. lia. }
  rewrite (bindP_cong _ _ _ _ Hfront).
  apply bindP_ext. intros acc s'. cbn [for_each].
  rewrite bindP_ret_r, run_queries_step_last.
  apply bindP_cong. symmetry. apply bindP_ret_r.
Qed.

End RunQueriesFacts.

(** X7.  [run_queries] and [run_queries_batch].  The plain run
    initialises the worker and then does what a batch run over the 57
    questions of the script does at the delay 0.5, with any positive batch
    size, followed by one more pause of 0.5 s: the same results, the same
    demonstrator and the same calls to the world, except that it also
    pauses after the last question.  ([0 < 0.5] is asked of the
    arithmetic.) *)
Theorem run_queries_is_a_batch_run_and_a_pause
    {F : Type} `{Arith F} {W : Type} (world : World F W)
    (import_outcome : ImportOutcome) (batch_size : Z) (s : Demonstrator F * W) :
  fltb (of_nat 0) (one_half (F := F)) = true ->
  (0 < batch_size)%Z ->
  run_queries world import_outcome s
  = (initialized <- initialize_cloudflare_worker import_outcome ;;
     formatted_results <- run_queries_batch world KRISHNA_QUESTIONS one_half batch_size ;;
     sleep world one_half ;;;
     ret formatted_results)%prog s.
Proof.
  intros Hhalf Hbs. unfold run_queries. apply bindP_ext. intros initialized s'.
  rewrite (run_queries_loop world Hhalf); [|discriminate].
  apply bindP_cong. symmetry. apply run_queries_batch_unbatched. exact Hbs.
Qed.

(** X7 on binary64, the import having succeeded. *)
Lemma run_queries_is_a_batch_run_and_a_pause_witness :
  fltb (of_nat 0) (one_half (F := float)) = true /\
  (0 < 10)%Z /\
  run_queries (ticking_world fails_on_y) Imported (new_demonstrator float, 0)
  = (initialized <- initialize_cloudflare_worker Imported ;;
     formatted_results <-
       run_queries_batch (ticking_world fails_on_y) KRISHNA_QUESTIONS one_half 10 ;;
     sleep (ticking_world fails_on_y) one_half ;;;
     ret formatted_results)%prog (new_demonstrator float, 0).
Proof.
  assert (Hhalf : fltb (of_nat 0) (one_half (F := float)) = true) by reflexivity.
  assert (Hbs : (0 < 10)%Z) by lia.
  split; [exact Hhalf|]. split; [exact Hbs|].
  exact (run_queries_is_a_batch_run_and_a_pause (ticking_world fails_on_y) Imported
           (new_demonstrator float, 0) Hhalf Hbs).
Defined.

(* ================================================================= *)
(** ** [generate_summary], in exact arithmetic *)

Section SummaryFacts.
Local Open Scope R_scope.

Lemma analyze_latency_patterns_returns (response_times : list R) :
  exists analysis, analyze_latency_patterns response_times = Ok analysis.
Proof.
  destruct (filter is_positive response_times) as [|t ts] eqn:Hf.
  - exists []. unfold analyze_latency_patterns.
    destruct response_times as [|r rs]; [reflexivity|].
    change (filter (fun t : R => fltb (of_nat 0) t) (r :: rs))
      with (filter is_positive (r :: rs)).
    now rewrite Hf.
  - destruct (analyze_exact _ Hf) as (med & p95 & p99 & _ & _ & _ & Ha).
    eexists. exact Ha.
Qed.

Lemma py_int_truediv_exact (a b : nat) :
  b <> 0%nat ->
  py_int_truediv (F := R) (Z.of_nat a) (Z.of_nat b) = Ok (INR a / INR b).
Proof.
  intros Hb. unfold py_int_truediv.
  destruct (Z.eqb_spec (Z.of_nat b) 0); [lia|].
  rewrite !Nat2Z.id. reflexivity.
Qed.

(** The summary up to its last division, the one by the elapsed time. *)
Lemma generate_summary_up_to_rate (total_time : R) (environ : Environ)
    (self : Demonstrator R) :
  results self <> [] ->
  exists avg_response_time analysis,
    analyze_latency_patterns (response_times self) = Ok analysis /\
    generate_summary total_time environ self
    = (processing_rate <- py_truediv (INR (length (results self))) total_time ;;
       let success_rate :=
         INR (successful_queries self) / INR (length (results self)) * INR 100 in
       Ok (Report {|
         sm_total_questions := length (results self);
         sm_total_time := total_time;
         sm_successful_queries := successful_queries self;
         sm_connectivity_issues := connectivity_issues self;
         sm_success_rate := success_rate;
         sm_avg_response_time := avg_response_time;
         sm_avg_answer_length :=
           INR (list_sum (map (fun r => answer_length r) (results self)))
           / INR (length (results self));
         sm_total_tokens_estimated := total_tokens_estimated self;
         sm_min_latency := dict_get analysis "min_latency" 0;
         sm_max_latency := dict_get analysis "max_latency" 0;
         sm_median_latency := dict_get analysis "median_latency" 0;
         sm_p95_latency := dict_get analysis "p95_latency" 0;
         sm_p99_latency := dict_get analysis "p99_latency" 0;
         sm_std_deviation := dict_get analysis "std_deviation" 0;
         sm_consistency_score := dict_get analysis "consistency_score" 0;
         sm_api_key :=
           if getenv_is_set environ "CLOUDFLARE_API_KEY" then "Set" else "Not Set";
         sm_account_id :=
           if getenv_is_set environ "CLOUDFLARE_ACCOUNT_ID" then "Set" else "Not Set";
         sm_llm_model := os_getenv environ "LLM_MODEL" "Default";
         sm_demo_mode := if negb (cloudflare_worker self) then "Yes" else "No";
         sm_consistency_insight :=
           if fltb (INR 50) (dict_get analysis "std_deviation" 0) then "high" else "good";
         sm_network_insight := network_insight (connectivity_issues self);
         sm_processing_rate := processing_rate;
         sm_readiness :=
           if fltb (INR 95) success_rate
           then "[SUCCESS] Production ready - all systems operational"
           else "[WARNING] Review connectivity issues before production use";
         sm_latency_recommendation :=
           if fltb (INR 7 / INR 10) (dict_get analysis "consistency_score" 0)
           then "[SUCCESS] Response times are consistent and acceptable"
           else "[WARNING] Response time variability detected";
         sm_questions_recommendation := questions_recommendation (connectivity_issues self)
       |}))%result.
Proof.
  intros Hne.
  destruct (analyze_latency_patterns_returns (response_times self)) as [analysis Ha].
  assert (Hlen : length (results self) <> 0%nat).
  { destruct (results self); [contradiction | discriminate]. }
  set (valid_times :=
         map (fun r => response_time r)
           (filter (fun r => fltb (of_nat 0) (response_time r)) (results self))).
  assert (Havg : exists avg,
             match valid_times with
             | [] => Ok (of_nat 0)
             | _ => py_truediv (py_sum valid_times) (of_nat (length valid_times))
             end = Ok avg).
  { destruct valid_times as [|t ts]; [eexists; reflexivity|].
    rewrite py_truediv_R_ok by apply INR_length_nonzero. eexists; reflexivity. }
  destruct Havg as [avg Havg].
  exists avg, analysis. split; [exact Ha|].
  unfold generate_summary. fold valid_times.
  destruct (results self) as [|r rs] eqn:Hres; [contradiction|].
  rewrite Havg. cbn [Py.bind].
  rewrite py_int_truediv_exact by exact Hlen. cbn [Py.bind].
  rewrite Ha. cbn [Py.bind].
  assert (Hpos : (0 <? length (r :: rs))%nat = true) by reflexivity.
  rewrite Hpos.
  rewrite py_int_truediv_exact by exact Hlen. cbn [Py.bind].
  reflexivity.
Qed.

End SummaryFacts.

(* ================================================================= *)
(** ** [generate_summary] as the interpreter runs it *)

Section Binary64Summary.
Variable libm : Libm.

Local Abbreviation arith := (Arith_binary64 libm).
Local Abbreviation analyze := (@analyze_latency_patterns float arith).
Local Abbreviation summary := (@generate_summary float arith).
Local Abbreviation float_of := (@of_nat float arith).

Lemma py_int_truediv_by_count (a b : nat) :
  b <> 0%nat ->
  @py_int_truediv float arith (Z.of_nat a) (Z.of_nat b) = Ok (float_of a / float_of b)%float.
Proof.
  intros Hb. unfold py_int_truediv.
  destruct (Z.eqb_spec (Z.of_nat b) 0); [lia|].
  rewrite !Nat2Z.id. reflexivity.
Qed.

Lemma truediv_binary64 (a b : float) :
  @py_truediv float arith a b =
    if PrimFloat.eqb b 0
    then Raise (mkExc ZeroDivisionError "float division by zero")
    else Ok (a / b)%float.
Proof. reflexivity. Qed.

Lemma average_response_time_returns (rs : list (ResultEntry float)) :
  (Z.of_nat (length rs) < 2 ^ 63)%Z ->
  let valid_times :=
    map (fun r => response_time r)
      (filter (fun r => @fltb float arith (float_of 0) (response_time r)) rs) in
  exists avg,
    match valid_times with
    | [] => Ok (float_of 0)
    | _ => @py_truediv float arith (@py_sum float arith valid_times)
             (float_of (length valid_times))
    end = Ok avg.
Proof.
  intros Hlen valid_times.
  assert (Hle : (length valid_times <= length rs)%nat).
  { subst valid_times. rewrite length_map. apply filter_length_le. }
  destruct valid_times as [|t ts]; [eexists; reflexivity|].
  rewrite truediv_by_positive; [eexists; reflexivity|].
  apply of_nat_positive; simpl in *; lia.
Qed.

(** X8.  [generate_summary] by cases, on binary64 and over any C
    library whose [pow] returns nothing negative (so that the analysis
    takes the root of no negative number and the standard deviation is a
    float), for result and latency lists of fewer than [2 ** 63] entries
    (a list is never longer).  With no results it returns its fixed
    sentence.  With results, the two averages go through (the counts they
    divide by are not zero); if the latency analysis raises, it is the
    [OverflowError] of a power, and the method raises it; otherwise the
    method divides the number of questions by the elapsed time
    [time.time() - self.start_time] without a guard: when that time is 0.0
    it raises [ZeroDivisionError], and when it is not it returns the
    report, whose processing rate is that quotient and whose standard
    deviation is not negative. *)
Theorem generate_summary_divides_by_elapsed_time (total_time : float) (environ : Environ)
    (self : Demonstrator float) :
  pow_is_not_negative libm ->
  (Z.of_nat (length (results self)) < 2 ^ 63)%Z ->
  (Z.of_nat (length (response_times self)) < 2 ^ 63)%Z ->
  (results self = [] /\
   summary total_time environ self = Ok NoResults)
  \/
  (results self <> [] /\
   analyze (response_times self) = Raise range_error /\
   summary total_time environ self = Raise range_error)
  \/
  (results self <> [] /\
   (exists analysis, analyze (response_times self) = Ok analysis) /\
   PrimFloat.eqb total_time 0 = true /\
   summary total_time environ self
   = Raise (mkExc ZeroDivisionError "float division by zero"))
  \/
  (results self <> [] /\
   (exists analysis, analyze (response_times self) = Ok analysis) /\
   PrimFloat.eqb total_time 0 = false /\
   exists s,
     summary total_time environ self = Ok (Report s) /\
     sm_total_questions s = length (results self) /\
     sm_processing_rate s = (float_of (length (results self)) / total_time)%float /\
     PrimFloat.ltb (sm_std_deviation s) 0 = false).
Proof.
  intros Hsign Hres Htimes.
  destruct (results self) as [|r rs] eqn:Hr.
  - left. split; [reflexivity|]. unfold generate_summary. now rewrite Hr.
  - right.
    destruct (average_response_time_returns (r :: rs) Hres) as [avg Havg].
    assert (Hlen : length (r :: rs) <> 0%nat) by discriminate.
    unfold generate_summary. rewrite Hr.
    rewrite Havg. cbn [Py.bind].
    rewrite py_int_truediv_by_count by exact Hlen. cbn [Py.bind].
    destruct (analyze (response_times self)) as [analysis|e] eqn:Ha; cbn [Py.bind].
    + right.
      assert (Hpos : (0 <? length (r :: rs))%nat = true) by reflexivity.
      rewrite Hpos.
      rewrite py_int_truediv_by_count by exact Hlen. cbn [Py.bind].
      rewrite truediv_binary64.
      destruct (PrimFloat.eqb total_time 0) eqn:Hz; cbn [Py.bind].
      * left. split; [discriminate|]. split; [now exists analysis|]. split; reflexivity.
      * right. split; [discriminate|]. split; [now exists analysis|]. split; [reflexivity|].
        eexists. split; [reflexivity|]. split; [reflexivity|]. split; [reflexivity|].
        exact (std_deviation_is_not_negative Hsign _ Htimes Ha).
    + left. apply analyze_binary64_raises in Ha; [|exact Htimes]. subst e.
      split; [discriminate|]. split; reflexivity.
Qed.

End Binary64Summary.

(** X8 at one result and an elapsed time of 0.0. *)
Lemma generate_summary_divides_by_elapsed_time_witness :
  let self :=
    {| results := [ {| question_number := 1; question := "q";
                       response_time := 12.5%float; answer_length := 4 |} ];
       response_times := [12.5%float];
       cloudflare_worker := true;
       connectivity_issues := 0;
       successful_queries := 1;
       total_tokens_estimated := 2 |} in
  pow_is_not_negative correctly_rounded /\
  (Z.of_nat (length (results self)) < 2 ^ 63)%Z /\
  (Z.of_nat (length (response_times self)) < 2 ^ 63)%Z /\
  @generate_summary float (Arith_binary64 correctly_rounded) 0%float (fun _ => None) self
  = Raise (mkExc ZeroDivisionError "float division by zero").
Proof.
  intros self.
  assert (H0 : pow_is_not_negative correctly_rounded)
    by exact correctly_rounded_is_not_negative.
  assert (H1 : (Z.of_nat (length (results self)) < 2 ^ 63)%Z) by reflexivity.
  assert (H2 : (Z.of_nat (length (response_times self)) < 2 ^ 63)%Z) by reflexivity.
  split; [exact H0|]. split; [exact H1|]. split; [exact H2|].
  destruct (@generate_summary_divides_by_elapsed_time correctly_rounded 0%float
              (fun _ => None) self H0 H1 H2)
    as [[Hno _]|[(_ & Ha & _)|[(_ & _ & _ & Hgs)|(_ & _ & Hz & _)]]].
  - discriminate Hno.
  - vm_compute in Ha. discriminate Ha.
  - exact Hgs.
  - vm_compute in Hz. discriminate Hz.
Defined.

Section SummaryClaims.
Local Open Scope R_scope.

Lemma INR_100 : INR 100 = 100.
Proof. rewrite INR_IZR_INZ. reflexivity. Qed.

Lemma INR_95 : INR 95 = 95.
Proof. rewrite INR_IZR_INZ. reflexivity. Qed.

Lemma observed_run_has_results {F : Type} `{Arith F} {W : Type} (world : World F W)
    (worker : bool) (delay : F) (questions : list string) (w : W) :
  questions <> [] ->
  fst (observe world worker (Z.of_nat (length questions)) delay (enumerate questions 1) w)
  <> [].
Proof.
  intros Hne Hobs. apply (f_equal (@length _)) in Hobs.
  rewrite observe_length, enumerate_length in Hobs.
  destruct questions; [contradiction | discriminate].
Qed.

(** X9.  A run without a worker, as when the initialisation has failed
    or demo mode is forced, and the summary made of it.  Every question is
    answered with the fixed mock response and neither tally moves, so the
    report of a fresh demonstrator shows no successful query and a success
    rate of 0: it warns to review connectivity issues before production
    use, while it also says that the network is stable and that all
    questions were processed successfully. *)
Theorem run_without_worker_reports_no_success {W : Type} (world : World R W)
    (questions : list string) (delay : R) (batch_size : Z) (w : W)
    (total_time : R) (environ : Environ) :
  (0 < batch_size)%Z -> questions <> [] -> total_time <> 0 ->
  exists out d' w' s,
    run_queries_batch world questions delay batch_size (new_demonstrator R, w)
    = (Ok out, (d', w')) /\
    length out = length questions /\
    Forall (fun r => fr_answer r = mock_response) out /\
    generate_summary total_time environ d' = Ok (Report s) /\
    sm_total_questions s = length questions /\
    sm_successful_queries s = 0%nat /\
    sm_connectivity_issues s = 0%nat /\
    sm_success_rate s = 0 /\
    sm_demo_mode s = "Yes" /\
    sm_readiness s = "[WARNING] Review connectivity issues before production use" /\
    sm_network_insight s = "Network connectivity is stable" /\
    sm_questions_recommendation s = "[SUCCESS] All questions processed successfully".
Proof.
  intros Hbs Hne Htime.
  rewrite run_queries_batch_observed by exact Hbs.
  cbn [new_demonstrator cloudflare_worker].
  set (obs := fst (observe world false (Z.of_nat (length questions)) delay
                     (enumerate questions 1) w)).
  assert (Hlen : length obs = length questions).
  { unfold obs. now rewrite observe_length, enumerate_length. }
  assert (Hobs : obs <> []) by now apply observed_run_has_results.
  set (d' := record_observations obs (new_demonstrator R)).
  assert (Hres : results d' = map (entry_of false) obs) by reflexivity.
  assert (Hresne : results d' <> []).
  { rewrite Hres. destruct obs; [contradiction | discriminate]. }
  assert (Hsq : successful_queries d' = 0%nat).
  { unfold d', record_observations. fields. cbn [new_demonstrator successful_queries cloudflare_worker].
    apply list_sum_zero. reflexivity. }
  assert (Hci : connectivity_issues d' = 0%nat).
  { unfold d', record_observations. fields. cbn [new_demonstrator connectivity_issues cloudflare_worker].
    apply list_sum_zero. reflexivity. }
  destruct (generate_summary_up_to_rate total_time environ d' Hresne)
    as (avg & analysis & _ & Hgs).
  rewrite py_truediv_R_ok in Hgs by exact Htime. cbn [Py.bind] in Hgs. cbv zeta in Hgs.
  do 3 eexists. eexists. split; [reflexivity|].
  split; [now rewrite length_map|].
  split; [apply Forall_forall; intros r Hr; apply in_map_iff in Hr;
          destruct Hr as (ob & <- & _); reflexivity|].
  split; [exact Hgs|].
  cbn [sm_total_questions sm_successful_queries sm_connectivity_issues sm_success_rate
       sm_demo_mode sm_readiness sm_network_insight sm_questions_recommendation].
  rewrite Hsq, Hci, Hres, length_map, Hlen.
  assert (Hrate : INR 0 / INR (length questions) * INR 100 = 0).
  { cbn [INR]. unfold Rdiv. ring. }
  rewrite Hrate.
  assert (Hnot : fltb (INR 95) 0 = false).
  { apply fltb_R_false. rewrite INR_95. lra. }
  rewrite Hnot.
  repeat split; reflexivity.
Qed.

(** X9 at three questions. *)
Lemma run_without_worker_reports_no_success_witness :
  (0 < 10)%Z /\ ["a"; "b"; "c"] <> [] /\ 42 <> 0 /\
  exists out d' w' s,
    run_queries_batch (ticking_world (F := R) echo) ["a"; "b"; "c"] (1 / 2) 10
      (new_demonstrator R, 0%nat)
    = (Ok out, (d', w')) /\
    length out = 3%nat /\
    Forall (fun r => fr_answer r = mock_response) out /\
    generate_summary 42 (fun _ => None) d' = Ok (Report s) /\
    sm_total_questions s = 3%nat /\
    sm_successful_queries s = 0%nat /\
    sm_connectivity_issues s = 0%nat /\
    sm_success_rate s = 0 /\
    sm_demo_mode s = "Yes" /\
    sm_readiness s = "[WARNING] Review connectivity issues before production use" /\
    sm_network_insight s = "Network connectivity is stable" /\
    sm_questions_recommendation s = "[SUCCESS] All questions processed successfully".
Proof.
  assert (Hbs : (0 < 10)%Z) by lia.
  assert (Hne : ["a"; "b"; "c"] <> []) by discriminate.
  assert (Htime : 42 <> 0) by lra.
  split; [exact Hbs|]. split; [exact Hne|]. split; [exact Htime|].
  exact (@run_without_worker_reports_no_success nat (ticking_world (F := R) echo)
           ["a"; "b"; "c"] (1 / 2) 10%Z 0%nat 42 (fun _ => None) Hbs Hne Htime).
Defined.

Lemma cloudflare_outcome_when_http_fails {F W : Type} (world : World F W)
    (numpy_rejects : Json -> bool) (self : CloudflareWorker.t)
    (net : string -> CloudflareWorker.HttpOutcome) :
  (forall question, http_fails (net question) = true) ->
  forall question system w,
    fst (worker_query (with_cloudflare_worker numpy_rejects self net world) question system w)
    = Returned PyNone.
Proof.
  intros Hfail question system w. cbn [with_cloudflare_worker worker_query fst].
  now rewrite query_is_none_when_http_fails.
Qed.

(** X10.  An outage of the Cloudflare API, end to end.  When every HTTP
    call of the real worker fails, a run from a fresh demonstrator with
    that worker answers every question with the text of the
    [AttributeError] and the time 0.0, yet counts every question as a
    successful query (and as a connectivity issue too).  The summary then
    shows a success rate of 100 and recommends
    ["[SUCCESS] Production ready - all systems operational"]. *)
Theorem outage_is_reported_as_production_ready {W : Type} (world : World R W)
    (numpy_rejects : Json -> bool) (self : CloudflareWorker.t)
    (net : string -> CloudflareWorker.HttpOutcome)
    (questions : list string) (delay : R) (batch_size : Z) (w : W)
    (total_time : R) (environ : Environ) :
  (0 < batch_size)%Z -> questions <> [] -> total_time <> 0 ->
  (forall question, http_fails (net question) = true) ->
  exists out d' w' s,
    run_queries_batch (with_cloudflare_worker numpy_rejects self net world)
      questions delay batch_size (with_worker (new_demonstrator R), w)
    = (Ok out, (d', w')) /\
    length out = length questions /\
    Forall (fun r => fr_answer r = none_has_no_split /\ fr_response_time r = 0) out /\
    generate_summary total_time environ d' = Ok (Report s) /\
    sm_total_questions s = length questions /\
    sm_successful_queries s = length questions /\
    sm_connectivity_issues s = length questions /\
    sm_success_rate s = 100 /\
    sm_readiness s = "[SUCCESS] Production ready - all systems operational".
Proof.
  intros Hbs Hne Htime Hfail.
  rewrite run_queries_batch_observed by exact Hbs.
  cbn [with_worker new_demonstrator cloudflare_worker].
  set (cloudflare := with_cloudflare_worker numpy_rejects self net world).
  set (obs := fst (observe cloudflare true (Z.of_nat (length questions)) delay
                     (enumerate questions 1) w)).
  assert (Hlen : length obs = length questions).
  { unfold obs. now rewrite observe_length, enumerate_length. }
  assert (Hobs : obs <> []) by now apply observed_run_has_results.
  assert (Hout : Forall (fun ob => ob_outcome ob = Returned PyNone) obs).
  { apply (observe_outcomes cloudflare (fun o => o = Returned PyNone)).
    now apply cloudflare_outcome_when_http_fails. }
  set (d' := record_observations obs (with_worker (new_demonstrator R))).
  assert (Hres : results d' = map (entry_of true) obs) by reflexivity.
  assert (Hresne : results d' <> []).
  { rewrite Hres. destruct obs; [contradiction | discriminate]. }
  assert (Hsq : successful_queries d' = length questions).
  { unfold d', record_observations. fields.
    cbn [with_worker new_demonstrator successful_queries cloudflare_worker].
    rewrite <- Hlen. apply list_sum_ones.
    eapply Forall_impl; [|exact Hout]. intros ob Hob. now rewrite Hob. }
  assert (Hci : connectivity_issues d' = length questions).
  { unfold d', record_observations. fields.
    cbn [with_worker new_demonstrator connectivity_issues cloudflare_worker].
    rewrite <- Hlen. apply list_sum_ones.
    eapply Forall_impl; [|exact Hout]. intros ob Hob. now rewrite Hob. }
  destruct (generate_summary_up_to_rate total_time environ d' Hresne)
    as (avg & analysis & _ & Hgs).
  rewrite py_truediv_R_ok in Hgs by exact Htime. cbn [Py.bind] in Hgs. cbv zeta in Hgs.
  do 3 eexists. eexists. split; [reflexivity|].
  split; [now rewrite length_map|].
  split.
  { apply Forall_forall. intros r Hr. apply in_map_iff in Hr.
    destruct Hr as (ob & <- & Hin).
    rewrite Forall_forall in Hout. specialize (Hout ob Hin).
    unfold formatted_of, returned_time. cbn [fr_answer fr_response_time].
    rewrite Hout. split; reflexivity. }
  split; [exact Hgs|].
  cbn [sm_total_questions sm_successful_queries sm_connectivity_issues sm_success_rate
       sm_readiness].
  rewrite Hsq, Hci, Hres, length_map, Hlen.
  assert (Hn : INR (length questions) <> 0).
  { apply not_0_INR. destruct questions; [contradiction | discriminate]. }
  assert (Hrate : INR (length questions) / INR (length questions) * INR 100 = 100).
  { rewrite INR_100. field. exact Hn. }
  rewrite Hrate.
  assert (Hyes : fltb (INR 95) 100 = true).
  { apply fltb_R_true. rewrite INR_95. lra. }
  rewrite Hyes.
  repeat split; reflexivity.
Qed.

(** X10 at three questions, every call timing out. *)
Lemma outage_is_reported_as_production_ready_witness :
  let net := fun _ : string => CloudflareWorker.PostRaises RequestException "timed out" in
  (0 < 10)%Z /\ ["a"; "b"; "c"] <> [] /\ 42 <> 0 /\
  (forall question, http_fails (net question) = true) /\
  exists out d' w' s,
    run_queries_batch
      (with_cloudflare_worker (fun _ => false) demo_worker net (ticking_world (F := R) echo))
      ["a"; "b"; "c"] (1 / 2) 10 (with_worker (new_demonstrator R), 0%nat)
    = (Ok out, (d', w')) /\
    length out = 3%nat /\
    Forall (fun r => fr_answer r = none_has_no_split /\ fr_response_time r = 0) out /\
    generate_summary 42 (fun _ => None) d' = Ok (Report s) /\
    sm_total_questions s = 3%nat /\
    sm_successful_queries s = 3%nat /\
    sm_connectivity_issues s = 3%nat /\
    sm_success_rate s = 100 /\
    sm_readiness s = "[SUCCESS] Production ready - all systems operational".
Proof.
  intros net.
  assert (Hbs : (0 < 10)%Z) by lia.
  assert (Hne : ["a"; "b"; "c"] <> []) by discriminate.
  assert (Htime : 42 <> 0) by lra.
  assert (Hfail : forall question, http_fails (net question) = true) by reflexivity.
  split; [exact Hbs|]. split; [exact Hne|]. split; [exact Htime|]. split; [exact Hfail|].
  exact (@outage_is_reported_as_production_ready nat (ticking_world (F := R) echo)
           (fun _ => false) demo_worker net ["a"; "b"; "c"] (1 / 2) 10%Z 0%nat 42
           (fun _ => None) Hbs Hne Htime Hfail).
Defined.

(** X11.  The success rate is a percentage.  If a demonstrator has
    counted no more successful queries than it has results, as a fresh one
    has, then so it is after a run, whatever the responder does, and the
    success rate of the summary lies between 0 and 100. *)
Theorem success_rate_is_a_percentage {W : Type} (world : World R W)
    (questions : list string) (delay : R) (batch_size : Z)
    (d : Demonstrator R) (w : W) (total_time : R) (environ : Environ) :
  (0 < batch_size)%Z -> questions <> [] -> total_time <> 0 ->
  (successful_queries d <= length (results d))%nat ->
  exists out d' w' s,
    run_queries_batch world questions delay batch_size (d, w) = (Ok out, (d', w')) /\
    (successful_queries d' <= length (results d'))%nat /\
    generate_summary total_time environ d' = Ok (Report s) /\
    0 <= sm_success_rate s <= 100.
Proof.
  intros Hbs Hne Htime Hinv.
  rewrite run_queries_batch_observed by exact Hbs.
  set (worker := cloudflare_worker d).
  set (obs := fst (observe world worker (Z.of_nat (length questions)) delay
                     (enumerate questions 1) w)).
  assert (Hobs : obs <> []) by now apply observed_run_has_results.
  set (d' := record_observations obs d).
  assert (Hres : length (results d') = (length (results d) + length obs)%nat).
  { unfold d', record_observations. fields. now rewrite length_app, length_map. }
  assert (Hsq : (successful_queries d' <= length (results d'))%nat).
  { rewrite Hres. unfold d', record_observations. fields.
    pose proof (list_sum_le_length (fun ob => successes_of (cloudflare_worker d) (ob_outcome ob))
                  obs (fun ob => successes_of_le_1 _ _)).
    lia. }
  assert (Hresne : results d' <> []).
  { intros Hnil. rewrite Hnil in Hres. cbn [length] in Hres.
    destruct obs; [contradiction | cbn [length] in Hres; lia]. }
  destruct (generate_summary_up_to_rate total_time environ d' Hresne)
    as (avg & analysis & _ & Hgs).
  rewrite py_truediv_R_ok in Hgs by exact Htime. cbn [Py.bind] in Hgs. cbv zeta in Hgs.
  do 3 eexists. eexists. split; [reflexivity|].
  split; [exact Hsq|]. split; [exact Hgs|].
  cbn [sm_success_rate].
  assert (Hn : 0 < INR (length (results d'))).
  { apply lt_0_INR. destruct (results d'); [contradiction | simpl; lia]. }
  assert (Hs : 0 <= INR (successful_queries d')) by apply pos_INR.
  assert (Hle : INR (successful_queries d') <= INR (length (results d'))) by now apply le_INR.
  rewrite INR_100.
  assert (Hq : 0 <= INR (successful_queries d') / INR (length (results d')) <= 1).
  { split.
    - apply Rmult_le_pos; [exact Hs|]. left. now apply Rinv_0_lt_compat.
    - apply (Rmult_le_reg_r (INR (length (results d')))); [exact Hn|].
      unfold Rdiv. rewrite Rmult_assoc, Rinv_l by lra. lra. }
  lra.
Qed.

(** X11 at three questions, the second of which the responder refuses. *)
Lemma success_rate_is_a_percentage_witness :
  (0 < 10)%Z /\ ["x"; "y"; "z"] <> [] /\ 42 <> 0 /\
  (successful_queries (with_worker (new_demonstrator R))
   <= length (results (with_worker (new_demonstrator R))))%nat /\
  exists out d' w' s,
    run_queries_batch (ticking_world (F := R) fails_on_y) ["x"; "y"; "z"] (1 / 2) 10
      (with_worker (new_demonstrator R), 0%nat)
    = (Ok out, (d', w')) /\
    (successful_queries d' <= length (results d'))%nat /\
    generate_summary 42 (fun _ => None) d' = Ok (Report s) /\
    0 <= sm_success_rate s <= 100.
Proof.
  assert (Hbs : (0 < 10)%Z) by lia.
  assert (Hne : ["x"; "y"; "z"] <> []) by discriminate.
  assert (Htime : 42 <> 0) by lra.
  assert (Hinv : (successful_queries (with_worker (new_demonstrator R))
                  <= length (results (with_worker (new_demonstrator R))))%nat)
    by (simpl; lia).
  split; [exact Hbs|]. split; [exact Hne|]. split; [exact Htime|]. split; [exact Hinv|].
  exact (@success_rate_is_a_percentage nat (ticking_world (F := R) fails_on_y)
           ["x"; "y"; "z"] (1 / 2) 10%Z (with_worker (new_demonstrator R)) 0%nat 42
           (fun _ => None) Hbs Hne Htime Hinv).
Defined.

End SummaryClaims.

(* ================================================================= *)
(** ** The latency analysis, further *)

Lemma filter_idempotent {X} (p : X -> bool) (xs : list X) :
  filter p (filter p xs) = filter p xs.
Proof.
  induction xs as [|x xs IH]; cbn [filter]; [reflexivity|].
  destruct (p x) eqn:Hp; [|exact IH].
  cbn [filter]. now rewrite Hp, IH.
Qed.

(** X12.  The analysis sees the positive times only: the recorded times
    that are not above 0 (the 0.0 of a failed call, a negative reading of
    a clock set back) can be left out, or put in anywhere, without changing
    any statistic.  In every arithmetic. *)
Theorem analysis_ignores_times_that_are_not_positive
    {F : Type} `{Arith F} (response_times : list F) :
  analyze_latency_patterns response_times
  = analyze_latency_patterns (filter (fun t => fltb (of_nat 0) t) response_times).
Proof.
  unfold analyze_latency_patterns.
  destruct response_times as [|r rs]; [reflexivity|].
  destruct (filter (fun t => fltb (of_nat 0) t) (r :: rs)) as [|t ts] eqn:Hf; [reflexivity|].
  assert (Hid : filter (fun t => fltb (of_nat 0) t) (t :: ts) = t :: ts).
  { rewrite <- Hf. apply filter_idempotent. }
  cbv beta iota zeta. rewrite Hid. reflexivity.
Qed.

(** X13.  On binary64 the two percentile indices are the integer
    quotients: for every number of times up to 4096, [int(n * 0.95)] is
    [n * 95 // 100] and [int(n * 0.99)] is [n * 99 // 100], the products
    being rounded as the interpreter rounds them. *)
Theorem percentile_indices_on_binary64 (n : nat) :
  n <= 4096 ->
  p95_index_binary64 n = Z.of_nat (p95_index n) /\
  p99_index_binary64 n = Z.of_nat (p99_index n).
Proof.
  intros Hn. pose proof percentile_index_binary64 as Hall.
  rewrite forallb_forall in Hall.
  assert (Hin : In n (seq 0 4097)) by (apply in_seq; lia).
  specialize (Hall n Hin). unfold percentile_indices_agree in Hall.
  apply andb_true_iff in Hall. destruct Hall as [H95 H99].
  apply Z.eqb_eq in H95, H99.
  now rewrite p95_index_Z, p99_index_Z.
Qed.

(** X13 at the 57 questions of the script. *)
Lemma percentile_indices_on_binary64_witness :
  57 <= 4096 /\
  p95_index_binary64 57 = Z.of_nat (p95_index 57) /\
  p99_index_binary64 57 = Z.of_nat (p99_index 57).
Proof.
  assert (Hn : 57 <= 4096) by lia.
  split; [exact Hn|].
  exact (@percentile_indices_on_binary64 57 Hn).
Defined.

Section OrderStatistics.
Local Open Scope R_scope.

Lemma StronglySorted_nth_le (l : list R) :
  StronglySorted Rle l ->
  forall (i j : nat) (a b : R),
    (i <= j)%nat -> nth_error l i = Some a -> nth_error l j = Some b -> a <= b.
Proof.
  induction 1 as [|x l Hs IH Hall]; intros i j a b Hij Hi Hj.
  - destruct i; discriminate.
  - destruct i as [|i], j as [|j]; cbn [nth_error] in Hi, Hj.
    + inversion Hi; inversion Hj; subst. lra.
    + inversion Hi; subst. apply nth_error_In in Hj.
      rewrite Forall_forall in Hall. now apply Hall.
    + lia.
    + apply (IH i j); [lia | exact Hi | exact Hj].
Qed.

Lemma min_from_lower_bound (t : R) (ts : list R) (x : R) :
  In x (t :: ts) -> min_from t ts <= x.
Proof.
  destruct (min_from_le ts t) as [Ht Hts]. intros [<-|Hin]; [exact Ht|].
  rewrite Forall_forall in Hts. now apply Hts.
Qed.

Lemma max_from_upper_bound (t : R) (ts : list R) (x : R) :
  In x (t :: ts) -> x <= max_from t ts.
Proof.
  destruct (max_from_ge ts t) as [Ht Hts]. intros [<-|Hin]; [exact Ht|].
  rewrite Forall_forall in Hts. now apply Hts.
Qed.

Lemma sorted_In (xs : list R) (x : R) : In x (sorted xs) <-> In x xs.
Proof.
  split; intros Hin.
  - apply (Permutation_in x (sorted_perm xs) Hin).
  - apply (Permutation_in x (Permutation_sym (sorted_perm xs)) Hin).
Qed.

Lemma index_order (n : nat) :
  (median_index n <= p95_index n)%nat /\ (p95_index n <= p99_index n)%nat.
Proof.
  pose proof (median_index_floor n). pose proof (p95_index_floor n).
  pose proof (p99_index_floor n). lia.
Qed.

Lemma p99_index_small (n : nat) : (1 <= n <= 100)%nat -> p99_index n = (n - 1)%nat.
Proof. intros Hn. pose proof (p99_index_floor n). lia. Qed.

Lemma p95_index_small (n : nat) : (1 <= n <= 20)%nat -> p95_index n = (n - 1)%nat.
Proof. intros Hn. pose proof (p95_index_floor n). lia. Qed.

(** The element at the last index of [sorted(times)] is the maximum. *)
Lemma sorted_last_is_max (t : R) (ts : list R) (x : R) :
  nth_error (sorted (t :: ts)) (length (t :: ts) - 1) = Some x -> x = max_from t ts.
Proof.
  intros Hx. apply Rle_antisym.
  - apply max_from_upper_bound. apply sorted_In. eapply nth_error_In, Hx.
  - assert (Hin : In (max_from t ts) (sorted (t :: ts))) by (apply sorted_In, max_from_In).
    apply In_nth_error in Hin. destruct Hin as [j Hj].
    assert (Hlt : (j < length (sorted (t :: ts)))%nat).
    { apply nth_error_Some. rewrite Hj. discriminate. }
    rewrite sorted_length in Hlt.
    apply (StronglySorted_nth_le (sorted_ascending (t :: ts)) (i := j)
             (j := (length (t :: ts) - 1)%nat)); [lia | exact Hj | exact Hx].
Qed.

(** X14.  The statistics come out in order.  Whenever some recorded time
    is positive, the analysis returns with
    [0 < min <= median <= p95 <= p99 <= max]. *)
Theorem latency_statistics_are_ordered (response_times : list R) :
  filter is_positive response_times <> [] ->
  exists d mn med p95 p99 mx,
    analyze_latency_patterns response_times = Ok d /\
    dict_lookup d "min_latency" = Some mn /\
    dict_lookup d "median_latency" = Some med /\
    dict_lookup d "p95_latency" = Some p95 /\
    dict_lookup d "p99_latency" = Some p99 /\
    dict_lookup d "max_latency" = Some mx /\
    0 < mn /\ mn <= med /\ med <= p95 /\ p95 <= p99 /\ p99 <= mx.
Proof.
  intros Hne.
  destruct (filter is_positive response_times) as [|t ts] eqn:Hf; [contradiction|].
  destruct (analyze_exact _ Hf) as (med & p95 & p99 & Hmed & Hp95 & Hp99 & Ha).
  eexists. exists (min_from t ts), med, p95, p99, (max_from t ts).
  split; [exact Ha|]. do 5 (split; [reflexivity|]).
  pose proof (sorted_ascending (t :: ts)) as Hs.
  destruct (index_order (length (t :: ts))) as [H1 H2].
  split.
  { pose proof (filter_positive response_times) as Hpos. rewrite Hf in Hpos.
    rewrite Forall_forall in Hpos. apply Hpos, min_from_In. }
  split; [apply min_from_lower_bound, sorted_In; eapply nth_error_In, Hmed|].
  split; [exact (StronglySorted_nth_le Hs H1 Hmed Hp95)|].
  split; [exact (StronglySorted_nth_le Hs H2 Hp95 Hp99)|].
  apply max_from_upper_bound, sorted_In. eapply nth_error_In, Hp99.
Qed.

(** X14 at six recorded times, four of them positive. *)
Lemma latency_statistics_are_ordered_witness :
  filter is_positive [3; -1; 1; 0; 2; 4] <> [] /\
  exists d mn med p95 p99 mx,
    analyze_latency_patterns [3; -1; 1; 0; 2; 4] = Ok d /\
    dict_lookup d "min_latency" = Some mn /\
    dict_lookup d "median_latency" = Some med /\
    dict_lookup d "p95_latency" = Some p95 /\
    dict_lookup d "p99_latency" = Some p99 /\
    dict_lookup d "max_latency" = Some mx /\
    0 < mn /\ mn <= med /\ med <= p95 /\ p95 <= p99 /\ p99 <= mx.
Proof.
  assert (Hne : filter is_positive [3; -1; 1; 0; 2; 4] <> []).
  { cbn [filter]. rewrite (proj2 (is_positive_true 3)) by lra. discriminate. }
  split; [exact Hne|].
  exact (@latency_statistics_are_ordered [3; -1; 1; 0; 2; 4] Hne).
Defined.

(** X15.  With few times the percentiles are the maximum.  The p99 of up
    to 100 positive times, and the p95 of up to 20, is the largest of them:
    the index [int(n * 0.99)] is then [n - 1].  The 57 questions of the
    script never give a p99 below the maximum. *)
Theorem percentiles_of_few_times_are_the_maximum (response_times : list R) :
  (1 <= length (filter is_positive response_times))%nat ->
  exists d p95 p99 mx,
    analyze_latency_patterns response_times = Ok d /\
    dict_lookup d "p95_latency" = Some p95 /\
    dict_lookup d "p99_latency" = Some p99 /\
    dict_lookup d "max_latency" = Some mx /\
    ((length (filter is_positive response_times) <= 100)%nat -> p99 = mx) /\
    ((length (filter is_positive response_times) <= 20)%nat -> p95 = mx).
Proof.
  intros Hn.
  destruct (filter is_positive response_times) as [|t ts] eqn:Hf; [cbn in Hn; lia|].
  destruct (analyze_exact _ Hf) as (med & p95 & p99 & Hmed & Hp95 & Hp99 & Ha).
  eexists. exists p95, p99, (max_from t ts).
  split; [exact Ha|]. do 3 (split; [reflexivity|]).
  split; intros Hsmall.
  - rewrite p99_index_small in Hp99 by lia. now apply sorted_last_is_max.
  - rewrite p95_index_small in Hp95 by lia. now apply sorted_last_is_max.
Qed.

(** X15 at three times. *)
Lemma percentiles_of_few_times_are_the_maximum_witness :
  (1 <= length (filter is_positive [120; 80; 95]%R))%nat /\
  exists d p95 p99 mx,
    analyze_latency_patterns [120; 80; 95] = Ok d /\
    dict_lookup d "p95_latency" = Some p95 /\
    dict_lookup d "p99_latency" = Some p99 /\
    dict_lookup d "max_latency" = Some mx /\
    ((length (filter is_positive [120; 80; 95]%R) <= 100)%nat -> p99 = mx) /\
    ((length (filter is_positive [120; 80; 95]%R) <= 20)%nat -> p95 = mx).
Proof.
  assert (Hn : (1 <= length (filter is_positive [120; 80; 95]%R))%nat).
  { cbn [filter]. rewrite (proj2 (is_positive_true 120)) by lra. cbn [length]. lia. }
  split; [exact Hn|].
  exact (@percentiles_of_few_times_are_the_maximum [120; 80; 95] Hn).
Defined.

End OrderStatistics.

(* ================================================================= *)
(** ** The Cloudflare worker, further *)

Section WorkerReplies.
Variable numpy_rejects : Json -> bool.

(** What [_send_request] hands back, read off the reply. *)
Lemma send_request_reads_the_result_object (self : CloudflareWorker.t)
    (model_name : string) (input_ : Json) (debug_log : string)
    (net : CloudflareWorker.HttpOutcome) :
  CloudflareWorker._send_request numpy_rejects self model_name input_ debug_log net
  = Ok (match net with
        | CloudflareWorker.JsonBody (JDict fields) =>
            match dict_get fields "result" (JDict []) with
            | JDict result =>
                match dict_lookup result "data" with
                | Some data => if numpy_rejects data then PyNone else PArray data
                | None =>
                    match dict_lookup result "response" with
                    | Some response => PJson response
                    | None => PyNone
                    end
                end
            | _ => PyNone
            end
        | _ => PyNone
        end).
Proof.
  unfold CloudflareWorker._send_request, CloudflareWorker._send_request_try.
  destruct net as [c msg|msg|response_raw]; [reflexivity | reflexivity |].
  cbn [CloudflareWorker.post_json Py.bind].
  destruct response_raw as [| | | | |items|fields]; try reflexivity.
  cbn [json_get Py.bind].
  destruct (dict_get fields "result" (JDict [])) as [| | | |s|items|result]; try reflexivity.
  - cbn [json_contains Py.bind].
    destruct (is_substring "data" s); [reflexivity|].
    cbn [Py.bind]. destruct (is_substring "response" s); reflexivity.
  - cbn [json_contains Py.bind].
    destruct (existsb (is_the_string "data") items); [reflexivity|].
    cbn [Py.bind]. destruct (existsb (is_the_string "response") items); reflexivity.
  - cbn [json_contains json_getitem Py.bind].
    destruct (dict_lookup result "data") as [data|]; cbn [Py.bind].
    + unfold CloudflareWorker.np_array. destruct (numpy_rejects data); reflexivity.
    + destruct (dict_lookup result "response") as [response|]; reflexivity.
Qed.

(** X18.  When [query] hands back a text.  [query] returns the string
    [text] exactly when the HTTP call brings back a JSON object whose
    ["result"] is an object without a ["data"] key and with [text] under
    ["response"].  A reply that also holds ["data"] is read as an
    embedding, whatever its ["response"]; any other reply, and any error,
    gives [None] or a value that is not a string. *)
Theorem query_returns_a_text_iff (self : CloudflareWorker.t)
    (prompt system : string) (net : CloudflareWorker.HttpOutcome) (text : string) :
  CloudflareWorker.query numpy_rejects self prompt system net = Ok (PJson (JStr text))
  <->
  exists fields result,
    net = CloudflareWorker.JsonBody (JDict fields) /\
    dict_get fields "result" (JDict []) = JDict result /\
    dict_lookup result "data" = None /\
    dict_lookup result "response" = Some (JStr text).
Proof.
  unfold CloudflareWorker.query. rewrite send_request_reads_the_result_object.
  split.
  - intros Hq.
    destruct net as [c msg|msg|response_raw]; try discriminate.
    destruct response_raw as [| | | | |items|fields]; try discriminate.
    destruct (dict_get fields "result" (JDict [])) as [| | | |s|items|result] eqn:Hres;
      try discriminate.
    destruct (dict_lookup result "data") as [data|] eqn:Hdata.
    + destruct (numpy_rejects data); discriminate.
    + destruct (dict_lookup result "response") as [response|] eqn:Hresp; [|discriminate].
      inversion Hq; subst. now exists fields, result.
  - intros (fields & result & -> & Hres & Hdata & Hresp).
    now rewrite Hres, Hdata, Hresp.
Qed.

(** X19.  [embedding_chunk] never raises, and it returns an array
    exactly when the HTTP call brings back a JSON object whose ["result"]
    is an object with a ["data"] value from which numpy makes an array; the
    array is made of that value.  On any error, as for [query], the caller
    gets [None] and no exception. *)
Theorem embedding_chunk_returns_an_array_iff (self : CloudflareWorker.t)
    (texts : list string) (net : CloudflareWorker.HttpOutcome) :
  (exists v, embedding_chunk numpy_rejects self texts net = Ok v) /\
  (http_fails net = true -> embedding_chunk numpy_rejects self texts net = Ok PyNone) /\
  forall data,
    embedding_chunk numpy_rejects self texts net = Ok (PArray data)
    <->
    exists fields result,
      net = CloudflareWorker.JsonBody (JDict fields) /\
      dict_get fields "result" (JDict []) = JDict result /\
      dict_lookup result "data" = Some data /\
      numpy_rejects data = false.
Proof.
  unfold embedding_chunk. rewrite send_request_reads_the_result_object.
  split; [eexists; reflexivity|].
  split; [destruct net; [reflexivity | reflexivity | discriminate]|].
  intros data. split.
  - intros Hq.
    destruct net as [c msg|msg|response_raw]; try discriminate.
    destruct response_raw as [| | | | |items|fields]; try discriminate.
    destruct (dict_get fields "result" (JDict [])) as [| | | |s|items|result] eqn:Hres;
      try discriminate.
    destruct (dict_lookup result "data") as [data'|] eqn:Hdata.
    + destruct (numpy_rejects data') eqn:Hnp; [discriminate|].
      inversion Hq; subst. now exists fields, result.
    + destruct (dict_lookup result "response"); discriminate.
  - intros (fields & result & -> & Hres & Hdata & Hnp).
    now rewrite Hres, Hdata, Hnp.
Qed.

End WorkerReplies.

(* ================================================================= *)
(** ** [process_dataset_entries] *)

(** Every character holds a byte at least. *)
Lemma chars_not_empty (s : string) : Forall (fun ch => ch <> EmptyString) (chars s).
Proof.
  induction s as [|c s IH]; [constructor|].
  cbn [chars]. destruct s as [|c' s']; [repeat constructor; discriminate|].
  destruct (is_continuation c').
  - destruct (chars (String c' s')) as [|ch rest]; [repeat constructor; discriminate|].
    inversion IH; subst. constructor; [discriminate | assumption].
  - constructor; [discriminate | exact IH].
Qed.

(** The characters of a string make up the string. *)
Lemma join_chars (s : string) : join (chars s) = s.
Proof.
  induction s as [|c s IH]; [reflexivity|].
  cbn [chars]. destruct s as [|c' s']; [reflexivity|].
  destruct (is_continuation c').
  - destruct (chars (String c' s')) as [|ch rest] eqn:Hch.
    + discriminate IH.
    + unfold join in *. cbn [fold_right append] in *. now rewrite IH.
  - unfold join in *. cbn [fold_right append] in *. now rewrite IH.
Qed.

Lemma join_empty (cs : list string) :
  Forall (fun ch => ch <> EmptyString) cs -> (join cs = EmptyString <-> cs = []).
Proof.
  intros Hcs. split; [|now intros ->].
  destruct cs as [|ch cs]; [reflexivity|]. inversion Hcs; subst.
  cbn [join fold_right]. destruct ch; [contradiction | discriminate].
Qed.

Lemma drop_spaces_suffix (cs : list string) :
  exists spaces, cs = spaces ++ drop_spaces cs /\ forallb isspace spaces = true.
Proof.
  induction cs as [|ch cs IH]; [now exists []|].
  cbn [drop_spaces]. destruct (isspace ch) eqn:Hch; [|now exists []].
  destruct IH as (spaces & Hcs & Hsp). exists (ch :: spaces). split.
  - cbn [app]. now rewrite <- Hcs.
  - cbn [forallb]. now rewrite Hch, Hsp.
Qed.

Lemma drop_spaces_blank (cs : list string) :
  forallb isspace (drop_spaces cs) = forallb isspace cs.
Proof.
  induction cs as [|ch cs IH]; [reflexivity|].
  cbn [drop_spaces forallb]. destruct (isspace ch) eqn:Hch; [exact IH|].
  cbn [forallb]. now rewrite Hch.
Qed.

Lemma drop_spaces_empty (cs : list string) :
  drop_spaces cs = [] <-> forallb isspace cs = true.
Proof.
  induction cs as [|ch cs IH]; [now split|].
  cbn [drop_spaces forallb]. destruct (isspace ch); [exact IH|].
  split; discriminate.
Qed.

Lemma forallb_rev {X} (p : X -> bool) (xs : list X) : forallb p (rev xs) = forallb p xs.
Proof.
  induction xs as [|x xs IH]; [reflexivity|].
  cbn [rev forallb]. rewrite forallb_app, IH. cbn [forallb].
  rewrite andb_true_r. apply andb_comm.
Qed.

Lemma Forall_drop_spaces (P : string -> Prop) (cs : list string) :
  Forall P cs -> Forall P (drop_spaces cs).
Proof.
  intros Hcs. destruct (drop_spaces_suffix cs) as (spaces & Heq & _).
  rewrite Heq in Hcs. now apply Forall_app in Hcs.
Qed.

(** [s.strip()] is empty exactly when [s] holds white space only. *)
Lemma py_strip_empty (s : string) : String.eqb (py_strip s) "" = is_blank s.
Proof.
  unfold py_strip, is_blank.
  set (inner := drop_spaces (chars s)).
  assert (Hne : Forall (fun ch => ch <> EmptyString)
                  (rev (drop_spaces (rev inner)))).
  { apply Forall_rev, Forall_drop_spaces, Forall_rev, Forall_drop_spaces, chars_not_empty. }
  rewrite <- (drop_spaces_blank (chars s)). fold inner.
  rewrite <- (forallb_rev isspace inner).
  destruct (forallb isspace (rev inner)) eqn:Hb.
  - apply drop_spaces_empty in Hb. rewrite Hb. reflexivity.
  - apply String.eqb_neq. intros Hj. apply (join_empty Hne) in Hj.
    assert (Hd : drop_spaces (rev inner) = []).
    { destruct (drop_spaces (rev inner)) as [|x xs]; [reflexivity|].
      cbn [rev] in Hj. now destruct (rev xs). }
    apply drop_spaces_empty in Hd. congruence.
Qed.

Section DatasetFacts.
Variable py_str : Json -> string.
Variable float_is_true : string -> bool.

Lemma text_content_of_raises_Exception (entry : Json) (e : Exc) :
  text_content_of py_str float_is_true entry = Raise e ->
  derives_from_Exception (exc_class e) = true.
Proof.
  unfold text_content_of.
  destruct (json_contains "text" entry) as [[|]|e0] eqn:Htext; cbn [Py.bind].
  - apply json_getitem_raises_Exception.
  - destruct (json_contains "content" entry) as [[|]|e1] eqn:Hcontent; cbn [Py.bind].
    + apply json_getitem_raises_Exception.
    + destruct entry; discriminate.
    + intros Hr; inversion Hr; subst. eapply json_contains_raises_Exception, Hcontent.
  - intros Hr; inversion Hr; subst. eapply json_contains_raises_Exception, Htext.
Qed.

(** One entry never stops the loop: it adds its text, if the text is a
    string that is not blank, and nothing otherwise. *)
Lemma process_entry_returns (entry : Json) (texts : list string) :
  process_entry py_str float_is_true entry texts
  = Ok (match text_content_of py_str float_is_true entry with
        | Ok (JStr s) => if is_blank s then texts else texts ++ [s]
        | _ => texts
        end).
Proof.
  unfold process_entry.
  destruct (text_content_of py_str float_is_true entry) as [text_content|e] eqn:Ht;
    cbn [Py.bind].
  - destruct text_content; try reflexivity.
    cbn [json_strip Py.bind fst snd]. rewrite py_strip_empty.
    destruct (is_blank s); reflexivity.
  - unfold try_except. now rewrite (text_content_of_raises_Exception _ Ht).
Qed.

(** The text that an entry contributes. *)
Lemma for_each_entry (entries : list Json) :
  forall texts,
    for_each_result entries texts (process_entry py_str float_is_true)
    = Ok (texts ++
          flat_map (fun entry =>
                      match text_content_of py_str float_is_true entry with
                      | Ok (JStr s) => if is_blank s then [] else [s]
                      | _ => []
                      end) entries).
Proof.
  induction entries as [|entry entries IH]; intros texts; cbn [for_each_result flat_map].
  - now rewrite app_nil_r.
  - rewrite process_entry_returns. cbn [Py.bind]. rewrite IH.
    destruct (text_content_of py_str float_is_true entry) as [[| | | |s| |]|e];
      try reflexivity.
    destruct (is_blank s); [reflexivity|]. now rewrite <- app_assoc.
Qed.

Lemma process_dataset_entries_of_split (dataset : Dict (list Json)) (split : list Json) :
  chosen_split dataset = Some split ->
  process_dataset_entries py_str float_is_true dataset
  = for_each_result split [] (process_entry py_str float_is_true).
Proof.
  unfold chosen_split, process_dataset_entries.
  destruct (dict_lookup dataset "train") as [train|].
  - intros Hs; inversion Hs; reflexivity.
  - destruct dataset as [|[name first] rest]; [discriminate|].
    intros Hs; inversion Hs; reflexivity.
Qed.

(** X20.  [process_dataset_entries] fails on a dataset without splits
    only, and no entry stops it.  On the empty dataset it raises
    [IndexError] (from [list(dataset.keys())[0]], outside the [try]); on
    any other it returns, having read the split ["train"] if there is one
    and the first split otherwise, with at most one text per entry; every
    text it returns has a character that is not whitespace, whatever
    the entries are (rows, strings, numbers, [None]) and whatever their
    fields hold. *)
Theorem process_dataset_entries_fails_on_no_split_only (dataset : Dict (list Json)) :
  (dataset = [] /\
   process_dataset_entries py_str float_is_true dataset
   = Raise (mkExc IndexError "list index out of range"))
  \/
  (exists split texts,
     chosen_split dataset = Some split /\
     process_dataset_entries py_str float_is_true dataset = Ok texts /\
     length texts <= length split /\
     Forall (fun s => is_blank s = false) texts).
Proof.
  destruct (chosen_split dataset) as [split|] eqn:Hsplit.
  - right. exists split. eexists. split; [reflexivity|].
    rewrite (process_dataset_entries_of_split _ Hsplit), for_each_entry.
    split; [reflexivity|]. cbn [app].
    clear Hsplit. induction split as [|entry split IH]; cbn [flat_map length].
    + split; [lia | constructor].
    + destruct IH as [IHlen IHall].
      destruct (text_content_of py_str float_is_true entry) as [[| | | |s| |]|e];
        cbn [app]; try (split; [lia | exact IHall]).
      destruct (is_blank s) eqn:Hb; cbn [app length]; split; try lia; try exact IHall.
      now constructor.
  - left. unfold chosen_split in Hsplit.
    destruct (dict_lookup dataset "train") eqn:Htrain; [discriminate|].
    destruct dataset as [|[name first] rest]; [|discriminate].
    split; reflexivity.
Qed.

Lemma text_content_of_row (entry : Json) (s : string) :
  text_of_row entry = Some s ->
  text_content_of py_str float_is_true entry = Ok (JStr s).
Proof.
  unfold text_of_row, text_content_of.
  destruct entry as [| | | | | |fields]; try discriminate.
  cbn [json_contains json_getitem Py.bind].
  destruct (dict_lookup fields "text") as [[| | | |s'| |]|]; try discriminate.
  intros Hs; inversion Hs; reflexivity.
Qed.

(** X21.  On rows that carry a string under ["text"] the function is a
    filter.  If every entry of the split that is read is a row whose
    ["text"] is a string, the texts returned are those strings, in the
    order of the rows and unchanged (not stripped), except the ones that
    are empty or hold whitespace only; the other fields of the rows,
    ["content"] among them, are not looked at. *)
Theorem process_dataset_entries_keeps_the_texts (dataset : Dict (list Json))
    (split : list Json) (texts : list string) :
  chosen_split dataset = Some split ->
  map text_of_row split = map Some texts ->
  process_dataset_entries py_str float_is_true dataset
  = Ok (filter (fun s => negb (is_blank s)) texts).
Proof.
  intros Hsplit Hrows.
  rewrite (process_dataset_entries_of_split _ Hsplit), for_each_entry. cbn [app].
  f_equal. clear Hsplit. revert texts Hrows.
  induction split as [|entry split IH]; intros texts Hrows;
    destruct texts as [|s texts]; try discriminate; [reflexivity|].
  cbn [map] in Hrows. inversion Hrows as [[Hrow Hrest]].
  cbn [flat_map filter]. rewrite (text_content_of_row _ Hrow), (IH _ Hrest).
  destruct (is_blank s); reflexivity.
Qed.

End DatasetFacts.

(** X21 at a dataset with a test split before the train split. *)
Lemma process_dataset_entries_keeps_the_texts_witness :
  let tab := String (ascii_of_nat 9) EmptyString in
  let train :=
    [ JDict [("id", JInt 1); ("text", JStr " Krishna lifts the hill ")];
      JDict [("text", JStr tab); ("content", JStr "unused")];
      JDict [("text", JStr "Arjuna asks"); ("label", JNull)] ] in
  let dataset := [("test", [JStr "held out"]); ("train", train)] in
  chosen_split dataset = Some train /\
  map text_of_row train = map Some [" Krishna lifts the hill "; tab; "Arjuna asks"] /\
  process_dataset_entries (fun _ => "") (fun _ => true) dataset
  = Ok [" Krishna lifts the hill "; "Arjuna asks"].
Proof.
  intros tab train dataset.
  assert (Hsplit : chosen_split dataset = Some train) by reflexivity.
  assert (Hrows : map text_of_row train
                  = map Some [" Krishna lifts the hill "; tab; "Arjuna asks"])
    by reflexivity.
  split; [exact Hsplit|]. split; [exact Hrows|].
  exact (@process_dataset_entries_keeps_the_texts (fun _ => "") (fun _ => true)
           dataset train [" Krishna lifts the hill "; tab; "Arjuna asks"] Hsplit Hrows).
Defined.

(* ================================================================= *)
(** ** Batches, answers and the times that reach the analysis *)

Lemma py_slice_length {X} (xs : list X) (a b : Z) :
  (0 <= a <= b)%Z -> (b <= Z.of_nat (length xs))%Z ->
  Z.of_nat (length (py_slice xs a b)) = (b - a)%Z.
Proof.
  intros Hab Hb. unfold py_slice. rewrite length_firstn, length_skipn. lia.
Qed.

Lemma batches_from (questions : list string) (batch_size : Z) :
  (0 < batch_size)%Z ->
  forall (fuel : nat) (batch_start : Z) (starts : list Z),
    (0 <= batch_start < Z.of_nat (length questions) + batch_size)%Z ->
    (Z.of_nat (length questions) - batch_start <= Z.of_nat fuel)%Z ->
    py_range batch_start (Z.of_nat (length questions)) batch_size = Ok starts ->
    concat (map (batch_questions_at questions batch_size) starts)
    = skipn (Z.to_nat batch_start) questions /\
    Forall (fun batch => (1 <= Z.of_nat (length batch) <= batch_size)%Z)
      (map (batch_questions_at questions batch_size) starts) /\
    (Z.of_nat (length starts) * batch_size
     < Z.of_nat (length questions) - batch_start + batch_size)%Z /\
    (Z.of_nat (length questions) - batch_start
     <= Z.of_nat (length starts) * batch_size)%Z.
Proof.
  intros Hbs. induction fuel as [|fuel IH]; intros a starts Ha Hfuel Hrange.
  - rewrite py_range_empty in Hrange by lia. inversion Hrange; subst.
    cbn [map concat length]. rewrite skipn_all2 by lia.
    split; [reflexivity|]. split; [constructor|]. lia.
  - destruct (Z.le_gt_cases (Z.of_nat (length questions)) a) as [Hdone|Hmore].
    + rewrite py_range_empty in Hrange by lia. inversion Hrange; subst.
      cbn [map concat length]. rewrite skipn_all2 by lia.
      split; [reflexivity|]. split; [constructor|]. lia.
    + destruct (py_range_cons Hbs Hmore) as (rest & Hrest & Hcons).
      rewrite Hcons in Hrange. inversion Hrange; subst starts.
      destruct (IH (a + batch_size)%Z rest) as (Hcat & Hall & Hup & Hlow);
        [lia | lia | exact Hrest |].
      cbn [map concat length]. rewrite Hcat.
      set (batch_end := Z.min (a + batch_size) (Z.of_nat (length questions))).
      assert (Hlen : Z.of_nat (length (batch_questions_at questions batch_size a))
                     = (batch_end - a)%Z).
      { unfold batch_questions_at. fold batch_end. apply py_slice_length; lia. }
      split.
      { unfold batch_questions_at, py_slice. fold batch_end.
        rewrite <- (firstn_skipn (Z.to_nat (batch_end - a)) (skipn (Z.to_nat a) questions)) at 2.
        f_equal. rewrite skipn_skipn.
        destruct (Z.le_ge_cases (a + batch_size) (Z.of_nat (length questions))) as [Hin|Hout].
        - f_equal. lia.
        - rewrite !skipn_all2 by lia. reflexivity. }
      split; [constructor; [lia | exact Hall]|].
      rewrite Nat2Z.inj_succ, Z.mul_succ_l. lia.
Qed.

(** X22.  How the questions are cut into batches.  For a positive batch
    size the batches that the outer loop takes, one per [batch_start] of
    [range(0, n, batch_size)], are the questions cut into consecutive
    runs: put end to end they give the questions back in order, none lost
    and none twice; no batch is empty or longer than the batch size; and
    there are [ceil(n / batch_size)] of them. *)
Theorem batches_partition_the_questions (questions : list string) (batch_size : Z) :
  (0 < batch_size)%Z ->
  exists starts,
    py_range 0 (Z.of_nat (length questions)) batch_size = Ok starts /\
    concat (map (batch_questions_at questions batch_size) starts) = questions /\
    Forall (fun batch => (1 <= Z.of_nat (length batch) <= batch_size)%Z)
      (map (batch_questions_at questions batch_size) starts) /\
    (Z.of_nat (length questions) <= Z.of_nat (length starts) * batch_size
     < Z.of_nat (length questions) + batch_size)%Z.
Proof.
  intros Hbs.
  destruct (py_range 0 (Z.of_nat (length questions)) batch_size) as [starts|e] eqn:Hrange.
  - exists starts. split; [reflexivity|].
    destruct (@batches_from questions batch_size Hbs (length questions) 0%Z starts)
      as (Hcat & Hall & Hup & Hlow); [lia | lia | exact Hrange |].
    split; [exact Hcat|]. split; [exact Hall|]. lia.
  - unfold py_range in Hrange. destruct (Z.eqb_spec batch_size 0); [lia | discriminate].
Qed.

(** X22 at the 57 questions of the script in batches of ten. *)
Lemma batches_partition_the_questions_witness :
  (0 < 10)%Z /\
  exists starts,
    py_range 0 (Z.of_nat (length KRISHNA_QUESTIONS)) 10 = Ok starts /\
    concat (map (batch_questions_at KRISHNA_QUESTIONS 10) starts) = KRISHNA_QUESTIONS /\
    Forall (fun batch => (1 <= Z.of_nat (length batch) <= 10)%Z)
      (map (batch_questions_at KRISHNA_QUESTIONS 10) starts) /\
    (Z.of_nat (length KRISHNA_QUESTIONS) <= Z.of_nat (length starts) * 10
     < Z.of_nat (length KRISHNA_QUESTIONS) + 10)%Z.
Proof.
  assert (Hbs : (0 < 10)%Z) by lia.
  split; [exact Hbs|].
  exact (@batches_partition_the_questions KRISHNA_QUESTIONS 10 Hbs).
Defined.

Lemma observe_deterministic {F : Type} `{Arith F} {W : Type} (world : World F W)
    (respond : string -> Outcome) (worker : bool) (total : Z) (delay : F)
    (items : list (Z * string)) :
  deterministic world respond ->
  forall w,
    Forall (fun ob => ob_outcome ob = respond (ob_question ob))
      (fst (observe world worker total delay items w)).
Proof.
  intros Hdet. induction items as [|item items IH]; intros w; cbn [observe fst snd];
    constructor; [apply Hdet | apply IH].
Qed.

Lemma map_ext_Forall {X Y} (f g : X -> Y) (xs : list X) :
  Forall (fun x => f x = g x) xs -> map f xs = map g xs.
Proof. induction 1 as [|x xs Hx _ IH]; cbn [map]; [reflexivity|]. now rewrite Hx, IH. Qed.

(** X23.  With a deterministic responder the run is a function of the
    prompts.  If what the responder does depends on the prompt alone, a
    run with a positive batch size returns, for the questions in order and
    numbered from 1, the answer that belongs to what the responder does
    with the question (its text, the connection error, the text of the
    outer handler, or the mock response without a worker); and the three
    tallies grow by the sums over the questions of what each question
    counts for. *)
Theorem answers_follow_the_responder
    {F : Type} `{Arith F} {W : Type} (world : World F W)
    (respond : string -> Outcome) (questions : list string) (delay : F)
    (batch_size : Z) (d : Demonstrator F) (w : W) :
  deterministic world respond ->
  (0 < batch_size)%Z ->
  exists out d' w',
    run_queries_batch world questions delay batch_size (d, w) = (Ok out, (d', w')) /\
    map (fun r => (fr_question_number r, fr_question r, fr_answer r)) out
    = map (fun item => (fst item, snd item,
                        answer_of (cloudflare_worker d) (respond (snd item))))
        (enumerate questions 1) /\
    successful_queries d'
    = successful_queries d
      + list_sum (map (fun q => successes_of (cloudflare_worker d) (respond q)) questions) /\
    connectivity_issues d'
    = connectivity_issues d
      + list_sum (map (fun q => issues_of (cloudflare_worker d) (respond q)) questions) /\
    total_tokens_estimated d'
    = total_tokens_estimated d
      + list_sum (map (fun q => tokens_of q (cloudflare_worker d) (respond q)) questions).
Proof.
  intros Hdet Hbs. rewrite run_queries_batch_observed by exact Hbs.
  set (worker := cloudflare_worker d).
  set (obs := fst (observe world worker (Z.of_nat (length questions)) delay
                     (enumerate questions 1) w)).
  assert (Hout : Forall (fun ob => ob_outcome ob = respond (ob_question ob)) obs)
    by now apply observe_deterministic.
  assert (Hnum : map (fun ob => (ob_number ob, ob_question ob)) obs = enumerate questions 1)
    by apply observe_numbers.
  assert (Hq : map (fun ob => ob_question ob) obs = questions).
  { apply (f_equal (map snd)) in Hnum. rewrite map_map, map_snd_enumerate in Hnum. exact Hnum. }
  do 3 eexists. split; [reflexivity|].
  unfold record_observations. fields. fold worker.
  split.
  { rewrite <- Hnum, !map_map. apply map_ext_Forall.
    eapply Forall_impl; [|exact Hout]. intros ob Hob.
    cbn [formatted_of fr_question_number fr_question fr_answer fst snd]. now rewrite Hob. }
  rewrite <- Hq at 1 2 3. rewrite !map_map.
  repeat split; do 2 f_equal; apply map_ext_Forall;
    (eapply Forall_impl; [|exact Hout]); intros ob Hob; now rewrite Hob.
Qed.

(** X23 at the prompts ["x"] and ["y"] and a responder that raises on
    ["y"]. *)
Lemma answers_follow_the_responder_witness :
  deterministic (ticking_world (F := float) fails_on_y) fails_on_y /\
  (0 < 10)%Z /\
  exists out d' w',
    run_queries_batch (ticking_world fails_on_y) ["x"; "y"] 0.5%float 10
      (with_worker (new_demonstrator float), 0) = (Ok out, (d', w')) /\
    map (fun r => (fr_question_number r, fr_question r, fr_answer r)) out
    = [ (1%Z, "x", "ok:x"); (2%Z, "y", "Connection Error: boom") ] /\
    successful_queries d' = 0 + 1 /\
    connectivity_issues d' = 0 + 1 /\
    total_tokens_estimated d' = 0 + 6.
Proof.
  assert (Hdet : deterministic (ticking_world (F := float) fails_on_y) fails_on_y)
    by (intros q sp w; reflexivity).
  assert (Hbs : (0 < 10)%Z) by lia.
  split; [exact Hdet|]. split; [exact Hbs|].
  exact (@answers_follow_the_responder float _ nat (ticking_world fails_on_y) fails_on_y
           ["x"; "y"] 0.5%float 10 (with_worker (new_demonstrator float)) 0 Hdet Hbs).
Defined.

Section RecordedTimes.
Local Open Scope R_scope.

Lemma latency_is_positive {W : Type} (world : World R W) (worker : bool)
    (question : string) (w : W) :
  clock_advances world -> 0 < latency_at world worker question w.
Proof.
  intros Hclock. destruct (Hclock question system_prompt w) as [Hplain Hasked].
  unfold latency_at. cbn [fmul fsub of_nat Arith_R].
  assert (H1000 : 0 < INR 1000) by (apply lt_0_INR; lia).
  destruct worker; apply Rmult_lt_0_compat; lra.
Qed.

Lemma observe_latencies_positive {W : Type} (world : World R W) (worker : bool)
    (total : Z) (delay : R) (items : list (Z * string)) :
  clock_advances world ->
  forall w, Forall (fun ob => 0 < ob_latency ob) (fst (observe world worker total delay items w)).
Proof.
  intros Hclock. induction items as [|item items IH]; intros w; cbn [observe fst snd];
    constructor; [now apply latency_is_positive | apply IH].
Qed.

(** X24.  Every call of a run reaches the analysis, a failed one too.
    [self.response_times] receives the latency measured around each call,
    also when the responder raised or the answer could not be read; the
    0.0 of the outer handler goes to the caller and to [self.results]
    only.  So under a clock that advances every time recorded by a run is
    positive, the filter [t > 0] of the analysis (commented "Filter out
    error responses") removes none of them, and after a run over at least
    one question the analysis is not empty, whatever the responder
    did. *)
Theorem analysis_counts_failed_calls {W : Type} (world : World R W)
    (questions : list string) (delay : R) (batch_size : Z)
    (d : Demonstrator R) (w : W) :
  clock_advances world ->
  (0 < batch_size)%Z ->
  questions <> [] ->
  Forall (fun t => 0 < t) (response_times d) ->
  exists out d' w' analysis,
    run_queries_batch world questions delay batch_size (d, w) = (Ok out, (d', w')) /\
    length (response_times d') = (length (response_times d) + length questions)%nat /\
    Forall (fun t => 0 < t) (response_times d') /\
    filter is_positive (response_times d') = response_times d' /\
    analyze_latency_patterns (response_times d') = Ok analysis /\
    analysis <> [].
Proof.
  intros Hclock Hbs Hne Hold.
  rewrite run_queries_batch_observed by exact Hbs.
  set (worker := cloudflare_worker d).
  set (obs := fst (observe world worker (Z.of_nat (length questions)) delay
                     (enumerate questions 1) w)).
  assert (Hlen : length obs = length questions).
  { unfold obs. now rewrite observe_length, enumerate_length. }
  assert (Hobs : obs <> []) by now apply observed_run_has_results.
  assert (Hnew : Forall (fun t => 0 < t) (map (fun ob => ob_latency ob) obs)).
  { apply Forall_map. now apply observe_latencies_positive. }
  assert (Hall : Forall (fun t => 0 < t)
                   (response_times d ++ map (fun ob => ob_latency ob) obs)).
  { apply Forall_app. now split. }
  pose proof (filter_positive_id Hall) as Hf.
  destruct (response_times d ++ map (fun ob => ob_latency ob) obs) as [|t ts] eqn:Htimes.
  { apply app_eq_nil in Htimes. destruct Htimes as [_ Hmap].
    apply map_eq_nil in Hmap. contradiction. }
  destruct (analyze_exact _ Hf) as (med & p95 & p99 & _ & _ & _ & Ha).
  do 3 eexists. eexists. split; [reflexivity|].
  unfold record_observations. fields. rewrite Htimes.
  split.
  { rewrite <- Htimes, length_app, length_map, Hlen. reflexivity. }
  split; [exact Hall|]. split; [exact Hf|]. split; [exact Ha|]. discriminate.
Qed.

(** X24 at three questions, the second of which the responder refuses,
    under a clock that ticks once per reading. *)
Lemma analysis_counts_failed_calls_witness :
  clock_advances (ticking_world (F := R) fails_on_y) /\
  (0 < 10)%Z /\
  ["x"; "y"; "z"] <> [] /\
  Forall (fun t => 0 < t) (response_times (with_worker (new_demonstrator R))) /\
  exists out d' w' analysis,
    run_queries_batch (ticking_world (F := R) fails_on_y) ["x"; "y"; "z"] (1 / 2) 10
      (with_worker (new_demonstrator R), 0%nat) = (Ok out, (d', w')) /\
    length (response_times d') = (0 + 3)%nat /\
    Forall (fun t => 0 < t) (response_times d') /\
    filter is_positive (response_times d') = response_times d' /\
    analyze_latency_patterns (response_times d') = Ok analysis /\
    analysis <> [].
Proof.
  assert (Hclock : clock_advances (ticking_world (F := R) fails_on_y)).
  { intros question system w. cbn [ticking_world perf_counter worker_query fst snd of_nat Arith_R].
    rewrite S_INR. split; lra. }
  assert (Hbs : (0 < 10)%Z) by lia.
  assert (Hne : ["x"; "y"; "z"] <> []) by discriminate.
  assert (Hold : Forall (fun t => 0 < t) (response_times (with_worker (new_demonstrator R))))
    by constructor.
  split; [exact Hclock|]. split; [exact Hbs|]. split; [exact Hne|]. split; [exact Hold|].
  exact (@analysis_counts_failed_calls nat (ticking_world (F := R) fails_on_y)
           ["x"; "y"; "z"] (1 / 2) 10%Z (with_worker (new_demonstrator R)) 0%nat
           Hclock Hbs Hne Hold).
Defined.

End RecordedTimes.

(** X25.  A well-formed reply of the Cloudflare API is the answer.  When
    the HTTP call for a question brings back a JSON object whose
    ["result"] holds the string [text] under ["response"] and no ["data"],
    [query_krishna_topic] on the real worker returns [text] with the
    measured latency, counts one successful query and no connectivity
    issue, and adds the words of the question and of the text to the token
    estimate. *)
Theorem well_formed_reply_is_the_answer
    {F : Type} `{Arith F} {W : Type} (world : World F W)
    (numpy_rejects : Json -> bool) (self : CloudflareWorker.t)
    (net : string -> CloudflareWorker.HttpOutcome)
    (question : string) (i : Z) (d : Demonstrator F) (w : W)
    (fields result : list (string * Json)) (text : string) :
  cloudflare_worker d = true ->
  net question = CloudflareWorker.JsonBody (JDict fields) ->
  dict_get fields "result" (JDict []) = JDict result ->
  dict_lookup result "data" = None ->
  dict_lookup result "response" = Some (JStr text) ->
  let cloudflare := with_cloudflare_worker numpy_rejects self net world in
  query_krishna_topic cloudflare question i (d, w)
  = (Ok (text, latency_at cloudflare true question w),
     ({| results := results d;
         response_times := response_times d ++ [latency_at cloudflare true question w];
         cloudflare_worker := true;
         connectivity_issues := connectivity_issues d;
         successful_queries := successful_queries d + 1;
         total_tokens_estimated :=
           total_tokens_estimated d
           + (length (str_split question) + length (str_split text)) |},
      world_after_query cloudflare true question w)).
Proof.
  intros Hwk Hnet Hres Hdata Hresp cloudflare.
  rewrite query_krishna_topic_observed. rewrite Hwk.
  assert (Ho : outcome_at cloudflare question w = Returned (PJson (JStr text))).
  { unfold outcome_at, cloudflare.
    cbn [with_cloudflare_worker worker_query perf_counter fst snd].
    assert (Hq : CloudflareWorker.query numpy_rejects self question system_prompt (net question)
                 = Ok (PJson (JStr text))).
    { unfold CloudflareWorker.query. rewrite send_request_reads_the_result_object.
      now rewrite Hnet, Hres, Hdata, Hresp. }
    now rewrite Hq. }
  rewrite Ho.
  cbn [answer_of keeps_latency issues_of successes_of tokens_of py_split is_ok fst snd].
  rewrite Nat.add_0_r. reflexivity.
Qed.

(** X25 at a reply of the Cloudflare API. *)
Lemma well_formed_reply_is_the_answer_witness :
  let fields :=
    [ ("result", JDict [("response", JStr "Dharma is duty.")]); ("success", JBool true) ] in
  let net := fun _ : string => CloudflareWorker.JsonBody (JDict fields) in
  let cloudflare :=
    with_cloudflare_worker (fun _ => false) demo_worker net (ticking_world (F := float) echo) in
  cloudflare_worker (with_worker (new_demonstrator float)) = true /\
  net "What is dharma?" = CloudflareWorker.JsonBody (JDict fields) /\
  dict_get fields "result" (JDict []) = JDict [("response", JStr "Dharma is duty.")] /\
  dict_lookup [("response", JStr "Dharma is duty.")] "data" = None /\
  dict_lookup [("response", JStr "Dharma is duty.")] "response"
  = Some (JStr "Dharma is duty.") /\
  query_krishna_topic cloudflare "What is dharma?" 1 (with_worker (new_demonstrator float), 0)
  = (Ok ("Dharma is duty.", 1000%float),
     ({| results := [];
         response_times := [1000%float];
         cloudflare_worker := true;
         connectivity_issues := 0;
         successful_queries := 1;
         total_tokens_estimated := 6 |}, 2)).
Proof.
  intros fields net cloudflare.
  assert (Hwk : cloudflare_worker (with_worker (new_demonstrator float)) = true) by reflexivity.
  assert (Hnet : net "What is dharma?" = CloudflareWorker.JsonBody (JDict fields))
    by reflexivity.
  assert (Hres : dict_get fields "result" (JDict [])
                 = JDict [("response", JStr "Dharma is duty.")]) by reflexivity.
  assert (Hdata : dict_lookup [("response", JStr "Dharma is duty.")] "data" = None)
    by reflexivity.
  assert (Hresp : dict_lookup [("response", JStr "Dharma is duty.")] "response"
                  = Some (JStr "Dharma is duty.")) by reflexivity.
  split; [exact Hwk|]. split; [exact Hnet|]. split; [exact Hres|].
  split; [exact Hdata|]. split; [exact Hresp|].
  exact (@well_formed_reply_is_the_answer float _ nat (ticking_world (F := float) echo)
           (fun _ => false) demo_worker net "What is dharma?" 1
           (with_worker (new_demonstrator float)) 0 fields
           [("response", JStr "Dharma is duty.")] "Dharma is duty."
           Hwk Hnet Hres Hdata Hresp).
Defined.

(* ================================================================= *)
(** ** [main] of the Krishna script *)

Lemma append_assoc (s1 s2 s3 : string) : ((s1 ++ s2) ++ s3 = s1 ++ (s2 ++ s3))%string.
Proof. induction s1 as [|c s1 IH]; cbn [append]; [reflexivity | now rewrite IH]. Qed.

Lemma chars_nonempty (s : string) : s <> "" -> chars s <> [].
Proof.
  destruct s as [|c s]; [contradiction|]. intros _. cbn [chars].
  destruct s as [|c' s']; [discriminate|].
  destruct (is_continuation c'); [|discriminate].
  destruct (chars (String c' s')); discriminate.
Qed.

Lemma chars_cons (c c' : ascii) (s : string) :
  chars (String c (String c' s))
  = if is_continuation c'
    then match chars (String c' s) with
         | ch :: rest => String c ch :: rest
         | [] => [String c EmptyString]
         end
    else String c EmptyString :: chars (String c' s).
Proof. reflexivity. Qed.

(** The characters of two strs put together. *)
Lemma chars_app (s t : string) :
  begins_a_char t = true -> chars (s ++ t)%string = chars s ++ chars t.
Proof.
  intros Ht. induction s as [|c s IH]; [reflexivity|].
  destruct s as [|c' s'].
  - change (String c "" ++ t)%string with (String c t).
    destruct t as [|c' t']; [reflexivity|].
    cbn [begins_a_char] in Ht. apply negb_true_iff in Ht.
    rewrite chars_cons, Ht. reflexivity.
  - change (String c (String c' s') ++ t)%string
      with (String c (String c' (s' ++ t)%string)).
    rewrite !chars_cons.
    change (String c' (s' ++ t)%string) with (String c' s' ++ t)%string.
    rewrite IH.
    pose proof (@chars_nonempty (String c' s') ltac:(discriminate)) as Hne.
    destruct (is_continuation c'); [|reflexivity].
    destruct (chars (String c' s')); [contradiction | reflexivity].
Qed.

Lemma begins_a_char_app (s t : string) :
  s <> "" -> begins_a_char s = true -> begins_a_char (s ++ t) = true.
Proof. destruct s; [contradiction | trivial]. Qed.

Lemma join_app (xs ys : list string) : join (xs ++ ys) = (join xs ++ join ys)%string.
Proof.
  induction xs as [|x xs IH]; [reflexivity|].
  cbn [app]. unfold join in *. cbn [fold_right]. now rewrite IH, append_assoc.
Qed.

Lemma drop_spaces_head (ch : string) (cs : list string) :
  isspace ch = false -> drop_spaces (ch :: cs) = ch :: cs.
Proof. intros Hch. cbn [drop_spaces]. now rewrite Hch. Qed.

(** A str with no white space at either end is its own [strip()]. *)
Lemma py_strip_tight (s : string) (first last : string) (middle front : list string) :
  chars s = first :: middle -> isspace first = false ->
  rev (chars s) = last :: front -> isspace last = false ->
  py_strip s = s.
Proof.
  intros Hfirst Hf Hlast Hl. unfold py_strip.
  rewrite Hfirst, (@drop_spaces_head _ _ Hf), <- Hfirst.
  rewrite Hlast, (@drop_spaces_head _ _ Hl), <- Hlast.
  rewrite rev_involutive. apply join_chars.
Qed.

(** White space at the end of a str goes. *)
Lemma py_strip_space_after (s : string) (space first : string) (middle : list string) :
  chars s = first :: middle -> isspace first = false ->
  isspace space = true -> chars space = [space] -> begins_a_char space = true ->
  py_strip (s ++ space) = py_strip s.
Proof.
  intros Hfirst Hf Hsp Hch Hb. unfold py_strip.
  rewrite (@chars_app s _ Hb), Hch, Hfirst.
  change ((first :: middle) ++ [space]) with (first :: (middle ++ [space])).
  rewrite !(@drop_spaces_head _ _ Hf).
  change (first :: (middle ++ [space])) with ((first :: middle) ++ [space]).
  rewrite rev_app_distr. cbn [rev app drop_spaces]. now rewrite Hsp.
Qed.

(** White space at the beginning of a str goes. *)
Lemma py_strip_space_before (s : string) (space : string) :
  isspace space = true -> chars space = [space] -> begins_a_char s = true ->
  py_strip (space ++ s) = py_strip s.
Proof.
  intros Hsp Hch Hb. unfold py_strip.
  rewrite (@chars_app space _ Hb), Hch. cbn [app drop_spaces]. now rewrite Hsp.
Qed.

Lemma split_on_nonempty (sep : ascii) (s : string) : split_on sep s <> [].
Proof.
  destruct s as [|c s]; cbn [split_on]; [discriminate|].
  destruct (Ascii.eqb c sep); [discriminate|].
  destruct (split_on sep s); discriminate.
Qed.

Lemma split_on_app (sep : ascii) (s t : string) :
  split_on sep (s ++ String sep t)%string = split_on sep s ++ split_on sep t.
Proof.
  induction s as [|c s IH]; cbn [append split_on].
  - now rewrite Ascii.eqb_refl.
  - destruct (Ascii.eqb c sep); [now rewrite IH|].
    rewrite IH. pose proof (split_on_nonempty sep s) as Hne.
    destruct (split_on sep s) as [|piece pieces]; [contradiction | reflexivity].
Qed.

Lemma newline_append (s : string) : (newline ++ s)%string = String newline_char s.
Proof. reflexivity. Qed.

(** A text block loses the newline after its rule to [strip()], and
    nothing else. *)
Lemma py_strip_block (a : string) :
  py_strip ("Question " ++ a ++ str_times "=" 80 ++ newline)
  = ("Question " ++ a ++ str_times "=" 80)%string.
Proof.
  assert (Hfirst : chars ("Question " ++ a ++ str_times "=" 80)
                   = "Q" :: chars ("uestion " ++ a ++ str_times "=" 80)).
  { change ("Question " ++ a ++ str_times "=" 80)%string
      with (String "Q" (String "u" ("estion " ++ a ++ str_times "=" 80)%string)).
    rewrite chars_cons. reflexivity. }
  assert (Hlast : rev (chars ("Question " ++ a ++ str_times "=" 80))
                  = "=" :: (rev (chars (str_times "=" 79)) ++ rev (chars ("Question " ++ a)))).
  { replace ("Question " ++ a ++ str_times "=" 80)%string
      with (("Question " ++ a) ++ str_times "=" 80)%string by apply append_assoc.
    rewrite (@chars_app ("Question " ++ a) (str_times "=" 80) eq_refl).
    rewrite rev_app_distr. reflexivity. }
  replace ("Question " ++ a ++ str_times "=" 80 ++ newline)%string
    with (("Question " ++ a ++ str_times "=" 80) ++ newline)%string
    by now rewrite !append_assoc.
  rewrite (@py_strip_space_after _ newline _ _ Hfirst eq_refl eq_refl eq_refl eq_refl).
  exact (@py_strip_tight _ _ _ _ _ Hfirst eq_refl Hlast eq_refl).
Qed.

Section SampleFacts.
Context {F : Type} `{Arith F} {W : Type}.
Variable format_2f : F -> string.

(** The text block of a result, without the white space around it. *)
Lemma format_result_text_stripped (r : FormattedResult F) :
  py_strip (format_result_text format_2f r)
  = (("Question " ++ str_of_Z (fr_question_number r) ++ ": " ++ fr_question r)
     ++ newline
     ++ ("Response Time: " ++ format_2f (fr_response_time r) ++ " ms")
     ++ newline
     ++ ("Answer: " ++ fr_answer r)
     ++ newline ++ newline ++ str_times "=" 80)%string.
Proof.
  pose proof (py_strip_block
                (str_of_Z (fr_question_number r) ++ ": " ++ fr_question r
                 ++ newline
                 ++ "Response Time: " ++ format_2f (fr_response_time r) ++ " ms"
                 ++ newline
                 ++ "Answer: " ++ fr_answer r
                 ++ newline ++ newline)) as Hs.
  rewrite !append_assoc in Hs.
  unfold format_result_text. rewrite !append_assoc.
  exact Hs.
Qed.

(** The lines of the text block of a result. *)
Lemma lines_of_format_result_text (r : FormattedResult F) :
  split_on newline_char (py_strip (format_result_text format_2f r))
  = split_on newline_char
      ("Question " ++ str_of_Z (fr_question_number r) ++ ": " ++ fr_question r)
    ++ split_on newline_char
         ("Response Time: " ++ format_2f (fr_response_time r) ++ " ms")
    ++ split_on newline_char ("Answer: " ++ fr_answer r)
    ++ [""; str_times "=" 80].
Proof.
  rewrite format_result_text_stripped.
  rewrite !newline_append, !split_on_app. reflexivity.
Qed.


End SampleFacts.

Section ConsoleFacts.
Context {S C : Type}.


End ConsoleFacts.

Lemma bindP_ok {S A B} (m : Prog S A) (k : A -> Prog S B) (s s' : S) (a : A) :
  m s = (Ok a, s') -> bindP m k s = k a s'.
Proof. intros Hm. unfold bindP. now rewrite Hm. Qed.






Section SummaryShape.
Context {F : Type} `{Arith F}.






End SummaryShape.

Section MainFacts.
Context {F : Type} `{Arith F} {W : Type}.
Variable world : World F W.
Variable format_2f : F -> string.





End MainFacts.

Section MainRuns.
Context {F : Type} `{Arith F} {W : Type}.
Variable world : World F W.
Variable format_2f : F -> string.




End MainRuns.


Section MainClaims.
Context {F : Type} `{Arith F} {W : Type}.
Variable world : World F W.
Variable format_2f : F -> string.



End MainClaims.


(** *** The sample that [main] prints *)

Lemma not_substring_cons (k : string) (c : ascii) (s : string) :
  is_substring k (String c s) = false ->
  String.prefix k (String c s) = false /\ is_substring k s = false.
Proof.
  unfold is_substring. cbn [String.index].
  destruct (String.prefix k (String c s)); [discriminate|].
  destruct (String.index 0 k s); [discriminate|]. now split.
Qed.

Lemma prefix_newline (c : ascii) (s : string) :
  String.prefix newline (String c s) = Ascii.eqb c newline_char.
Proof.
  unfold newline, newline_char. cbn [String.prefix].
  destruct (ascii_dec (ascii_of_nat 10) c) as [<-|Hne].
  - rewrite Ascii.eqb_refl. destruct s; reflexivity.
  - symmetry. apply Ascii.eqb_neq. congruence.
Qed.

Lemma not_newline_cons (c : ascii) (s : string) :
  is_substring newline (String c s) = false ->
  Ascii.eqb c newline_char = false /\ is_substring newline s = false.
Proof.
  intros Hs. apply not_substring_cons in Hs. now rewrite prefix_newline in Hs.
Qed.

Lemma newline_cons (c : ascii) (s : string) :
  Ascii.eqb c newline_char = false -> is_substring newline s = false ->
  is_substring newline (String c s) = false.
Proof.
  intros Hc Hs. unfold is_substring in *. cbn [String.index].
  rewrite prefix_newline, Hc.
  destruct (String.index 0 newline s); [discriminate | reflexivity].
Qed.

Lemma split_on_single_line (s : string) :
  is_substring newline s = false -> split_on newline_char s = [s].
Proof.
  induction s as [|c s IH]; intros Hs; [reflexivity|].
  apply not_newline_cons in Hs. destruct Hs as [Hc Hs].
  cbn [split_on]. now rewrite (IH Hs), Hc.
Qed.

Lemma single_line_app (s t : string) :
  is_substring newline s = false -> is_substring newline t = false ->
  is_substring newline (s ++ t) = false.
Proof.
  intros Hs Ht. induction s as [|c s IH]; [exact Ht|].
  apply not_newline_cons in Hs. destruct Hs as [Hc Hs].
  cbn [append]. apply newline_cons; [exact Hc | exact (IH Hs)].
Qed.

Lemma split_on_first_line (s t : string) :
  is_substring newline s = false ->
  split_on newline_char (s ++ t)
  = (s ++ first_line t)%string :: tl (split_on newline_char t).
Proof.
  intros Hs. unfold first_line. induction s as [|c s IH].
  - cbn [append]. pose proof (split_on_nonempty newline_char t).
    destruct (split_on newline_char t); [contradiction | reflexivity].
  - apply not_newline_cons in Hs. destruct Hs as [Hc Hs].
    cbn [append split_on]. now rewrite (IH Hs), Hc.
Qed.

Lemma remove_all_absent (old s : string) :
  is_substring old s = false -> remove_all old 0 s = s.
Proof.
  induction s as [|c s IH]; intros Hs; [reflexivity|].
  apply not_substring_cons in Hs. destruct Hs as [Hp Hs].
  cbn [remove_all]. now rewrite Hp, (IH Hs).
Qed.

Lemma plain_cons (c : ascii) (s : string) :
  plain (String c s) = true -> plain_char c = true /\ plain s = true.
Proof.
  unfold plain. cbn [list_ascii_of_string forallb]. intros Hs.
  now apply andb_true_iff in Hs.
Qed.

Lemma plain_char_facts (c : ascii) :
  plain_char c = true ->
  is_continuation c = false /\ isspace (String c "") = false /\ Ascii.eqb c "Q" = false.
Proof.
  unfold plain_char. rewrite !andb_true_iff, !negb_true_iff.
  intros [[Hascii Hspace] HQ]. repeat split; try assumption.
  unfold is_continuation. apply Nat.ltb_lt in Hascii.
  apply andb_false_iff. left. apply Nat.leb_gt. lia.
Qed.

Lemma remove_all_plain (s t : string) :
  plain s = true ->
  remove_all "Question" 0 (s ++ t) = (s ++ remove_all "Question" 0 t)%string.
Proof.
  induction s as [|c s IH]; intros Hs; [reflexivity|].
  apply plain_cons in Hs. destruct Hs as [Hc Hs].
  cbn [append remove_all]. rewrite (IH Hs).
  apply plain_char_facts in Hc. destruct Hc as (_ & _ & Hc).
  cbn [String.prefix]. destruct (ascii_dec "Q" c) as [<-|_]; [discriminate Hc | reflexivity].
Qed.

Lemma digits_are_plain (d : Decimal.uint) : plain (NilEmpty.string_of_uint d) = true.
Proof. induction d; cbn [NilEmpty.string_of_uint]; [reflexivity | exact IHd ..]. Qed.

Lemma str_of_Z_plain (n : Z) : plain (str_of_Z n) = true.
Proof.
  unfold str_of_Z, NilZero.string_of_int, NilZero.string_of_uint.
  destruct (Z.to_int n) as [d|d]; destruct d; try reflexivity;
    try (apply (digits_are_plain (_ d)));
    try (change (plain (String "-" ?s)) with (plain s); apply (digits_are_plain (_ d))).
Qed.

Lemma str_of_Z_nonempty (n : Z) : str_of_Z n <> "".
Proof.
  unfold str_of_Z, NilZero.string_of_int, NilZero.string_of_uint.
  destruct (Z.to_int n) as [d|d]; destruct d; discriminate.
Qed.

Lemma plain_is_single_line (s : string) : plain s = true -> is_substring newline s = false.
Proof.
  induction s as [|c s IH]; intros Hs; [reflexivity|].
  apply plain_cons in Hs. destruct Hs as [Hc Hs].
  apply newline_cons; [|exact (IH Hs)].
  destruct (Ascii.eqb_spec c newline_char) as [->|_]; [discriminate Hc | reflexivity].
Qed.

Lemma plain_begins_a_char (s : string) : plain s = true -> begins_a_char s = true.
Proof.
  destruct s as [|c s]; [reflexivity|]. intros Hs.
  apply plain_cons in Hs. destruct Hs as [Hc _].
  apply plain_char_facts in Hc. destruct Hc as (Hc & _ & _).
  cbn [begins_a_char]. now rewrite Hc.
Qed.

(** The first character of a str that begins with a plain one. *)
Lemma chars_plain_head (c : ascii) (s t : string) :
  plain (String c s) = true -> begins_a_char t = true ->
  chars (String c s ++ t) = String c "" :: chars (s ++ t).
Proof.
  intros Hs Ht. apply plain_cons in Hs. destruct Hs as [_ Hs].
  change (String c s ++ t)%string with (String c (s ++ t)%string).
  assert (Hb : begins_a_char (s ++ t) = true).
  { destruct s as [|c' s']; [exact Ht|]. now apply plain_begins_a_char in Hs. }
  destruct (s ++ t)%string as [|c' r]; [reflexivity|].
  cbn [begins_a_char] in Hb. apply negb_true_iff in Hb.
  rewrite chars_cons, Hb. reflexivity.
Qed.

Lemma last_char_is_no_space (q : string) :
  q <> "" -> ends_with_space q = false ->
  exists last front, rev (chars q) = last :: front /\ isspace last = false.
Proof.
  intros Hne Hend. unfold ends_with_space in Hend.
  destruct (rev (chars q)) as [|last front] eqn:Hrev.
  - apply (f_equal (@rev string)) in Hrev. rewrite rev_involutive in Hrev.
    now apply chars_nonempty in Hne.
  - now exists last, front.
Qed.

Lemma first_line_begins_a_char (a : string) :
  begins_a_char a = true -> begins_a_char (first_line a) = true.
Proof.
  destruct a as [|c a]; [reflexivity|]. intros Hc. unfold first_line. cbn [split_on].
  destruct (Ascii.eqb c newline_char); [reflexivity|].
  destruct (split_on newline_char a); exact Hc.
Qed.

(** [(p + t)[:k + m]] for a [p] of [k] characters. *)
Lemma py_take_app (p t : string) (m : nat) :
  begins_a_char t = true ->
  py_take (length (chars p) + m) (p ++ t) = (p ++ py_take m t)%string.
Proof.
  intros Ht. unfold py_take. rewrite (@chars_app p t Ht).
  rewrite firstn_app_2, join_app, join_chars. reflexivity.
Qed.

Lemma skipn_last_three {X} (front : list X) (a b c : X) :
  py_slice_from (front ++ [a; b; c]) (-3) = [a; b; c].
Proof.
  unfold py_slice_from. change (-3 <? 0)%Z with true. cbv iota.
  rewrite length_app. cbn [length].
  replace (Z.to_nat (Z.of_nat (length front + 3) + -3)) with (length front + 0)%nat by lia.
  now rewrite skipn_app, Nat.add_0_r, skipn_all, Nat.sub_diag.
Qed.

Section SampleContents.
Context {F : Type} `{Arith F} {W : Type}.
Variable format_2f : F -> string.

(** The line of the question, read back from the text block. *)
Lemma question_line_read_back (n : Z) (q : string) :
  shows_as_written q = true ->
  py_strip (remove_all "Question" 0 ("Question " ++ str_of_Z n ++ ": " ++ q))
  = (str_of_Z n ++ ": " ++ q)%string.
Proof.
  unfold shows_as_written. rewrite !andb_true_iff, !negb_true_iff.
  intros [[[[Hbegins _] Hword] Hend] Hne].
  apply String.eqb_neq in Hne.
  change (remove_all "Question" 0 ("Question " ++ ?x))
    with (" " ++ remove_all "Question" 0 x)%string.
  rewrite (@remove_all_plain _ _ (str_of_Z_plain n)).
  change (remove_all "Question" 0 (": " ++ q))
    with (": " ++ remove_all "Question" 0 q)%string.
  rewrite (@remove_all_absent _ _ Hword).
  pose proof (str_of_Z_plain n) as Hplain.
  pose proof (@str_of_Z_nonempty n) as Hnum.
  destruct (str_of_Z n) as [|c number]; [contradiction|].
  assert (Hb : begins_a_char (String c number ++ ": " ++ q) = true).
  { apply plain_begins_a_char in Hplain. exact Hplain. }
  rewrite (@py_strip_space_before _ " " eq_refl eq_refl Hb).
  assert (Hfirst : chars (String c number ++ ": " ++ q)
                   = String c "" :: chars (number ++ ": " ++ q)).
  { now apply chars_plain_head. }
  destruct (last_char_is_no_space Hne Hend) as (last & front & Hrev & Hlast).
  assert (Hback : rev (chars (String c number ++ ": " ++ q))
                  = last :: (front ++ rev (chars (String c number ++ ": ")))).
  { replace (String c number ++ ": " ++ q)%string
      with ((String c number ++ ": ") ++ q)%string by apply append_assoc.
    rewrite (@chars_app _ q Hbegins), rev_app_distr, Hrev. reflexivity. }
  apply plain_cons in Hplain. destruct Hplain as [Hc _].
  apply plain_char_facts in Hc. destruct Hc as (_ & Hc & _).
  exact (@py_strip_tight _ _ _ _ _ Hfirst Hc Hback Hlast).
Qed.

(** What [main] prints for a readable result that is not the fourth of
    the sample. *)
Lemma show_sample_of_result (label : Z) (r : FormattedResult F)
    (s : Demonstrator F * W) (console : list (Printed F)) :
  label <> 4%Z -> readable format_2f r ->
  show_sample (label, format_result_text format_2f r) tt (s, console)
  = (Ok tt, (s, console ++ sample_of_result format_2f label r)).
Proof.
  intros Hlabel (Hq & Ht & Ha). unfold show_sample. cbn [fst snd].
  destruct (Z.eqb_spec label 4) as [|_]; [contradiction|].
  rewrite lines_of_format_result_text.
  assert (Hline : is_substring newline (fr_question r) = false).
  { unfold shows_as_written in Hq. rewrite !andb_true_iff, !negb_true_iff in Hq. tauto. }
  rewrite (@split_on_single_line
             ("Question " ++ str_of_Z (fr_question_number r) ++ ": " ++ fr_question r)).
  2:{ apply (@single_line_app "Question " _ eq_refl).
      apply single_line_app; [apply plain_is_single_line, str_of_Z_plain|].
      now apply (@single_line_app ": " _ eq_refl). }
  rewrite (@split_on_single_line
             ("Response Time: " ++ format_2f (fr_response_time r) ++ " ms")).
  2:{ apply (@single_line_app "Response Time: " _ eq_refl).
      now apply single_line_app. }
  rewrite (@split_on_first_line "Answer: " (fr_answer r) eq_refl).
  unfold bindP, print, modify, lift, py_getitem. cbn [fst snd nth_error app].
  rewrite (@question_line_read_back _ _ Hq).
  change 100%nat with (length (chars "Answer: ") + 92)%nat.
  rewrite (@py_take_app "Answer: " _ 92 (first_line_begins_a_char _ Ha)).
  unfold sample_of_result. rewrite <- !app_assoc. reflexivity.
Qed.

(** X28.  The calls of [print] that show the sample, for results whose
    questions have one line, do not contain the word Question, are not
    empty and do not end with white space (as the questions of the script
    are), whose times are rendered on one line, and whose questions and
    answers are strs (no encoding begins inside a character).  The loop
    never fails.  It shows the first three results and the last two; the
    third from the end is not shown, the truncation mark takes its place.
    The last two are labelled 5 and 6 whatever their question numbers are,
    and the lines of the time and of the answer carry their captions
    twice.  The preview of an answer is the first 100 characters of its
    line: the caption and the first 92 characters of the first line of the
    answer. *)
Theorem sample_shows_five_results (first second third : FormattedResult F)
    (middle : list (FormattedResult F)) (antepenultimate penultimate last : FormattedResult F)
    (s : Demonstrator F * W) (console : list (Printed F)) :
  Forall (readable format_2f) [first; second; third; penultimate; last] ->
  let results :=
    map (format_result_text format_2f)
      (first :: second :: third :: middle ++ [antepenultimate; penultimate; last]) in
  for_each (enumerate (py_slice_to results 3 ++ py_slice_from results (-3)) 1) tt
    show_sample (s, console)
  = (Ok tt,
     (s, console
         ++ sample_of_result format_2f 1 first
         ++ sample_of_result format_2f 2 second
         ++ sample_of_result format_2f 3 third
         ++ [Line "... [truncated] ..."]
         ++ sample_of_result format_2f 5 penultimate
         ++ sample_of_result format_2f 6 last)).
Proof.
  intros Hreadable results.
  inversion Hreadable as [|? ? H1 Hr1]; subst.
  inversion Hr1 as [|? ? H2 Hr2]; subst.
  inversion Hr2 as [|? ? H3 Hr3]; subst.
  inversion Hr3 as [|? ? H5 Hr5]; subst.
  inversion Hr5 as [|? ? H6 _]; subst.
  assert (Hfront : py_slice_to results 3
                   = map (format_result_text format_2f) [first; second; third])
    by reflexivity.
  assert (Hback : py_slice_from results (-3)
                  = map (format_result_text format_2f) [antepenultimate; penultimate; last]).
  { unfold results.
    change (first :: second :: third :: middle ++ [antepenultimate; penultimate; last])
      with ((first :: second :: third :: middle) ++ [antepenultimate; penultimate; last]).
    rewrite map_app. apply skipn_last_three. }
  rewrite Hfront, Hback. cbn [map app enumerate for_each Z.add Pos.add Pos.succ].
  rewrite (bindP_ok _ _ _ (@show_sample_of_result 1%Z _ s console ltac:(discriminate) H1)).
  rewrite (bindP_ok _ _ _ (@show_sample_of_result 2%Z _ s _ ltac:(discriminate) H2)).
  rewrite (bindP_ok _ _ _ (@show_sample_of_result 3%Z _ s _ ltac:(discriminate) H3)).
  assert (Hmark : forall c : list (Printed F),
             show_sample (W := W) (4%Z, format_result_text format_2f antepenultimate) tt (s, c)
             = (Ok tt, (s, c ++ [Line "... [truncated] ..."]))) by reflexivity.
  rewrite (bindP_ok _ _ _ (Hmark _)).
  rewrite (bindP_ok _ _ _ (@show_sample_of_result 5%Z _ s _ ltac:(discriminate) H5)).
  rewrite (bindP_ok _ _ _ (@show_sample_of_result 6%Z _ s _ ltac:(discriminate) H6)).
  unfold ret. rewrite <- !app_assoc. reflexivity.
Qed.

End SampleContents.

(** The preview is cut between characters, not between bytes. *)
Example py_take_counts_characters :
  py_take 2 (utf8 0xE9 ++ utf8 0x20AC ++ "x") = (utf8 0xE9 ++ utf8 0x20AC)%string /\
  String.length (utf8 0xE9 ++ utf8 0x20AC) = 5.
Proof. vm_compute. split; reflexivity. Qed.

Lemma krishna_questions_show_as_written :
  forallb shows_as_written KRISHNA_QUESTIONS = true.
Proof. vm_compute. reflexivity. Qed.

(** X28 at seven results of a run of the script's questions. *)
Lemma sample_shows_five_results_witness :
  let result (n : Z) (q : string) :=
    {| fr_question_number := n; fr_question := q;
       fr_response_time := 12.5%float; fr_answer := mock_response |} in
  let format_2f (t : float) := "12.50" in
  let first := result 1%Z (nth 0 KRISHNA_QUESTIONS "") in
  let second := result 2%Z (nth 1 KRISHNA_QUESTIONS "") in
  let third := result 3%Z (nth 2 KRISHNA_QUESTIONS "") in
  let fourth := result 4%Z (nth 3 KRISHNA_QUESTIONS "") in
  let fifth := result 5%Z (nth 4 KRISHNA_QUESTIONS "") in
  let sixth := result 6%Z (nth 5 KRISHNA_QUESTIONS "") in
  let seventh := result 7%Z (nth 6 KRISHNA_QUESTIONS "") in
  let results :=
    map (format_result_text format_2f)
      [first; second; third; fourth; fifth; sixth; seventh] in
  Forall (readable format_2f) [first; second; third; sixth; seventh] /\
  for_each (enumerate (py_slice_to results 3 ++ py_slice_from results (-3)) 1) tt
    show_sample (new_demonstrator float, 0%nat, [])
  = (Ok tt,
     (new_demonstrator float, 0%nat,
      sample_of_result format_2f 1 first
      ++ sample_of_result format_2f 2 second
      ++ sample_of_result format_2f 3 third
      ++ [Line "... [truncated] ..."]
      ++ sample_of_result format_2f 5 sixth
      ++ sample_of_result format_2f 6 seventh)).
Proof.
  intros result format_2f first second third fourth fifth sixth seventh results.
  assert (Hreadable : Forall (readable format_2f) [first; second; third; sixth; seventh]).
  { repeat constructor. }
  split; [exact Hreadable|].
  exact (@sample_shows_five_results float nat format_2f first second third [fourth]
           fifth sixth seventh (new_demonstrator float, 0%nat) [] Hreadable).
Defined.
